(** * Bagify receipt tracker: aging, classification and the receipt CRUD API

    A shallow embedding of the receipt logic of the repository:

    - the Aging Calculator [calculateDateDifference] of the front-end
      service ([geminiService]),
    - the tier label and [getUrgencyStyling] of [ReceiptRow],
    - the in-memory back end (array [receipts], counter [receiptId]),
    - the Firestore back end ([backend/server.js]), over an interface for
      the calls it awaits,
    - the daily scan [checkAndSendAlerts] of the original back end.

    JavaScript numbers are modelled by [num]: [NaN] or an integer.  Every
    number the modelled code computes is an integer (millisecond time
    stamps, day counts, the id counter) except the quotient inside
    [Math.ceil(diffTime / (1000 * 60 * 60 * 24))], which is modelled together
    with its ceiling: a difference of time values is below 2^53, and a
    quotient that is not whole lies at least 1/86400000 from the integers,
    more than half an ulp of any quotient below 2^27, so the ceiling of the
    floating-point quotient is the ceiling of the exact one.  Request bodies
    and stored fields carry JSON scalars. *)

From Stdlib Require Import ZArith String Ascii List Bool Lia.
From Stdlib Require Import DecimalString Permutation Sorted.
Import ListNotations.

Open Scope string_scope.
Open Scope Z_scope.

(** ** JavaScript values *)

Inductive num : Type :=
| NaN
| Int (z : Z).

Inductive JsVal : Type :=
| JUndefined
| JNull
| JBool (b : bool)
| JNum (n : num)
| JStr (s : string).

(** Outcome of an awaited call or of a [try] block. *)
Inductive Result (A : Type) : Type :=
| Ok (a : A)
| Throw (message : string).
Arguments Ok {A} a.
Arguments Throw {A} message.

(** The built-ins whose full definition lies in the JavaScript engine: they
    are functions of their argument, and nothing more is assumed of them. *)
Class JsEngine : Type := {
  (** [parseInt(s)] *)
  parseInt : string -> num;
  (** [Number(s)] on a string, as used by [>=] and [<=] against a number *)
  StringToNumber : string -> num;
  (** [Date.parse] on the strings that [JsDate.parse_iso] below does not
      read: the other forms of the ECMAScript format and the legacy ones *)
  Date_parse_fallback : string -> num
}.

Module Js.

Definition num_eqb (a b : num) : bool :=
  match a, b with
  | Int x, Int y => x =? y
  | _, _ => false
  end.

(** [a === b] *)
Definition strict_eq (a b : JsVal) : bool :=
  match a, b with
  | JUndefined, JUndefined => true
  | JNull, JNull => true
  | JBool x, JBool y => Bool.eqb x y
  | JNum x, JNum y => num_eqb x y
  | JStr x, JStr y => String.eqb x y
  | _, _ => false
  end.

(** [ToBoolean] *)
Definition truthy (v : JsVal) : bool :=
  match v with
  | JUndefined => false
  | JNull => false
  | JBool b => b
  | JNum NaN => false
  | JNum (Int z) => negb (z =? 0)
  | JStr s => negb (String.eqb s EmptyString)
  end.

(** [a || b] *)
Definition or (a b : JsVal) : JsVal := if truthy a then a else b.

Definition ToNumber `{JsEngine} (v : JsVal) : num :=
  match v with
  | JUndefined => NaN
  | JNull => Int 0
  | JBool true => Int 1
  | JBool false => Int 0
  | JNum n => n
  | JStr s => StringToNumber s
  end.

Definition num_geb (a b : num) : bool :=
  match a, b with
  | Int x, Int y => y <=? x
  | _, _ => false
  end.

Definition num_leb (a b : num) : bool :=
  match a, b with
  | Int x, Int y => x <=? y
  | _, _ => false
  end.

Definition num_gtb (a b : num) : bool :=
  match a, b with
  | Int x, Int y => y <? x
  | _, _ => false
  end.

(** [v >= n], [v <= n] and [v > n] for a number literal [n] *)
Definition ge `{JsEngine} (v : JsVal) (n : Z) : bool := num_geb (ToNumber v) (Int n).
Definition le `{JsEngine} (v : JsVal) (n : Z) : bool := num_leb (ToNumber v) (Int n).
Definition gt `{JsEngine} (v : JsVal) (n : Z) : bool := num_gtb (ToNumber v) (Int n).

Definition sub (a b : num) : num :=
  match a, b with
  | Int x, Int y => Int (x - y)
  | _, _ => NaN
  end.

(** [Math.ceil(a / d)] for a positive literal [d] *)
Definition ceil_div (a : num) (d : Z) : num :=
  match a with
  | Int x => Int (- ((- x) / d))
  | NaN => NaN
  end.

Definition nl : string := String (ascii_of_nat 10) EmptyString.

Definition num_to_string (n : num) : string :=
  match n with
  | NaN => "NaN"
  | Int z => NilZero.string_of_int (Z.to_int z)
  end.

(** [ToString], as a template literal applies it *)
Definition ToString (v : JsVal) : string :=
  match v with
  | JUndefined => "undefined"
  | JNull => "null"
  | JBool true => "true"
  | JBool false => "false"
  | JNum n => num_to_string n
  | JStr s => s
  end.

End Js.

(** ** Dates

    [new Date(s).getTime()] is [Date.parse s].  The forms [YYYY-MM-DD] and
    [YYYY-MM-DDTHH:mm[:ss[.sss]]Z] of the ECMAScript date-time format are
    read by [parse_iso]; any other string is left to the engine.  A date-only
    form denotes midnight UTC. *)

Module JsDate.

Definition msPerDay : Z := 1000 * 60 * 60 * 24.

Definition digit (c : ascii) : option Z :=
  let n := Z.of_nat (nat_of_ascii c) in
  if (48 <=? n) && (n <=? 57) then Some (n - 48) else None.

Definition digits2 (a b : ascii) : option Z :=
  match digit a, digit b with
  | Some x, Some y => Some (10 * x + y)
  | _, _ => None
  end.

Definition digits3 (a b c : ascii) : option Z :=
  match digit a, digits2 b c with
  | Some x, Some y => Some (100 * x + y)
  | _, _ => None
  end.

Definition digits4 (a b c d : ascii) : option Z :=
  match digits2 a b, digits2 c d with
  | Some x, Some y => Some (100 * x + y)
  | _, _ => None
  end.

Definition isLeap (y : Z) : bool :=
  ((y mod 4 =? 0) && negb (y mod 100 =? 0)) || (y mod 400 =? 0).

Definition daysInMonth (y m : Z) : Z :=
  if m =? 2 then (if isLeap y then 29 else 28)
  else if (m =? 4) || (m =? 6) || (m =? 9) || (m =? 11) then 30
  else 31.

(** Day number of a civil date, day 0 being 1970-01-01 ([MakeDay]). *)
Definition daysFromCivil (y m d : Z) : Z :=
  let y' := if m <=? 2 then y - 1 else y in
  let era := y' / 400 in
  let yoe := y' - era * 400 in
  let mp := if 2 <? m then m - 3 else m + 9 in
  let doy := (153 * mp + 2) / 5 + d - 1 in
  let doe := yoe * 365 + yoe / 4 - yoe / 100 + doy in
  era * 146097 + doe - 719468.

Definition parse_date (s : list ascii) : option Z :=
  match s with
  | [y1; y2; y3; y4; d1; m1; m2; d2; a1; a2] =>
      if Ascii.eqb d1 "-" && Ascii.eqb d2 "-" then
        match digits4 y1 y2 y3 y4, digits2 m1 m2, digits2 a1 a2 with
        | Some y, Some m, Some d =>
            if (1 <=? m) && (m <=? 12) && (1 <=? d) && (d <=? daysInMonth y m)
            then Some (daysFromCivil y m d) else None
        | _, _, _ => None
        end
      else None
  | _ => None
  end.

(** [HH:mm], [HH:mm:ss] or [HH:mm:ss.sss], followed by [Z] *)
Definition parse_time (s : list ascii) : option Z :=
  let hm (h1 h2 c m1 m2 : ascii) : option Z :=
    if Ascii.eqb c ":" then
      match digits2 h1 h2, digits2 m1 m2 with
      | Some h, Some m =>
          if (h <=? 23) && (m <=? 59) then Some (h * 3600000 + m * 60000) else None
      | _, _ => None
      end
    else None in
  let sec (c s1 s2 : ascii) : option Z :=
    if Ascii.eqb c ":" then
      match digits2 s1 s2 with
      | Some x => if x <=? 59 then Some (x * 1000) else None
      | None => None
      end
    else None in
  let add (a b : option Z) : option Z :=
    match a, b with
    | Some x, Some y => Some (x + y)
    | _, _ => None
    end in
  match s with
  | [h1; h2; c; m1; m2; z] =>
      if Ascii.eqb z "Z" then hm h1 h2 c m1 m2 else None
  | [h1; h2; c; m1; m2; c'; s1; s2; z] =>
      if Ascii.eqb z "Z" then add (hm h1 h2 c m1 m2) (sec c' s1 s2) else None
  | [h1; h2; c; m1; m2; c'; s1; s2; dot; f1; f2; f3; z] =>
      if Ascii.eqb z "Z" && Ascii.eqb dot "." then
        add (add (hm h1 h2 c m1 m2) (sec c' s1 s2)) (digits3 f1 f2 f3)
      else None
  | _ => None
  end.

(** The forms [YYYY-MM-DD] and [YYYY-MM-DDTHH:mm[:ss[.sss]]Z] of the
    ECMAScript date-time format, as milliseconds since the epoch. *)
Definition parse_iso (s : string) : option Z :=
  let cs := list_ascii_of_string s in
  match parse_date (firstn 10 cs), skipn 10 cs with
  | Some day, [] => Some (day * msPerDay)
  | Some day, t :: rest =>
      if Ascii.eqb t "T" then
        match parse_time rest with
        | Some ms => Some (day * msPerDay + ms)
        | None => None
        end
      else None
  | None, _ => None
  end.

(** [new Date(s)], held as its time value *)
Definition Date_new `{JsEngine} (s : string) : num :=
  match parse_iso s with
  | Some ms => Int ms
  | None => Date_parse_fallback s
  end.

Definition getTime (d : num) : num := d.

End JsDate.

(** ** Front end: types *)

(** [enum Status] *)
Inductive Status : Type :=
| Pending
| Done
| Delayed.

Definition Status_value (s : Status) : string :=
  match s with
  | Pending => "Pending"
  | Done => "Done"
  | Delayed => "Delayed/Excused"
  end.

Definition Status_eqb (a b : Status) : bool :=
  match a, b with
  | Pending, Pending => true
  | Done, Done => true
  | Delayed, Delayed => true
  | _, _ => false
  end.

(** ** Front end: the Aging Calculator ([geminiService]) *)

Module GeminiService.

Record Aging : Type := mkAging {
  daysPassed : num;
  daysLeft : num
}.

Section AgingCalculator.
Context `{JsEngine}.

Definition calculateDateDifference (orderDate : string) : Aging :=
  if String.eqb orderDate "N/A" then {| daysPassed := Int 0; daysLeft := Int 18 |}
  else
    let today := JsDate.Date_new "2025-10-24" in
    let orderDateTime := JsDate.getTime (JsDate.Date_new orderDate) in
    let todayTime := JsDate.getTime today in
    let diffTime := Js.sub todayTime orderDateTime in
    let daysPassed := Js.ceil_div diffTime (1000 * 60 * 60 * 24) in
    let daysLeft := Js.sub (Int 18) daysPassed in
    {| daysPassed := daysPassed; daysLeft := daysLeft |}.

End AgingCalculator.

(** The fixed reference date of the calculator, 2025-10-24T00:00:00Z. *)
Definition referenceTime : Z := 1761264000000.

End GeminiService.

(** ** Front end: the tier of a receipt row ([ReceiptRow]) *)

Module ReceiptRow.

Inductive Tier : Type :=
| OK
| DUE_SOON
| OVERDUE
| COMPLETED.

(** The label rendered by [ReceiptRow]. *)
Definition tierLabel (status : Status) (daysPassed : num) : string :=
  if Status_eqb status Done then "COMPLETED"
  else if Js.num_gtb daysPassed (Int 18) then "OVERDUE"
  else if Js.num_geb daysPassed (Int 9) then "DUE SOON"
  else "OK".

Record Styling : Type := mkStyling {
  border : string;
  text : string
}.

Definition getUrgencyStyling (status : Status) (daysPassed : num) : Styling :=
  if Status_eqb status Done then
    {| border := "border-l-4 border-gray-600"; text := "text-gray-400" |}
  else if Js.num_gtb daysPassed (Int 18) then
    {| border := "border-l-4 border-red-500"; text := "text-red-400" |}
  else if Js.num_geb daysPassed (Int 9) && Js.num_leb daysPassed (Int 18) then
    {| border := "border-l-4 border-yellow-500"; text := "text-yellow-400" |}
  else
    {| border := "border-l-4 border-green-500"; text := "text-green-400" |}.

(** The tier a label or a styling stands for. *)
Definition tier_of_label (l : string) : option Tier :=
  if String.eqb l "COMPLETED" then Some COMPLETED
  else if String.eqb l "OVERDUE" then Some OVERDUE
  else if String.eqb l "DUE SOON" then Some DUE_SOON
  else if String.eqb l "OK" then Some OK
  else None.

Definition tier_of_styling (s : Styling) : option Tier :=
  if String.eqb (text s) "text-gray-400" then Some COMPLETED
  else if String.eqb (text s) "text-red-400" then Some OVERDUE
  else if String.eqb (text s) "text-yellow-400" then Some DUE_SOON
  else if String.eqb (text s) "text-green-400" then Some OK
  else None.

End ReceiptRow.

(** A reference engine for concrete runs: decimal [parseInt] and [Number]
    on plain digit strings, no legacy date formats.  It agrees with a real
    engine on the inputs used below. *)
Module RefEngine.

Fixpoint digits (cs : list ascii) (acc : Z) : Z * list ascii :=
  match cs with
  | c :: rest =>
      match JsDate.digit c with
      | Some d => digits rest (10 * acc + d)
      | None => (acc, cs)
      end
  | [] => (acc, [])
  end.

Definition parseInt_dec (s : string) : num :=
  match list_ascii_of_string s with
  | c :: rest =>
      match JsDate.digit c with
      | Some d => Int (fst (digits rest d))
      | None => NaN
      end
  | [] => NaN
  end.

Definition number_dec (s : string) : num :=
  match list_ascii_of_string s with
  | c :: rest =>
      match JsDate.digit c with
      | Some d =>
          match digits rest d with
          | (n, []) => Int n
          | (_, _ :: _) => NaN
          end
      | None => NaN
      end
  | [] => Int 0
  end.

Definition engine : JsEngine := {|
  parseInt := parseInt_dec;
  StringToNumber := number_dec;
  Date_parse_fallback := fun _ => NaN
|}.

End RefEngine.

(** ** Requests and responses *)

(** A JSON request body: the value of each key, [JUndefined] when absent. *)
Definition Body : Type := string -> JsVal.

(** The body with exactly the listed keys, each listed once. *)
Fixpoint obj (fields : list (string * JsVal)) : Body :=
  fun key =>
    match fields with
    | [] => JUndefined
    | (k, v) :: rest => if String.eqb k key then v else obj rest key
    end.

(** ** The in-memory back end

    State: [let receipts = []; let receiptId = 1;].  Handlers take the state
    and return the response with the state they leave.  [uploadedAt] and
    [updatedAt] hold the instant (milliseconds) whose [toISOString()] the
    code stores; the code reads them back only through [new Date(...)]. *)

Module Simple.

Record Receipt : Type := mkReceipt {
  id : num;
  imageSrc : JsVal;
  extractedText : JsVal;
  orderDate : JsVal;
  daysPassed : JsVal;
  daysLeft : JsVal;
  status : JsVal;
  note : JsVal;
  fileName : JsVal;
  uploadedAt : Z;
  updatedAt : Z;
  updatedBy : JsVal
}.

Definition set_status (v : JsVal) (r : Receipt) : Receipt :=
  mkReceipt (id r) (imageSrc r) (extractedText r) (orderDate r) (daysPassed r)
    (daysLeft r) v (note r) (fileName r) (uploadedAt r) (updatedAt r) (updatedBy r).

Definition set_note (v : JsVal) (r : Receipt) : Receipt :=
  mkReceipt (id r) (imageSrc r) (extractedText r) (orderDate r) (daysPassed r)
    (daysLeft r) (status r) v (fileName r) (uploadedAt r) (updatedAt r) (updatedBy r).

Definition set_updatedAt (t : Z) (r : Receipt) : Receipt :=
  mkReceipt (id r) (imageSrc r) (extractedText r) (orderDate r) (daysPassed r)
    (daysLeft r) (status r) (note r) (fileName r) (uploadedAt r) t (updatedBy r).

Definition set_updatedBy (v : JsVal) (r : Receipt) : Receipt :=
  mkReceipt (id r) (imageSrc r) (extractedText r) (orderDate r) (daysPassed r)
    (daysLeft r) (status r) (note r) (fileName r) (uploadedAt r) (updatedAt r) v.

Record State : Type := mkState {
  receipts : list Receipt;
  receiptId : Z
}.

Definition initial : State := {| receipts := []; receiptId := 1 |}.

Inductive Payload : Type :=
| Error (error : string)
| One (receipt : Receipt)
| Many (all : list Receipt)
| Deleted (success : bool) (message : string) (deleted : num)
| Stats (totalReceipts pendingReceipts completedReceipts alertReceipts : nat).

Record Response : Type := mkResponse {
  code : Z;
  payload : Payload
}.

(** [res.json(x)] and [res.status(c).json(x)] *)
Definition json (x : Payload) : Response := {| code := 200; payload := x |}.
Definition status_json (c : Z) (x : Payload) : Response := {| code := c; payload := x |}.

(** [Array.prototype.sort(compareFn)]: a stable sort that puts [a] after
    [b] only when [compareFn a b > 0]. *)
Section Sort.
Variable compareFn : Receipt -> Receipt -> Z.

Fixpoint insert (a : Receipt) (l : list Receipt) : list Receipt :=
  match l with
  | [] => [a]
  | b :: rest => if 0 <? compareFn a b then b :: insert a rest else a :: b :: rest
  end.

Fixpoint sort (l : list Receipt) : list Receipt :=
  match l with
  | [] => []
  | a :: rest => insert a (sort rest)
  end.
End Sort.

(** [(a, b) => new Date(b.uploadedAt) - new Date(a.uploadedAt)] *)
Definition byUploadedAtDesc (a b : Receipt) : Z := uploadedAt b - uploadedAt a.

(** Assignment through the reference that [find] returned: the first
    element satisfying [p] is the object that changes. *)
Fixpoint mutate_first (p : Receipt -> bool) (f : Receipt -> Receipt)
    (l : list Receipt) : list Receipt :=
  match l with
  | [] => []
  | r :: rest => if p r then f r :: rest else r :: mutate_first p f rest
  end.

Section Handlers.
Context `{JsEngine}.

(** GET /api/receipts; [sort] works in place on the stored array. *)
Definition get_receipts (st : State) : Response * State :=
  let sortedReceipts := sort byUploadedAtDesc (receipts st) in
  (json (Many sortedReceipts),
   {| receipts := sortedReceipts; receiptId := receiptId st |}).

(** POST /api/receipts.  [now 0] is the clock as [Date.now()] reads it for
    the default file name, [now 1] and [now 2] as the two [new Date()] do. *)
Definition post_receipts (now : nat -> Z) (body : Body) (st : State)
    : Response * State :=
  let imageSrc := body "imageSrc" in
  let extractedText := body "extractedText" in
  let orderDate := body "orderDate" in
  let daysPassed := body "daysPassed" in
  let daysLeft := body "daysLeft" in
  let fileName := body "fileName" in
  if negb (Js.truthy imageSrc) || negb (Js.truthy extractedText) then
    (status_json 400 (Error "imageSrc and extractedText are required"), st)
  else
    let newReceipt := {|
      id := Int (receiptId st);
      imageSrc := imageSrc;
      extractedText := extractedText;
      orderDate := Js.or orderDate (JStr "N/A");
      daysPassed := Js.or daysPassed (JNum (Int 0));
      daysLeft := Js.or daysLeft (JNum (Int 18));
      status := JStr "Pending";
      note := JStr EmptyString;
      fileName :=
        Js.or fileName (JStr ("receipt-" ++ Js.num_to_string (Int (now 0%nat))));
      uploadedAt := now 1%nat;
      updatedAt := now 2%nat;
      updatedBy := JStr "system"
    |} in
    (status_json 201 (One newReceipt),
     {| receipts := receipts st ++ [newReceipt]; receiptId := receiptId st + 1 |}).

(** PUT /api/receipts/:id *)
Definition put_receipt (now : Z) (id : string) (body : Body) (st : State)
    : Response * State :=
  let status := body "status" in
  let note := body "note" in
  let updatedBy := body "updatedBy" in
  let matches := fun r : Receipt => Js.num_eqb (Simple.id r) (parseInt id) in
  match find matches (receipts st) with
  | None => (status_json 404 (Error "Receipt not found"), st)
  | Some receipt =>
      let receipt := if Js.truthy status then set_status status receipt else receipt in
      let receipt :=
        if negb (Js.strict_eq note JUndefined) then set_note note receipt else receipt in
      let receipt := set_updatedAt now receipt in
      let receipt := set_updatedBy (Js.or updatedBy (JStr "user")) receipt in
      (json (One receipt),
       {| receipts := mutate_first matches (fun _ => receipt) (receipts st);
          receiptId := receiptId st |})
  end.

(** DELETE /api/receipts/:id *)
Definition delete_receipt (id : string) (st : State) : Response * State :=
  let initialLength := length (receipts st) in
  let receipts' :=
    filter (fun r => negb (Js.num_eqb (Simple.id r) (parseInt id))) (receipts st) in
  let st' := {| receipts := receipts'; receiptId := receiptId st |} in
  if Nat.eqb (length receipts') initialLength then
    (status_json 404 (Error "Receipt not found"), st')
  else
    (json (Deleted true "Receipt deleted" (parseInt id)), st').

Definition isAlert (r : Receipt) : bool :=
  Js.strict_eq (status r) (JStr "Pending")
  && Js.ge (daysPassed r) 5 && Js.le (daysPassed r) 18.

(** GET /api/alerts *)
Definition get_alerts (st : State) : Response * State :=
  let alerts := filter isAlert (receipts st) in
  (json (Many alerts), st).

(** GET /api/stats *)
Definition get_stats (st : State) : Response * State :=
  let rs := receipts st in
  let stats :=
    Stats
      (length rs)
      (length (filter (fun r => Js.strict_eq (status r) (JStr "Pending")) rs))
      (length (filter (fun r => Js.strict_eq (status r) (JStr "Done")) rs))
      (length (filter (fun r => Js.strict_eq (status r) (JStr "Pending")
                                && Js.ge (daysPassed r) 5) rs)) in
  (json stats, st).

End Handlers.

End Simple.

(** ** Front end: the request that [processReceiptFile] posts *)

Module Upload.
Section Upload.
Context `{JsEngine}.

(** [JSON.stringify] writes [NaN] as [null]. *)
Definition stringify_num (n : num) : JsVal :=
  match n with
  | NaN => JNull
  | Int z => JNum (Int z)
  end.

(** The body of the POST, from the file's object URL, the extracted text,
    the analysed date and the file name. *)
Definition receiptData (imageSrc extractedText orderDate fileName : string) : Body :=
  let aging := GeminiService.calculateDateDifference orderDate in
  obj [ ("imageSrc", JStr imageSrc);
        ("extractedText", JStr extractedText);
        ("orderDate", JStr orderDate);
        ("daysPassed", stringify_num (GeminiService.daysPassed aging));
        ("daysLeft", stringify_num (GeminiService.daysLeft aging));
        ("status", JStr (Status_value Pending));
        ("note", JStr EmptyString);
        ("fileName", JStr fileName) ].

End Upload.
End Upload.

(** ** The document store, as the Firestore back ends call it

    The calls the handlers await.  A write returns the store it leaves and
    either its result or the exception it throws; a read returns its result
    or throws. *)

Module Firestore.

(** A field of a write: a value or [FieldValue.serverTimestamp()]. *)
Inductive Field : Type :=
| Val (v : JsVal)
| serverTimestamp.

(** The object literal handed to [add] or [update]. *)
Definition Data : Type := list (string * Field).

(** What [doc.data()] returns. *)
Definition DocumentData : Type := string -> JsVal.

Record DocumentSnapshot : Type := mkSnapshot {
  id : string;
  data : option DocumentData
}.

Class Client (Db : Type) : Type := {
  (** [collection('receipts').add(data)], giving [docRef.id] *)
  add : Db -> Data -> Db * Result string;
  (** [collection('receipts').doc(id).update(data)] *)
  update : Db -> string -> Data -> Db * Result unit;
  (** [collection('receipts').doc(id).delete()] *)
  delete : Db -> string -> Db * Result unit;
  (** [collection('receipts').doc(id).get()] *)
  get : Db -> string -> Result DocumentSnapshot;
  (** [collection('receipts').where(field, '==', v).get()], as the list
      that [snapshot.forEach] walks *)
  where_eq : Db -> string -> JsVal -> Result (list (string * DocumentData))
}.

End Firestore.

(** ** The Firestore back end ([backend/server.js]) *)

Module Firebase.

Inductive Payload : Type :=
| Error (error : string)
| Created (id : string) (receiptData : Firestore.Data) (uploadedAt updatedAt : Z)
| Document (id : string) (data : option Firestore.DocumentData)
| Deleted (success : bool) (message : string) (id : string)
| Alerts (alerts : list (string * Firestore.DocumentData)).

Record Response : Type := mkResponse {
  code : Z;
  payload : Payload
}.

Definition json (x : Payload) : Response := {| code := 200; payload := x |}.
Definition status_json (c : Z) (x : Payload) : Response := {| code := c; payload := x |}.

Section Server.
Context {Db : Type} `{Firestore.Client Db} `{JsEngine}.

Record State : Type := mkState {
  db : Db;
  firebaseInitialized : bool
}.

Definition with_db (st : State) (db' : Db) : State :=
  {| db := db'; firebaseInitialized := firebaseInitialized st |}.

Definition notInitialized : Response :=
  status_json 503 (Error "Firebase not initialized").

(** The object [receiptData] of POST /api/receipts. *)
Definition receiptData (now : nat -> Z) (body : Body) : Firestore.Data :=
  [ ("imageSrc", Firestore.Val (body "imageSrc"));
    ("extractedText", Firestore.Val (body "extractedText"));
    ("orderDate", Firestore.Val (Js.or (body "orderDate") (JStr "N/A")));
    ("daysPassed", Firestore.Val (Js.or (body "daysPassed") (JNum (Int 0))));
    ("daysLeft", Firestore.Val (Js.or (body "daysLeft") (JNum (Int 18))));
    ("status", Firestore.Val (JStr "Pending"));
    ("note", Firestore.Val (JStr EmptyString));
    ("fileName",
      Firestore.Val
        (Js.or (body "fileName") (JStr ("receipt-" ++ Js.num_to_string (Int (now 0%nat))))));
    ("uploadedAt", Firestore.serverTimestamp);
    ("updatedAt", Firestore.serverTimestamp);
    ("updatedBy", Firestore.Val (JStr "system")) ].

(** POST /api/receipts, with the clock readings [now 0], [now 1], [now 2]
    as in the in-memory back end. *)
Definition post_receipts (now : nat -> Z) (body : Body) (st : State)
    : Response * State :=
  if negb (firebaseInitialized st) then (notInitialized, st)
  else if negb (Js.truthy (body "imageSrc")) || negb (Js.truthy (body "extractedText")) then
    (status_json 400 (Error "imageSrc and extractedText are required"), st)
  else
    let receiptData := receiptData now body in
    match Firestore.add (db st) receiptData with
    | (db', Throw message) => (status_json 500 (Error message), with_db st db')
    | (db', Ok docRef_id) =>
        (status_json 201 (Created docRef_id receiptData (now 1%nat) (now 2%nat)),
         with_db st db')
    end.

(** The object [updateData] of PUT /api/receipts/:id. *)
Definition updateData (body : Body) : Firestore.Data :=
  [ ("status", Firestore.Val (Js.or (body "status") (JStr "Pending")));
    ("note", Firestore.Val (Js.or (body "note") (JStr EmptyString)));
    ("updatedAt", Firestore.serverTimestamp);
    ("updatedBy", Firestore.Val (Js.or (body "updatedBy") (JStr "user"))) ].

(** PUT /api/receipts/:id *)
Definition put_receipt (id : string) (body : Body) (st : State) : Response * State :=
  if negb (firebaseInitialized st) then (notInitialized, st)
  else
    match Firestore.update (db st) id (updateData body) with
    | (db', Throw message) => (status_json 500 (Error message), with_db st db')
    | (db', Ok _) =>
        match Firestore.get db' id with
        | Throw message => (status_json 500 (Error message), with_db st db')
        | Ok doc =>
            (json (Document (Firestore.id doc) (Firestore.data doc)), with_db st db')
        end
    end.

(** DELETE /api/receipts/:id *)
Definition delete_receipt (id : string) (st : State) : Response * State :=
  if negb (firebaseInitialized st) then (notInitialized, st)
  else
    match Firestore.delete (db st) id with
    | (db', Throw message) => (status_json 500 (Error message), with_db st db')
    | (db', Ok _) => (json (Deleted true "Receipt deleted" id), with_db st db')
    end.

Definition inWindow (data : Firestore.DocumentData) : bool :=
  Js.ge (data "daysPassed") 5 && Js.le (data "daysPassed") 18.

(** GET /api/alerts *)
Definition get_alerts (st : State) : Response * State :=
  if negb (firebaseInitialized st) then (notInitialized, st)
  else
    match Firestore.where_eq (db st) "status" (JStr "Pending") with
    | Throw message => (status_json 500 (Error message), st)
    | Ok snapshot =>
        let alerts := filter (fun doc => inWindow (snd doc)) snapshot in
        (json (Alerts alerts), st)
    end.

End Server.
End Firebase.

(** ** The daily scan of the original back end ([checkAndSendAlerts]) *)

Module Original.
Section Scan.
Context {Db : Type} `{Firestore.Client Db} `{JsEngine}.

Definition dq : string := String (ascii_of_nat 34) EmptyString.

Definition OVERDUE_line : string := "🔴 <b>OVERDUE</b>" ++ Js.nl.
Definition DUE_SOON_line : string := "🟡 <b>DUE SOON</b>" ++ Js.nl.
Definition DAY_5_line : string := "🟠 <b>DAY 5+</b>" ++ Js.nl.

(** The tier line chosen inside the window test. *)
Definition tierLine (data : Firestore.DocumentData) : string :=
  if Js.gt (data "daysPassed") 18 then OVERDUE_line
  else if Js.ge (data "daysPassed") 9 then DUE_SOON_line
  else DAY_5_line.

Definition details (data : Firestore.DocumentData) : string :=
  ("Order: " ++ Js.ToString (Js.or (data "fileName") (JStr "N/A")) ++ Js.nl)
  ++ ("Date: " ++ Js.ToString (data "orderDate") ++ Js.nl)
  ++ ("Days Passed: " ++ Js.ToString (data "daysPassed") ++ Js.nl)
  ++ ("Days Left: " ++ Js.ToString (data "daysLeft") ++ Js.nl ++ Js.nl).

Record Scan : Type := mkScan {
  alertCount : Z;
  messageText : string;
  hasAlerts : bool
}.

(** The body of [snapshot.forEach], given the line for the tier. *)
Definition visit (line : Firestore.DocumentData -> string)
    (acc : Scan) (doc : string * Firestore.DocumentData) : Scan :=
  let data := snd doc in
  if Js.ge (data "daysPassed") 5 && Js.le (data "daysPassed") 18 then
    {| alertCount := alertCount acc + 1;
       messageText := (messageText acc ++ line data) ++ details data;
       hasAlerts := true |}
  else acc.

Definition start : Scan :=
  {| alertCount := 0;
     messageText := "<b>🔔 BAGIFY DAILY ALERT</b>" ++ Js.nl ++ Js.nl;
     hasAlerts := false |}.

Definition footer (APP_URL : JsVal) (s : Scan) : string :=
  (messageText s ++ ("Total Alerts: " ++ Js.num_to_string (Int (alertCount s)) ++ Js.nl))
  ++ (Js.nl ++ "<a href=" ++ dq ++ Js.ToString APP_URL ++ dq ++ ">📱 Open Dashboard</a>").

(** The scan over the rows of the query, with [line] for the tier line: the
    message handed to [sendTelegramMessage], if any. *)
Definition scanWith (line : Firestore.DocumentData -> string) (APP_URL : JsVal)
    (snapshot : list (string * Firestore.DocumentData)) : option string :=
  let s := fold_left (visit line) snapshot start in
  if hasAlerts s then Some (footer APP_URL s) else None.

Definition checkAndSendAlerts (APP_URL : JsVal) (db : Db) : option string :=
  match Firestore.where_eq db "status" (JStr "Pending") with
  | Throw _ => None
  | Ok snapshot => scanWith tierLine APP_URL snapshot
  end.

End Scan.
End Original.

(** ** A list-backed document store

    A store for concrete runs of the Firestore handlers.  It follows the
    documented behaviour of the Admin SDK: [add] creates a document under a
    fresh id, [update] throws when the document does not exist, [delete]
    succeeds whether it exists or not, a write with an [undefined] field
    throws, and a server time stamp is resolved at the write. *)

Module MemoryFirestore.

Record Db : Type := mkDb {
  docs : list (string * list (string * JsVal));
  clock : Z;
  nextId : Z
}.

Definition empty : Db := {| docs := []; clock := 0; nextId := 1 |}.

Definition resolve (t : Z) (d : Firestore.Data) : list (string * JsVal) :=
  map (fun kv =>
         (fst kv,
          match snd kv with
          | Firestore.Val v => v
          | Firestore.serverTimestamp => JNum (Int t)
          end)) d.

Definition has_undefined (d : Firestore.Data) : bool :=
  existsb (fun kv =>
             match snd kv with
             | Firestore.Val JUndefined => true
             | _ => false
             end) d.

Fixpoint set_field (k : string) (v : JsVal) (fields : list (string * JsVal))
    : list (string * JsVal) :=
  match fields with
  | [] => [(k, v)]
  | (k', v') :: rest =>
      if String.eqb k k' then (k, v) :: rest else (k', v') :: set_field k v rest
  end.

Definition merge (base patch : list (string * JsVal)) : list (string * JsVal) :=
  fold_left (fun acc kv => set_field (fst kv) (snd kv) acc) patch base.

Definition lookup (id : string) (db : Db) : option (list (string * JsVal)) :=
  option_map snd (find (fun d => String.eqb (fst d) id) (docs db)).

Definition tick (db : Db) (ds : list (string * list (string * JsVal))) : Db :=
  {| docs := ds; clock := clock db + 1; nextId := nextId db |}.

Definition add (db : Db) (d : Firestore.Data) : Db * Result string :=
  if has_undefined d then (db, Throw "Cannot use undefined as a Firestore value")
  else
    let id := "doc" ++ Js.num_to_string (Int (nextId db)) in
    ({| docs := docs db ++ [(id, resolve (clock db) d)];
        clock := clock db + 1;
        nextId := nextId db + 1 |}, Ok id).

Definition update (db : Db) (id : string) (d : Firestore.Data) : Db * Result unit :=
  if has_undefined d then (db, Throw "Cannot use undefined as a Firestore value")
  else
    match lookup id db with
    | None => (db, Throw "5 NOT_FOUND: No document to update")
    | Some _ =>
        (tick db
           (map (fun doc =>
                   if String.eqb (fst doc) id
                   then (fst doc, merge (snd doc) (resolve (clock db) d))
                   else doc) (docs db)), Ok tt)
    end.

Definition delete (db : Db) (id : string) : Db * Result unit :=
  (tick db (filter (fun doc => negb (String.eqb (fst doc) id)) (docs db)), Ok tt).

Definition get (db : Db) (id : string) : Result Firestore.DocumentSnapshot :=
  Ok {| Firestore.id := id; Firestore.data := option_map obj (lookup id db) |}.

Definition where_eq (db : Db) (field : string) (v : JsVal)
    : Result (list (string * Firestore.DocumentData)) :=
  Ok (map (fun doc => (fst doc, obj (snd doc)))
        (filter (fun doc => Js.strict_eq (obj (snd doc) field) v) (docs db))).

Definition client : Firestore.Client Db := {|
  Firestore.add := add;
  Firestore.update := update;
  Firestore.delete := delete;
  Firestore.get := get;
  Firestore.where_eq := where_eq
|}.

End MemoryFirestore.

(** ** What the specification says, in its own words *)

Module Spec.

(** [n > k], [lo <= n <= hi] on numbers: false of [NaN]. *)
Definition gt (n : num) (k : Z) : Prop := exists z, n = Int z /\ k < z.
Definition between (lo : Z) (n : num) (hi : Z) : Prop := exists z, n = Int z /\ lo <= z <= hi.

(** Section 4.2: the classifier's rules, in precedence order. *)
Inductive classifies : Status -> num -> ReceiptRow.Tier -> Prop :=
| rule_completed (daysPassed : num) :
    classifies Done daysPassed ReceiptRow.COMPLETED
| rule_overdue (status : Status) (daysPassed : num) :
    status <> Done -> gt daysPassed 18 ->
    classifies status daysPassed ReceiptRow.OVERDUE
| rule_due_soon (status : Status) (daysPassed : num) :
    status <> Done -> ~ gt daysPassed 18 -> between 9 daysPassed 18 ->
    classifies status daysPassed ReceiptRow.DUE_SOON
| rule_ok (status : Status) (daysPassed : num) :
    status <> Done -> ~ gt daysPassed 18 -> ~ between 9 daysPassed 18 ->
    classifies status daysPassed ReceiptRow.OK.

(** [c = ceil(a / d)] *)
Definition is_ceiling (c a d : Z) : Prop := (c - 1) * d < a <= c * d.

(** Section 4.4: a record is alertable iff [status == Pending] and
    [5 <= daysPassed <= 18]. *)
Definition alertable `{JsEngine} (r : Simple.Receipt) : Prop :=
  Simple.status r = JStr "Pending" /\ between 5 (Js.ToNumber (Simple.daysPassed r)) 18.

End Spec.

(** ** Statements and concrete inputs *)

(** The body without [key]. *)
Definition without (key : string) (body : Body) : Body :=
  fun k => if String.eqb k key then JUndefined else body k.

(** The body of the specification's round trip. *)
Definition only_image_and_text : Body :=
  obj [("imageSrc", JStr "x"); ("extractedText", JStr "y")].

(** A Create whose aging pair is not the calculator's, whatever the
    reference date: 99 is not 18 - 3. *)
Definition stale_aging : Body :=
  obj [ ("imageSrc", JStr "x"); ("extractedText", JStr "y");
        ("orderDate", JStr "2025-10-01");
        ("daysPassed", JNum (Int 3)); ("daysLeft", JNum (Int 99)) ].

(** The record of the first upload, at instant 1000. *)
Definition first_receipt : Simple.Receipt :=
  Simple.mkReceipt (Int 1) (JStr "x") (JStr "y") (JStr "N/A") (JNum (Int 0))
    (JNum (Int 18)) (JStr "Pending") (JStr EmptyString) (JStr "receipt-1000")
    1000 1000 (JStr "system").

(** The store after that upload. *)
Definition one_receipt : Simple.State :=
  snd (Simple.post_receipts (fun _ => 1000) only_image_and_text Simple.initial).

(** A running Firestore back end with no document. *)
Definition firebase_empty : @Firebase.State MemoryFirestore.Db :=
  {| Firebase.db := MemoryFirestore.empty; Firebase.firebaseInitialized := true |}.

(** The test of [find] in PUT; DELETE filters by its negation. *)
Definition names `{JsEngine} (id : string) (r : Simple.Receipt) : bool :=
  Js.num_eqb (Simple.id r) (parseInt id).

(** No stored record has the id that the route parameter denotes. *)
Definition unknown `{JsEngine} (id : string) (st : Simple.State) : Prop :=
  forall r, In r (Simple.receipts st) -> names id r = false.

(** A stored document as [snapshot.forEach] hands it over, and the test
    that the query and the filter of GET /api/alerts apply to it. *)
Definition document_view (doc : string * list (string * JsVal))
    : string * Firestore.DocumentData :=
  (fst doc, obj (snd doc)).

Definition alertable_document `{JsEngine} (doc : string * list (string * JsVal)) : bool :=
  Js.strict_eq (obj (snd doc) "status") (JStr "Pending")
  && Js.ge (obj (snd doc) "daysPassed") 5 && Js.le (obj (snd doc) "daysPassed") 18.

(** Newest first: [a] may stand before [b]. *)
Definition newer_or_same (a b : Simple.Receipt) : Prop :=
  Simple.uploadedAt b <= Simple.uploadedAt a.

(** The tier line without its first branch. *)
Definition dueSoonOrDay5 `{JsEngine} (data : Firestore.DocumentData) : string :=
  if Js.ge (data "daysPassed") 9 then Original.DUE_SOON_line else Original.DAY_5_line.

(** C8 as the specification words it: for the sentinel and for every string
    that parses to an instant [t], [daysLeft = 18 - daysPassed]; for a parsed
    date [daysPassed] is the ceiling of the elapsed days, and an order date
    after the reference gives a negative [daysPassed] and [daysLeft > 18]. *)
Definition aging_as_specified `{JsEngine} (orderDate : string) : Prop :=
  forall t, orderDate = "N/A" \/ JsDate.Date_new orderDate = Int t ->
  exists p,
    GeminiService.calculateDateDifference orderDate
      = GeminiService.mkAging (Int p) (Int (18 - p)) /\
    (orderDate <> "N/A" ->
       Spec.is_ceiling p (GeminiService.referenceTime - t) JsDate.msPerDay /\
       (GeminiService.referenceTime < t -> p < 0 /\ 18 - p > 18)).

(** C1 as the specification words it, on the in-memory back end: in the
    record that an Update returns, each of the fields [status], [note] and
    [updatedBy] that the body omits has the value it had. *)
Definition update_keeps_omitted `{JsEngine} (now : Z) (id : string) (body : Body)
    (st : Simple.State) : Prop :=
  forall prev, find (names id) (Simple.receipts st) = Some prev ->
  exists r,
    fst (Simple.put_receipt now id body st) = Simple.json (Simple.One r) /\
    (body "status" = JUndefined -> Simple.status r = Simple.status prev) /\
    (body "note" = JUndefined -> Simple.note r = Simple.note prev) /\
    (body "updatedBy" = JUndefined -> Simple.updatedBy r = Simple.updatedBy prev).

(** C2 as the specification words it, on the in-memory back end: the record
    that a Create persists holds the aging pair that the Aging Calculator
    gives for its order date, with status Pending and an empty note. *)
Definition create_computes_aging `{JsEngine} (now : nat -> Z) (body : Body)
    (st : Simple.State) : Prop :=
  forall r st' d,
    Simple.post_receipts now body st = (Simple.status_json 201 (Simple.One r), st') ->
    Simple.orderDate r = JStr d ->
    In r (Simple.receipts st') /\
    Simple.daysPassed r
      = JNum (GeminiService.daysPassed (GeminiService.calculateDateDifference d)) /\
    Simple.daysLeft r
      = JNum (GeminiService.daysLeft (GeminiService.calculateDateDifference d)) /\
    Simple.status r = JStr "Pending" /\
    Simple.note r = JStr EmptyString.

(** C7 as the specification words it: a Create with imageSrc and
    extractedText and no orderDate gives a record with the defaults, which
    is the first of the next List. *)
Definition create_then_list_first (now : nat -> Z) (body : Body) (st : Simple.State)
    : Prop :=
  Js.truthy (body "imageSrc") = true ->
  Js.truthy (body "extractedText") = true ->
  body "orderDate" = JUndefined ->
  exists r st1 rest st2,
    Simple.post_receipts now body st = (Simple.status_json 201 (Simple.One r), st1) /\
    Simple.orderDate r = JStr "N/A" /\
    Simple.daysPassed r = JNum (Int 0) /\
    Simple.daysLeft r = JNum (Int 18) /\
    Simple.status r = JStr "Pending" /\
    Simple.get_receipts st1 = (Simple.json (Simple.Many (r :: rest)), st2).

(** ** The routes of the in-memory back end

    The six data routes that the in-memory server registers, with what each
    request carries, and the server's state after a sequence of requests. *)

Module SimpleApi.

Inductive Request : Type :=
| GetReceipts
| PostReceipts (now : nat -> Z) (body : Body)
| PutReceipt (now : Z) (id : string) (body : Body)
| DeleteReceipt (id : string)
| GetAlerts
| GetStats.

Section Server.
Context `{JsEngine}.

Definition handle (req : Request) (st : Simple.State) : Simple.Response * Simple.State :=
  match req with
  | GetReceipts => Simple.get_receipts st
  | PostReceipts now body => Simple.post_receipts now body st
  | PutReceipt now id body => Simple.put_receipt now id body st
  | DeleteReceipt id => Simple.delete_receipt id st
  | GetAlerts => Simple.get_alerts st
  | GetStats => Simple.get_stats st
  end.

Fixpoint run (reqs : list Request) (st : Simple.State) : Simple.State :=
  match reqs with
  | [] => st
  | req :: rest => run rest (snd (handle req st))
  end.

End Server.

(** The record that PUT leaves for [receipt]. *)
Definition updated (now : Z) (body : Body) (receipt : Simple.Receipt) : Simple.Receipt :=
  let receipt :=
    if Js.truthy (body "status") then Simple.set_status (body "status") receipt
    else receipt in
  let receipt :=
    if negb (Js.strict_eq (body "note") JUndefined) then Simple.set_note (body "note") receipt
    else receipt in
  let receipt := Simple.set_updatedAt now receipt in
  Simple.set_updatedBy (Js.or (body "updatedBy") (JStr "user")) receipt.

(** Ids are distinct whole numbers from 1 up to, and not including, the
    counter. *)
Definition well_formed (st : Simple.State) : Prop :=
  1 <= Simple.receiptId st /\
  NoDup (map Simple.id (Simple.receipts st)) /\
  forall r, In r (Simple.receipts st) ->
    exists z, Simple.id r = Int z /\ 1 <= z < Simple.receiptId st.

End SimpleApi.

(** ** The rows of the daily scan *)

Module ScanRows.
Section ScanRows.
Context `{JsEngine}.

(** The test that [checkAndSendAlerts] applies to a row. *)
Definition inWindow (doc : string * Firestore.DocumentData) : bool :=
  Js.ge (snd doc "daysPassed") 5 && Js.le (snd doc "daysPassed") 18.

(** What one row adds to the message. *)
Definition entry (doc : string * Firestore.DocumentData) : string :=
  Original.tierLine (snd doc) ++ Original.details (snd doc).

Definition concat (parts : list string) : string :=
  fold_right String.append EmptyString parts.

End ScanRows.
End ScanRows.

(** ** The read routes of the Firestore back end ([backend/server.js]) *)

Module FirebaseReads.

(** The two queries these routes await, as the list that
    [snapshot.forEach] walks. *)
Class Collection (Db : Type) : Type := {
  (** [collection('receipts').orderBy(field, 'desc').get()] *)
  orderBy_desc : Db -> string -> Result (list (string * Firestore.DocumentData));
  (** [collection('receipts').get()] *)
  get_all : Db -> Result (list (string * Firestore.DocumentData))
}.

Inductive Payload : Type :=
| Error (error : string)
| Receipts (receipts : list (string * Firestore.DocumentData))
| Stats (totalReceipts pendingReceipts completedReceipts alertReceipts : nat).

Record Response : Type := mkResponse {
  code : Z;
  payload : Payload
}.

Definition json (x : Payload) : Response := {| code := 200; payload := x |}.
Definition status_json (c : Z) (x : Payload) : Response := {| code := c; payload := x |}.

Section Server.
Context {Db : Type} `{Collection Db} `{JsEngine}.

(** GET /api/receipts *)
Definition get_receipts (st : @Firebase.State Db) : Response * @Firebase.State Db :=
  if negb (Firebase.firebaseInitialized st) then
    (status_json 503 (Error "Firebase not initialized"), st)
  else
    match orderBy_desc (Firebase.db st) "uploadedAt" with
    | Throw message => (status_json 500 (Error message), st)
    | Ok snapshot => (json (Receipts snapshot), st)
    end.

(** GET /api/stats *)
Definition get_stats (st : @Firebase.State Db) : Response * @Firebase.State Db :=
  if negb (Firebase.firebaseInitialized st) then
    (status_json 503 (Error "Firebase not initialized"), st)
  else
    match get_all (Firebase.db st) with
    | Throw message => (status_json 500 (Error message), st)
    | Ok snapshot =>
        let receipts := map snd snapshot in
        let stats :=
          Stats
            (length receipts)
            (length (filter (fun r => Js.strict_eq (r "status") (JStr "Pending")) receipts))
            (length (filter (fun r => Js.strict_eq (r "status") (JStr "Done")) receipts))
            (length (filter (fun r => Js.strict_eq (r "status") (JStr "Pending")
                                      && Js.ge (r "daysPassed") 5) receipts)) in
        (json stats, st)
    end.

End Server.
End FirebaseReads.

(** ** The routes of the Firestore back end, served one after another *)

Module FirebaseApi.

Inductive Request : Type :=
| GetReceipts
| PostReceipts (now : nat -> Z) (body : Body)
| PutReceipt (id : string) (body : Body)
| DeleteReceipt (id : string)
| GetAlerts
| GetStats.

(** What [res.status(..).json(..)] sent: the two read routes above answer
    with their own payloads. *)
Definition Response : Type := (Firebase.Response + FirebaseReads.Response)%type.

Definition code (r : Response) : Z :=
  match r with
  | inl a => Firebase.code a
  | inr b => FirebaseReads.code b
  end.

(** The [error] field of the body, if it has one. *)
Definition error (r : Response) : option string :=
  match r with
  | inl a => match Firebase.payload a with Firebase.Error e => Some e | _ => None end
  | inr b => match FirebaseReads.payload b with FirebaseReads.Error e => Some e | _ => None end
  end.

Section Server.
Context {Db : Type} `{Firestore.Client Db} `{FirebaseReads.Collection Db} `{JsEngine}.

Definition handle (req : Request) (st : @Firebase.State Db)
    : Response * @Firebase.State Db :=
  match req with
  | GetReceipts => let (r, st') := FirebaseReads.get_receipts st in (inr r, st')
  | PostReceipts now body => let (r, st') := Firebase.post_receipts now body st in (inl r, st')
  | PutReceipt id body => let (r, st') := Firebase.put_receipt id body st in (inl r, st')
  | DeleteReceipt id => let (r, st') := Firebase.delete_receipt id st in (inl r, st')
  | GetAlerts => let (r, st') := Firebase.get_alerts st in (inl r, st')
  | GetStats => let (r, st') := FirebaseReads.get_stats st in (inr r, st')
  end.

(** The responses to a sequence of requests, and the state they leave. *)
Fixpoint serve (reqs : list Request) (st : @Firebase.State Db)
    : list Response * @Firebase.State Db :=
  match reqs with
  | [] => ([], st)
  | req :: rest =>
      let (r, st') := handle req st in
      let (rs, st'') := serve rest st' in
      (r :: rs, st'')
  end.

End Server.
End FirebaseApi.

(** A store that cannot be reached: every call throws. *)
Module Offline.

Definition unreachable : string := "14 UNAVAILABLE: No connection established".

Definition client : Firestore.Client unit := {|
  Firestore.add := fun db _ => (db, Throw unreachable);
  Firestore.update := fun db _ _ => (db, Throw unreachable);
  Firestore.delete := fun db _ => (db, Throw unreachable);
  Firestore.get := fun _ _ => Throw unreachable;
  Firestore.where_eq := fun _ _ _ => Throw unreachable
|}.

Definition collection : FirebaseReads.Collection unit := {|
  FirebaseReads.orderBy_desc := fun _ _ => Throw unreachable;
  FirebaseReads.get_all := fun _ => Throw unreachable
|}.

(** The server in demo mode: [firebaseInitialized] is false. *)
Definition demo : @Firebase.State unit :=
  {| Firebase.db := tt; Firebase.firebaseInitialized := false |}.

End Offline.

(** ** Front end: files, receipts and the analysis of a file

    The calls that leave the program are parameters: the text extraction
    and the date analysis by the model, [URL.createObjectURL], [Date.now()]
    and [fetch]. *)

Module Front.

Record File : Type := mkFile {
  name : string;
  type : string
}.

(** [interface Receipt]; [id] holds what the code puts there, a number or
    the id that the back end returned. *)
Record Receipt : Type := mkReceipt {
  id : JsVal;
  imageSrc : string;
  extractedText : string;
  orderDate : string;
  daysPassed : num;
  daysLeft : num;
  status : Status;
  note : string;
  fileName : string
}.

(** [analyzeTextForDate].  [generate text] stands for the [try] block up to
    [json.orderDate]: the call of the model and [JSON.parse] of its answer,
    giving the [orderDate] of the parsed object if it has one (a string, by
    the response schema of the call). *)
Definition analyzeTextForDate (generate : string -> Result (option string))
    (text : string) : string :=
  if String.eqb text EmptyString then "N/A"
  else
    match generate text with
    | Throw _ => "N/A"
    | Ok None => "N/A"
    | Ok (Some orderDate) => if String.eqb orderDate EmptyString then "N/A" else orderDate
    end.

Section Services.
Context `{JsEngine}.
Variable extractTextFromImage : File -> Result string.
Variable generate : string -> Result (option string).
Variable createObjectURL : File -> string.
Variable Date_now : Z.

(** [processReceiptFile] of the service without a back end: a failed
    extraction is thrown to the caller. *)
Definition processReceiptFile_local (file : File) : Result Receipt :=
  match extractTextFromImage file with
  | Throw message => Throw message
  | Ok extractedText =>
      let orderDate := analyzeTextForDate generate extractedText in
      let aging := GeminiService.calculateDateDifference orderDate in
      let imageSrc := createObjectURL file in
      Ok {| id := JNum (Int Date_now);
            imageSrc := imageSrc;
            extractedText := extractedText;
            orderDate := orderDate;
            daysPassed := GeminiService.daysPassed aging;
            daysLeft := GeminiService.daysLeft aging;
            status := Pending;
            note := EmptyString;
            fileName := name file |}
  end.

(** What [fetch] resolves to. *)
Record FetchResponse : Type := mkFetchResponse {
  response_status : Z;
  response_statusText : string;
  response_json : Body
}.

Variable S : Type.
Variable fetch_post : Body -> S -> Result FetchResponse * S.

(** [saveReceiptToBackend]: [response.ok] is a status from 200 to 299. *)
Definition saveReceiptToBackend (receiptData : Body) (s : S) : Result Body * S :=
  match fetch_post receiptData s with
  | (Throw message, s') => (Throw message, s')
  | (Ok response, s') =>
      if (200 <=? response_status response) && (response_status response <=? 299)
      then (Ok (response_json response), s')
      else
        (Throw ("Backend error: " ++ Js.num_to_string (Int (response_status response))
                ++ " " ++ response_statusText response), s')
  end.

(** The receipt of the [catch] block. *)
Definition failed (file : File) : Receipt :=
  {| id := JNum (Int Date_now);
     imageSrc := createObjectURL file;
     extractedText := "Error processing image";
     orderDate := "N/A";
     daysPassed := Int 0;
     daysLeft := Int 18;
     status := Pending;
     note := "Error: Could not process receipt";
     fileName := name file |}.

(** [processReceiptFile] of the service that saves to the back end. *)
Definition processReceiptFile (file : File) (s : S) : Receipt * S :=
  match extractTextFromImage file with
  | Throw _ => (failed file, s)
  | Ok extractedText =>
      let orderDate := analyzeTextForDate generate extractedText in
      let aging := GeminiService.calculateDateDifference orderDate in
      let imageSrc := createObjectURL file in
      let receiptData :=
        Upload.receiptData imageSrc extractedText orderDate (name file) in
      match saveReceiptToBackend receiptData s with
      | (Throw _, s') => (failed file, s')
      | (Ok backendReceipt, s') =>
          ({| id := Js.or (backendReceipt "id") (JNum (Int Date_now));
              imageSrc := imageSrc;
              extractedText := extractedText;
              orderDate := orderDate;
              daysPassed := GeminiService.daysPassed aging;
              daysLeft := GeminiService.daysLeft aging;
              status := Pending;
              note := EmptyString;
              fileName := name file |}, s')
      end
  end.

End Services.
End Front.

(** ** The in-memory back end behind [fetch] *)

Module SimpleFetch.

(** The reason phrase that goes with a status code. *)
Definition reasonPhrase (code : Z) : string :=
  if code =? 200 then "OK"
  else if code =? 201 then "Created"
  else if code =? 400 then "Bad Request"
  else if code =? 404 then "Not Found"
  else if code =? 500 then "Internal Server Error"
  else EmptyString.

(** [res.json(receipt)]; the two time stamps are written as their instants. *)
Definition receipt_json (r : Simple.Receipt) : Body :=
  obj [ ("id", Upload.stringify_num (Simple.id r));
        ("imageSrc", Simple.imageSrc r);
        ("extractedText", Simple.extractedText r);
        ("orderDate", Simple.orderDate r);
        ("daysPassed", Simple.daysPassed r);
        ("daysLeft", Simple.daysLeft r);
        ("status", Simple.status r);
        ("note", Simple.note r);
        ("fileName", Simple.fileName r);
        ("uploadedAt", JNum (Int (Simple.uploadedAt r)));
        ("updatedAt", JNum (Int (Simple.updatedAt r)));
        ("updatedBy", Simple.updatedBy r) ].

(** The properties of the JSON value of an answer (an array has none of
    those the front end reads). *)
Definition payload_json (x : Simple.Payload) : Body :=
  match x with
  | Simple.Error error => obj [("error", JStr error)]
  | Simple.One receipt => receipt_json receipt
  | Simple.Many _ => obj []
  | Simple.Deleted success message deleted =>
      obj [ ("success", JBool success); ("message", JStr message);
            ("id", Upload.stringify_num deleted) ]
  | Simple.Stats total pending completed alert =>
      obj [ ("totalReceipts", JNum (Int (Z.of_nat total)));
            ("pendingReceipts", JNum (Int (Z.of_nat pending)));
            ("completedReceipts", JNum (Int (Z.of_nat completed)));
            ("alertReceipts", JNum (Int (Z.of_nat alert))) ]
  end.

(** [fetch(backendUrl + '/api/receipts', {method: 'POST', body})] against a
    reachable in-memory server whose clock reads [now]. *)
Definition post (now : nat -> Z) (body : Body) (st : Simple.State)
    : Result Front.FetchResponse * Simple.State :=
  let answer := Simple.post_receipts now body st in
  (Ok {| Front.response_status := Simple.code (fst answer);
         Front.response_statusText := reasonPhrase (Simple.code (fst answer));
         Front.response_json := payload_json (Simple.payload (fst answer)) |},
   snd answer).

(** [processReceiptFile] with that server behind [fetch]. *)
Definition upload `{JsEngine} (extractTextFromImage : Front.File -> Result string)
    (generate : string -> Result (option string))
    (createObjectURL : Front.File -> string) (Date_now : Z) (now : nat -> Z)
    : Front.File -> Simple.State -> Front.Receipt * Simple.State :=
  Front.processReceiptFile extractTextFromImage generate createObjectURL Date_now
    Simple.State (post now).

End SimpleFetch.

(** ** Front end: the state of [App] *)

Module App.

Inductive MessageType : Type :=
| success
| error.

Record UserMessage : Type := mkUserMessage {
  type : MessageType;
  text : string
}.

Record State : Type := mkState {
  receipts : list Front.Receipt;
  processingFiles : list string;
  userMessage : option UserMessage
}.

(** [Partial<Receipt>]: the fields an update carries. *)
Record Partial : Type := mkPartial {
  id : option JsVal;
  imageSrc : option string;
  extractedText : option string;
  orderDate : option string;
  daysPassed : option num;
  daysLeft : option num;
  status : option Status;
  note : option string;
  fileName : option string
}.

Definition nothing : Partial :=
  mkPartial None None None None None None None None None.

Definition field {A : Type} (old : A) (new : option A) : A :=
  match new with
  | Some v => v
  | None => old
  end.

(** [{ ...r, ...updatedFields }] *)
Definition spread (r : Front.Receipt) (updatedFields : Partial) : Front.Receipt :=
  {| Front.id := field (Front.id r) (id updatedFields);
     Front.imageSrc := field (Front.imageSrc r) (imageSrc updatedFields);
     Front.extractedText := field (Front.extractedText r) (extractedText updatedFields);
     Front.orderDate := field (Front.orderDate r) (orderDate updatedFields);
     Front.daysPassed := field (Front.daysPassed r) (daysPassed updatedFields);
     Front.daysLeft := field (Front.daysLeft r) (daysLeft updatedFields);
     Front.status := field (Front.status r) (status updatedFields);
     Front.note := field (Front.note r) (note updatedFields);
     Front.fileName := field (Front.fileName r) (fileName updatedFields) |}.

(** [updateReceipt] and [deleteReceipt], as functions of the previous list. *)
Definition updateReceipt (id : JsVal) (updatedFields : Partial)
    (prevReceipts : list Front.Receipt) : list Front.Receipt :=
  map (fun r => if Js.strict_eq (Front.id r) id then spread r updatedFields else r)
    prevReceipts.

Definition deleteReceipt (id : JsVal) (prevReceipts : list Front.Receipt)
    : list Front.Receipt :=
  filter (fun r => negb (Js.strict_eq (Front.id r) id)) prevReceipts.

(** [Array.prototype.includes] on strings *)
Definition includes (names : list string) (name : string) : bool :=
  existsb (String.eqb name) names.

Section Batch.
Variable S : Type.
Variable processReceiptFile : Front.File -> S -> Result Front.Receipt * S.

(** The variables of the loop of [handleFilesProcess], with the state of
    what [processReceiptFile] talks to. *)
Record Loop : Type := mkLoop {
  newReceipts : list Front.Receipt;
  hadError : bool;
  message : option UserMessage;
  backend : S
}.

Definition analysisFailed (file : Front.File) : UserMessage :=
  {| type := error;
     text := "An error occurred while analyzing " ++ Front.name file
             ++ ". Please try again." |}.

(** One turn of [for (const file of files)]. *)
Definition turn (acc : Loop) (file : Front.File) : Loop :=
  match processReceiptFile file (backend acc) with
  | (Ok newReceipt, s) =>
      {| newReceipts := newReceipts acc ++ [newReceipt];
         hadError := hadError acc;
         message := message acc;
         backend := s |}
  | (Throw _, s) =>
      {| newReceipts := newReceipts acc;
         hadError := true;
         message := Some (analysisFailed file);
         backend := s |}
  end.

Definition processed (n : nat) : UserMessage :=
  {| type := success;
     text := "Successfully processed " ++ Js.num_to_string (Int (Z.of_nat n))
             ++ " receipt(s)." |}.

Definition noneProcessed : UserMessage :=
  {| type := error; text := "Could not process any of the selected files." |}.

(** [handleFilesProcess], up to the timer that clears the message, with no
    other update of the state in between. *)
Definition handleFilesProcess (files : list Front.File) (st : State) (s : S)
    : State * S :=
  let newProcessingFiles := map Front.name files in
  let processing := (processingFiles st ++ newProcessingFiles)%list in
  let loop :=
    fold_left turn files
      {| newReceipts := []; hadError := false; message := None; backend := s |} in
  let userMessage :=
    if Nat.ltb 0 (length (newReceipts loop)) then
      Some (processed (length (newReceipts loop)))
    else if negb (hadError loop) && Nat.ltb 0 (length files) then Some noneProcessed
    else message loop in
  ({| receipts := newReceipts loop ++ receipts st;
      processingFiles :=
        filter (fun name => negb (includes newProcessingFiles name)) processing;
      userMessage := userMessage |},
   backend loop).

(** What [processReceiptFile] gives for each file, in turn. *)
Fixpoint outcomes (files : list Front.File) (s : S) : list (Result Front.Receipt) :=
  match files with
  | [] => []
  | file :: rest =>
      fst (processReceiptFile file s) :: outcomes rest (snd (processReceiptFile file s))
  end.

End Batch.

(** The file of the last outcome that is a throw. *)
Fixpoint lastFailed (files : list Front.File) (results : list (Result Front.Receipt))
    : option Front.File :=
  match files, results with
  | file :: files', result :: results' =>
      match lastFailed files' results' with
      | Some later => Some later
      | None =>
          match result with
          | Throw _ => Some file
          | Ok _ => None
          end
      end
  | _, _ => None
  end.

Definition successes (results : list (Result Front.Receipt)) : list Front.Receipt :=
  flat_map (fun result =>
              match result with
              | Ok r => [r]
              | Throw _ => []
              end) results.

End App.

(** ** Front end: the cards of [Dashboard] and the text of [ReceiptRow] *)

Module Cards.

Definition pendingCount (receipts : list Front.Receipt) : nat :=
  length (filter (fun r => Status_eqb (Front.status r) Pending
                           && Js.num_leb (Front.daysPassed r) (Int 18)) receipts).

Definition overdueCount (receipts : list Front.Receipt) : nat :=
  length (filter (fun r => Js.num_gtb (Front.daysPassed r) (Int 18)
                           && negb (Status_eqb (Front.status r) Done)) receipts).

Definition processedCount (receipts : list Front.Receipt) : nat :=
  length (filter (fun r => Status_eqb (Front.status r) Done) receipts).

(** [Math.abs] *)
Definition abs (n : num) : num :=
  match n with
  | NaN => NaN
  | Int z => Int (Z.abs z)
  end.

(** The line under the tier label: nothing for a Done receipt. *)
Definition remaining (receipt : Front.Receipt) : option string :=
  if negb (Status_eqb (Front.status receipt) Done) then
    Some (if Js.num_geb (Front.daysLeft receipt) (Int 0)
          then Js.num_to_string (Front.daysLeft receipt) ++ " days remaining"
          else Js.num_to_string (abs (Front.daysLeft receipt)) ++ " days past due")
  else None.

End Cards.

(** The receipts that no card of the dashboard counts. *)
Definition uncounted (r : Front.Receipt) : bool :=
  negb (Status_eqb (Front.status r) Done)
  && negb (Js.num_gtb (Front.daysPassed r) (Int 18))
  && negb (Status_eqb (Front.status r) Pending
           && Js.num_leb (Front.daysPassed r) (Int 18)).

(** * Properties *)

(** ** JavaScript values *)

Lemma strict_eq_JStr (v : JsVal) (s : string) :
  Js.strict_eq v (JStr s) = true <-> v = JStr s.
Proof.
  destruct v; simpl; split; intro E; try discriminate.
  - apply String.eqb_eq in E. now subst.
  - injection E as ->. apply String.eqb_refl.
Qed.

Lemma num_geb_between (n : num) (lo hi : Z) :
  Js.num_geb n (Int lo) && Js.num_leb n (Int hi) = true <-> Spec.between lo n hi.
Proof.
  unfold Spec.between. destruct n as [|z]; simpl.
  - split; [discriminate | intros (z & E & _); discriminate].
  - rewrite andb_true_iff, !Z.leb_le. split.
    + intros [L U]. exists z. auto.
    + intros (z' & E & L & U). injection E as ->. auto.
Qed.

Lemma num_gtb_gt (n : num) (k : Z) :
  Js.num_gtb n (Int k) = true <-> Spec.gt n k.
Proof.
  unfold Spec.gt. destruct n as [|z]; simpl.
  - split; [discriminate | intros (z & E & _); discriminate].
  - rewrite Z.ltb_lt. split.
    + intros L. exists z. auto.
    + intros (z' & E & L). injection E as ->. auto.
Qed.

Lemma truthy_undefined_or (v d : JsVal) :
  Js.truthy v = false -> Js.or v d = d.
Proof. unfold Js.or. now intros ->. Qed.

(** ** The classifier *)

Lemma not_gt_18_le (daysPassed : num) :
  Js.num_gtb daysPassed (Int 18) = false ->
  Js.num_geb daysPassed (Int 9) && Js.num_leb daysPassed (Int 18)
  = Js.num_geb daysPassed (Int 9).
Proof.
  destruct daysPassed as [|z]; simpl; [reflexivity|].
  intro G. apply Z.ltb_ge, Z.leb_le in G. rewrite G. apply andb_true_r.
Qed.

Lemma label_classifies (status : Status) (daysPassed : num) (tier : ReceiptRow.Tier) :
  ReceiptRow.tier_of_label (ReceiptRow.tierLabel status daysPassed) = Some tier ->
  Spec.classifies status daysPassed tier.
Proof.
  unfold ReceiptRow.tierLabel.
  destruct (Status_eqb status Done) eqn:D.
  - destruct status; try discriminate D. intros [= <-]. constructor.
  - assert (ND : status <> Done) by (intros ->; discriminate D).
    destruct (Js.num_gtb daysPassed (Int 18)) eqn:G.
    + intros [= <-]. apply Spec.rule_overdue; [exact ND | now apply num_gtb_gt].
    + assert (NG : ~ Spec.gt daysPassed 18)
        by (rewrite <- num_gtb_gt, G; discriminate).
      pose proof (not_gt_18_le daysPassed G) as W.
      destruct (Js.num_geb daysPassed (Int 9)) eqn:B; intros [= <-].
      * apply Spec.rule_due_soon; [exact ND | exact NG |].
        apply num_geb_between. now rewrite B.
      * apply Spec.rule_ok; [exact ND | exact NG |].
        rewrite <- num_geb_between, B. discriminate.
Qed.

Lemma classifies_functional (status : Status) (daysPassed : num)
    (t1 t2 : ReceiptRow.Tier) :
  Spec.classifies status daysPassed t1 -> Spec.classifies status daysPassed t2 ->
  t1 = t2.
Proof.
  intros C1 C2.
  inversion C1; subst; inversion C2; subst; try reflexivity; try contradiction;
    try congruence.
Qed.

Lemma styling_agrees_with_label (status : Status) (daysPassed : num) :
  ReceiptRow.tier_of_styling (ReceiptRow.getUrgencyStyling status daysPassed)
  = ReceiptRow.tier_of_label (ReceiptRow.tierLabel status daysPassed).
Proof.
  unfold ReceiptRow.getUrgencyStyling, ReceiptRow.tierLabel.
  destruct (Status_eqb status Done); [reflexivity|].
  destruct (Js.num_gtb daysPassed (Int 18)) eqn:G; [reflexivity|].
  rewrite (not_gt_18_le daysPassed G).
  destruct (Js.num_geb daysPassed (Int 9)); reflexivity.
Qed.

Lemma label_is_a_tier (status : Status) (daysPassed : num) :
  exists tier,
    ReceiptRow.tier_of_label (ReceiptRow.tierLabel status daysPassed) = Some tier.
Proof.
  unfold ReceiptRow.tierLabel.
  destruct (Status_eqb status Done); [eexists; reflexivity|].
  destruct (Js.num_gtb daysPassed (Int 18)); [eexists; reflexivity|].
  destruct (Js.num_geb daysPassed (Int 9)); eexists; reflexivity.
Qed.

(** C5.  The classifier of [ReceiptRow] (its label and its styling) is a total
    function of (status, daysPassed) that returns the one tier the rules of
    section 4.2 allow: COMPLETED for Done whatever daysPassed is, else
    OVERDUE above 18, else DUE_SOON from 9 to 18, else OK. *)
Theorem classifier_total_deterministic (status : Status) (daysPassed : num) :
  exists tier,
    ReceiptRow.tier_of_label (ReceiptRow.tierLabel status daysPassed) = Some tier /\
    ReceiptRow.tier_of_styling (ReceiptRow.getUrgencyStyling status daysPassed)
      = Some tier /\
    Spec.classifies status daysPassed tier /\
    (forall tier', Spec.classifies status daysPassed tier' -> tier' = tier) /\
    (status = Done -> tier = ReceiptRow.COMPLETED).
Proof.
  destruct (label_is_a_tier status daysPassed) as [tier L].
  pose proof (label_classifies _ _ _ L) as C.
  exists tier. repeat split.
  - exact L.
  - rewrite styling_agrees_with_label. exact L.
  - exact C.
  - intros tier' C'. exact (classifies_functional _ _ _ _ C' C).
  - intros ->. exact (classifies_functional _ _ _ _ C (Spec.rule_completed daysPassed)).
Qed.

Example classifier_done_huge :
  ReceiptRow.tierLabel Done (Int 1000000) = "COMPLETED"
  /\ ReceiptRow.tierLabel Done (Int (-7)) = "COMPLETED"
  /\ ReceiptRow.tierLabel Delayed (Int 19) = "OVERDUE"
  /\ ReceiptRow.tierLabel Pending (Int 18) = "DUE SOON"
  /\ ReceiptRow.tierLabel Pending (Int 9) = "DUE SOON"
  /\ ReceiptRow.tierLabel Pending (Int 8) = "OK"
  /\ ReceiptRow.tierLabel Pending NaN = "OK".
Proof. repeat split. Qed.

(** ** The Aging Calculator *)

Lemma today_is_reference `{JsEngine} :
  JsDate.getTime (JsDate.Date_new "2025-10-24") = Int GeminiService.referenceTime.
Proof. reflexivity. Qed.

Lemma ceil_div_is_ceiling (a d : Z) :
  0 < d -> Spec.is_ceiling (- ((- a) / d)) a d.
Proof.
  intro D. unfold Spec.is_ceiling.
  pose proof (Z.div_mod (- a) d ltac:(lia)) as E.
  pose proof (Z.mod_pos_bound (- a) d D) as B.
  nia.
Qed.

Lemma aging_of_parsed `{JsEngine} (orderDate : string) (t : Z) :
  orderDate <> "N/A" -> JsDate.Date_new orderDate = Int t ->
  GeminiService.calculateDateDifference orderDate
  = let p := - ((- (GeminiService.referenceTime - t)) / JsDate.msPerDay) in
    GeminiService.mkAging (Int p) (Int (18 - p)).
Proof.
  intros N P. unfold GeminiService.calculateDateDifference.
  apply String.eqb_neq in N. rewrite N.
  unfold JsDate.getTime. rewrite P.
  change (JsDate.Date_new "2025-10-24") with (Int GeminiService.referenceTime).
  reflexivity.
Qed.

(** A date-only string is midnight UTC of its day. *)
Lemma date_only_is_midnight `{JsEngine} (s : string) (day : Z) :
  JsDate.parse_date (list_ascii_of_string s) = Some day ->
  JsDate.Date_new s = Int (day * JsDate.msPerDay).
Proof.
  intro P. unfold JsDate.Date_new, JsDate.parse_iso.
  destruct (list_ascii_of_string s)
    as [|c0 [|c1 [|c2 [|c3 [|c4 [|c5 [|c6 [|c7 [|c8 [|c9 [|c10 cs]]]]]]]]]]];
    try discriminate P.
  change (firstn 10 [c0; c1; c2; c3; c4; c5; c6; c7; c8; c9])
    with [c0; c1; c2; c3; c4; c5; c6; c7; c8; c9].
  rewrite P. reflexivity.
Qed.

(** For a calendar date the calculator counts whole days: day 20385 is the
    reference, and every later date gives a negative [daysPassed] and
    [daysLeft > 18]. *)
Lemma aging_of_calendar_date `{JsEngine} (s : string) (day : Z) :
  JsDate.parse_date (list_ascii_of_string s) = Some day ->
  GeminiService.calculateDateDifference s
  = GeminiService.mkAging (Int (20385 - day)) (Int (18 - (20385 - day)))
  /\ (20385 < day -> 20385 - day < 0 /\ 18 - (20385 - day) > 18).
Proof.
  intro P. split; [|lia].
  assert (N : s <> "N/A") by (intros ->; discriminate P).
  rewrite (aging_of_parsed s _ N (date_only_is_midnight s day P)). cbv zeta.
  replace (- (GeminiService.referenceTime - day * JsDate.msPerDay))
    with ((day - 20385) * JsDate.msPerDay)
    by (unfold GeminiService.referenceTime, JsDate.msPerDay; lia).
  rewrite Z.div_mul by discriminate.
  now replace (- (day - 20385)) with (20385 - day) by lia.
Qed.

(** C8, counterexample.  Noon of the reference day is a future order date:
    the quotient is -0.5, its ceiling is 0, so [daysPassed] is not negative
    and [daysLeft] is 18, on every engine. *)
Lemma aging_future_within_a_day :
  ~ exists E : JsEngine, @aging_as_specified E "2025-10-24T12:00:00Z".
Proof.
  intros [E A].
  destruct (A (GeminiService.referenceTime + 43200000)) as (p & R & F).
  - right. reflexivity.
  - assert (P : p = 0) by (cbv in R; congruence).
    destruct F as [_ F]; [discriminate|].
    unfold GeminiService.referenceTime in F. lia.
Qed.

(** C8, amended.  For the sentinel and for every string that parses to an
    instant [t], [daysLeft = 18 - daysPassed]; the sentinel gives 0 and 18;
    for a parsed date [daysPassed] is the ceiling of the elapsed days; an
    order date a whole day or more after the reference, so every calendar
    date [YYYY-MM-DD] after it, gives a negative [daysPassed] and
    [daysLeft > 18], and one less than a day after it gives [daysPassed = 0]. *)
Theorem aging_consistent `{JsEngine} (orderDate : string) (t : Z) :
  orderDate = "N/A" \/ JsDate.Date_new orderDate = Int t ->
  exists p,
    GeminiService.calculateDateDifference orderDate
      = GeminiService.mkAging (Int p) (Int (18 - p)) /\
    (orderDate = "N/A" -> p = 0) /\
    (orderDate <> "N/A" ->
       Spec.is_ceiling p (GeminiService.referenceTime - t) JsDate.msPerDay /\
       (GeminiService.referenceTime + JsDate.msPerDay <= t -> p < 0 /\ 18 - p > 18) /\
       (GeminiService.referenceTime < t < GeminiService.referenceTime + JsDate.msPerDay ->
        p = 0) /\
       (forall day,
          JsDate.parse_date (list_ascii_of_string orderDate) = Some day ->
          GeminiService.referenceTime < day * JsDate.msPerDay ->
          p < 0 /\ 18 - p > 18)).
Proof.
  intros P. destruct (String.eqb_spec orderDate "N/A") as [-> | N].
  - exists 0. split; [reflexivity|]. split; [reflexivity|]. intro C. now elim C.
  - destruct P as [-> | P]; [now elim N|].
    exists (- ((- (GeminiService.referenceTime - t)) / JsDate.msPerDay)).
    split; [exact (aging_of_parsed orderDate t N P)|].
    split; [intro C; contradiction|]. intros _.
    pose proof (ceil_div_is_ceiling (GeminiService.referenceTime - t) JsDate.msPerDay
                  ltac:(reflexivity)) as C.
    split; [exact C|].
    unfold Spec.is_ceiling in C.
    split; [|split].
    + unfold JsDate.msPerDay in *. intros; nia.
    + unfold JsDate.msPerDay in *. intros; nia.
    + intros day D F. destruct (aging_of_calendar_date orderDate day D) as [A _].
      rewrite (aging_of_parsed orderDate t N P) in A.
      assert (E : - (- (GeminiService.referenceTime - t) / JsDate.msPerDay) = 20385 - day)
        by congruence.
      rewrite E. clear - F.
      unfold GeminiService.referenceTime, JsDate.msPerDay in F. lia.
Qed.

(** A calendar date after the reference: 2025-11-01 is eight days ahead. *)
Lemma aging_consistent_witness :
  @JsDate.Date_new RefEngine.engine "2025-11-01" = Int 1761955200000
  /\ exists p,
       @GeminiService.calculateDateDifference RefEngine.engine "2025-11-01"
         = GeminiService.mkAging (Int p) (Int (18 - p))
       /\ p < 0 /\ 18 - p > 18.
Proof.
  split; [reflexivity|].
  destruct (@aging_consistent RefEngine.engine "2025-11-01" 1761955200000
              (or_intror eq_refl)) as (p & R & _ & F).
  exists p. split; [exact R|].
  destruct F as (_ & F & _ & _); [discriminate|].
  apply F. unfold GeminiService.referenceTime, JsDate.msPerDay. lia.
Defined.

Example aging_sentinel `{JsEngine} :
  GeminiService.calculateDateDifference "N/A" = GeminiService.mkAging (Int 0) (Int 18).
Proof. reflexivity. Qed.

Example aging_future_calendar_date `{JsEngine} :
  GeminiService.calculateDateDifference "2025-11-01"
  = GeminiService.mkAging (Int (-8)) (Int 26).
Proof. reflexivity. Qed.

Example aging_noon_of_reference_day `{JsEngine} :
  GeminiService.calculateDateDifference "2025-10-24T12:00:00Z"
  = GeminiService.mkAging (Int 0) (Int 18).
Proof. reflexivity. Qed.

Example dates :
  JsDate.parse_iso "1970-01-01" = Some 0
  /\ JsDate.parse_iso "2000-02-29" = Some 951782400000
  /\ JsDate.parse_iso "2025-10-24" = Some 1761264000000
  /\ JsDate.parse_iso "2025-10-24T12:00:00Z" = Some 1761307200000
  /\ JsDate.parse_iso "2025-10-24T23:59:59.999Z" = Some 1761350399999
  /\ JsDate.parse_iso "2025-02-30" = None
  /\ JsDate.parse_iso "N/A" = None.
Proof. repeat split. Qed.

Example aging_unparsable :
  @GeminiService.calculateDateDifference RefEngine.engine "soon"
  = GeminiService.mkAging NaN NaN.
Proof. reflexivity. Qed.

(** ** Alerts of the in-memory back end *)

Lemma isAlert_alertable `{JsEngine} (r : Simple.Receipt) :
  Simple.isAlert r = true <-> Spec.alertable r.
Proof.
  unfold Simple.isAlert, Spec.alertable, Js.ge, Js.le.
  rewrite <- andb_assoc, andb_true_iff, strict_eq_JStr, num_geb_between.
  reflexivity.
Qed.

Lemma get_alerts_filter `{JsEngine} (st : Simple.State) :
  Simple.get_alerts st
  = (Simple.json (Simple.Many (filter Simple.isAlert (Simple.receipts st))), st).
Proof. reflexivity. Qed.

Lemma filter_view_filter (p : string * list (string * JsVal) -> bool)
    (q : Firestore.DocumentData -> bool) (l : list (string * list (string * JsVal))) :
  filter (fun doc => q (snd doc)) (map document_view (filter p l))
  = map document_view (filter (fun doc => p doc && q (obj (snd doc))) l).
Proof.
  induction l as [|doc l IH]; simpl; [reflexivity|].
  destruct (p doc); simpl; [|exact IH].
  destruct (q (obj (snd doc))); simpl; now rewrite IH.
Qed.

Lemma firebase_alerts_filter `{JsEngine} (db : MemoryFirestore.Db) (initialized : bool) :
  let st := {| Firebase.db := db; Firebase.firebaseInitialized := initialized |} in
  @Firebase.get_alerts _ MemoryFirestore.client _ st
  = (if initialized
     then Firebase.json
            (Firebase.Alerts
               (map document_view (filter alertable_document (MemoryFirestore.docs db))))
     else Firebase.status_json 503 (Firebase.Error "Firebase not initialized"), st).
Proof.
  destruct initialized; [|reflexivity].
  unfold Firebase.get_alerts. simpl. unfold MemoryFirestore.where_eq.
  do 3 f_equal.
  change (fun doc : string * list (string * JsVal) => (fst doc, obj (snd doc)))
    with document_view.
  rewrite (filter_view_filter _ Firebase.inWindow). f_equal.
  apply filter_ext. intro doc. unfold alertable_document, Firebase.inWindow.
  now rewrite andb_assoc.
Qed.

(** C4.  GET /api/alerts answers 200 with exactly the stored records that
    are alertable (status Pending and 5 <= daysPassed <= 18), in store order,
    and leaves the store as it is: every alertable record of the store is
    returned, and no returned record has another status or a daysPassed above
    18 or below 5.  So does the handler of [backend/server.js] over the
    documents of a running store. *)
Theorem alerts_exactly_alertable `{JsEngine} :
  (forall st : Simple.State,
     exists alerts,
       Simple.get_alerts st = (Simple.json (Simple.Many alerts), st) /\
       alerts = filter Simple.isAlert (Simple.receipts st) /\
       (forall r, In r alerts <-> In r (Simple.receipts st) /\ Spec.alertable r) /\
       (forall r, In r alerts ->
          Simple.status r = JStr "Pending"
          /\ ~ Spec.gt (Js.ToNumber (Simple.daysPassed r)) 18
          /\ Js.ToNumber (Simple.daysPassed r) <> NaN)) /\
  (forall db : MemoryFirestore.Db,
     let st := {| Firebase.db := db; Firebase.firebaseInitialized := true |} in
     exists alerts,
       @Firebase.get_alerts _ MemoryFirestore.client _ st
       = (Firebase.json (Firebase.Alerts (map document_view alerts)), st) /\
       (forall doc,
          In doc alerts <->
          In doc (MemoryFirestore.docs db)
          /\ obj (snd doc) "status" = JStr "Pending"
          /\ Spec.between 5 (Js.ToNumber (obj (snd doc) "daysPassed")) 18)).
Proof.
  split.
  - intro st. exists (filter Simple.isAlert (Simple.receipts st)).
    split; [apply get_alerts_filter|]. split; [reflexivity|].
    assert (M : forall r, In r (filter Simple.isAlert (Simple.receipts st))
                          <-> In r (Simple.receipts st) /\ Spec.alertable r).
    { intro r. rewrite filter_In, isAlert_alertable. reflexivity. }
    split; [exact M|].
    intros r I. apply M in I. destruct I as [_ [S (z & E & L & U)]].
    split; [exact S|]. rewrite E. split.
    + intros (z' & E' & G). injection E' as <-. lia.
    + discriminate.
  - intros db st. exists (filter alertable_document (MemoryFirestore.docs db)).
    split; [exact (firebase_alerts_filter db true)|].
    intro doc. rewrite filter_In. unfold alertable_document, Js.ge, Js.le.
    rewrite <- andb_assoc, andb_true_iff, strict_eq_JStr, num_geb_between.
    reflexivity.
Qed.

(** ** The scenario of 2025-10-01 *)

(** C6.  Against the reference date 2025-10-24 the order date 2025-10-01
    gives daysPassed = 23 (and daysLeft = -5); the classifier answers OVERDUE
    for a Pending receipt with 23 days passed; a Pending record with 23 days
    passed is in no answer of GET /api/alerts; and the record created from
    the upload of such a receipt is Pending, holds 23, and is not alerted. *)
Theorem scenario_2025_10_01 :
  (forall E : JsEngine,
     @GeminiService.calculateDateDifference E "2025-10-01"
     = GeminiService.mkAging (Int 23) (Int (-5))) /\
  ReceiptRow.tierLabel Pending (Int 23) = "OVERDUE" /\
  ReceiptRow.tier_of_styling (ReceiptRow.getUrgencyStyling Pending (Int 23))
    = Some ReceiptRow.OVERDUE /\
  (forall (E : JsEngine) (st : Simple.State) (r : Simple.Receipt) alerts,
     Simple.status r = JStr "Pending" ->
     Simple.daysPassed r = JNum (Int 23) ->
     fst (Simple.get_alerts st) = Simple.json (Simple.Many alerts) ->
     ~ In r alerts) /\
  (forall (E : JsEngine) (now : nat -> Z),
     let body := Upload.receiptData "blob:receipt" "Order 01/10" "2025-10-01" "r.png" in
     let st := snd (Simple.post_receipts now body Simple.initial) in
     map Simple.status (Simple.receipts st) = [JStr "Pending"]
     /\ map Simple.daysPassed (Simple.receipts st) = [JNum (Int 23)]
     /\ fst (Simple.get_alerts st) = Simple.json (Simple.Many [])).
Proof.
  split; [intro E; reflexivity|].
  split; [reflexivity|].
  split; [reflexivity|].
  split.
  - intros E st r alerts S D A I.
    rewrite get_alerts_filter in A. simpl in A. injection A as <-.
    apply filter_In in I. destruct I as [_ I].
    apply isAlert_alertable in I. destruct I as [_ (z & N & _ & U)].
    rewrite D in N. simpl in N. injection N as <-. lia.
  - intros E now. repeat split.
Qed.

(** ** Creation *)

Lemma simple_post_invalid (now : nat -> Z) (body : Body) (st : Simple.State) :
  Js.truthy (body "imageSrc") = false \/ Js.truthy (body "extractedText") = false ->
  Simple.post_receipts now body st
  = (Simple.status_json 400 (Simple.Error "imageSrc and extractedText are required"), st).
Proof.
  unfold Simple.post_receipts. intros [-> | ->]; simpl; [reflexivity|].
  rewrite orb_true_r. reflexivity.
Qed.

Lemma firebase_post_invalid {Db : Type} `{Firestore.Client Db}
    (now : nat -> Z) (body : Body) (st : Firebase.State) :
  Js.truthy (body "imageSrc") = false \/ Js.truthy (body "extractedText") = false ->
  Firebase.post_receipts now body st
  = (if Firebase.firebaseInitialized st
     then Firebase.status_json 400 (Firebase.Error "imageSrc and extractedText are required")
     else Firebase.status_json 503 (Firebase.Error "Firebase not initialized"), st).
Proof.
  unfold Firebase.post_receipts.
  destruct (Firebase.firebaseInitialized st); simpl; [|reflexivity].
  intros [-> | ->]; simpl; [reflexivity|].
  rewrite orb_true_r. reflexivity.
Qed.

(** C10.  A POST /api/receipts whose imageSrc or extractedText is the empty
    string is answered 400 and adds no record: the in-memory back end
    returns its state as it was, and so does the Firestore back end (once
    initialised), which makes no call to the store; the answer and the state
    are those of the same request with the field absent. *)
Theorem create_rejects_empty_string (now : nat -> Z) (body : Body) :
  body "imageSrc" = JStr EmptyString \/ body "extractedText" = JStr EmptyString ->
  (forall st : Simple.State,
     Simple.code (fst (Simple.post_receipts now body st)) = 400
     /\ snd (Simple.post_receipts now body st) = st
     /\ (body "imageSrc" = JStr EmptyString ->
         Simple.post_receipts now body st
         = Simple.post_receipts now (without "imageSrc" body) st)
     /\ (body "extractedText" = JStr EmptyString ->
         Simple.post_receipts now body st
         = Simple.post_receipts now (without "extractedText" body) st)) /\
  (forall (Db : Type) (C : Firestore.Client Db) (st : Firebase.State),
     Firebase.firebaseInitialized st = true ->
     Firebase.code (fst (Firebase.post_receipts now body st)) = 400
     /\ snd (Firebase.post_receipts now body st) = st).
Proof.
  intros E.
  assert (F : Js.truthy (body "imageSrc") = false
              \/ Js.truthy (body "extractedText") = false)
    by (destruct E as [-> | ->]; auto).
  split.
  - intro st. rewrite (simple_post_invalid now body st F).
    split; [reflexivity|]. split; [reflexivity|]. split.
    + intros _. symmetry. apply simple_post_invalid. left. reflexivity.
    + intros _. symmetry. apply simple_post_invalid. right. reflexivity.
  - intros Db C st I. rewrite (firebase_post_invalid now body st F), I.
    split; reflexivity.
Qed.

(** An upload with an empty imageSrc on the empty store. *)
Lemma create_rejects_empty_string_witness :
  obj [("imageSrc", JStr EmptyString); ("extractedText", JStr "milk 2.50")] "imageSrc"
    = JStr EmptyString
  /\ Simple.code
       (fst (Simple.post_receipts (fun _ => 1761264000000)
               (obj [("imageSrc", JStr EmptyString); ("extractedText", JStr "milk 2.50")])
               Simple.initial)) = 400
  /\ snd (Simple.post_receipts (fun _ => 1761264000000)
            (obj [("imageSrc", JStr EmptyString); ("extractedText", JStr "milk 2.50")])
            Simple.initial) = Simple.initial.
Proof.
  split; [reflexivity|].
  destruct (create_rejects_empty_string (fun _ => 1761264000000)
              (obj [("imageSrc", JStr EmptyString); ("extractedText", JStr "milk 2.50")])
              (or_introl eq_refl)) as [S _].
  destruct (S Simple.initial) as (C & U & _).
  split; [exact C | exact U].
Defined.

(** ** Unknown ids *)

Section UnknownId.
Context `{JsEngine}.

Lemma find_unknown (id : string) (st : Simple.State) :
  unknown id st -> find (names id) (Simple.receipts st) = None.
Proof.
  unfold unknown. induction (Simple.receipts st) as [|r l IH]; intro U; simpl.
  - reflexivity.
  - rewrite (U r (or_introl eq_refl)). apply IH. intros r' I. apply U. now right.
Qed.

Lemma filter_unknown (id : string) (l : list Simple.Receipt) :
  (forall r, In r l -> names id r = false) ->
  filter (fun r => negb (names id r)) l = l.
Proof.
  induction l as [|r l IH]; intro U; simpl.
  - reflexivity.
  - rewrite (U r (or_introl eq_refl)). simpl. f_equal. apply IH.
    intros r' I. apply U. now right.
Qed.

Lemma simple_put_unknown (now : Z) (id : string) (body : Body) (st : Simple.State) :
  unknown id st ->
  Simple.put_receipt now id body st
  = (Simple.status_json 404 (Simple.Error "Receipt not found"), st).
Proof.
  intro U. unfold Simple.put_receipt.
  change (fun r : Simple.Receipt => Js.num_eqb (Simple.id r) (parseInt id)) with (names id).
  rewrite (find_unknown id st U). reflexivity.
Qed.

Lemma simple_delete_unknown (id : string) (st : Simple.State) :
  unknown id st ->
  Simple.delete_receipt id st
  = (Simple.status_json 404 (Simple.Error "Receipt not found"), st).
Proof.
  intro U. unfold Simple.delete_receipt.
  change (fun r : Simple.Receipt => negb (Js.num_eqb (Simple.id r) (parseInt id)))
    with (fun r => negb (names id r)).
  rewrite (filter_unknown id (Simple.receipts st) U), Nat.eqb_refl.
  destruct st; reflexivity.
Qed.

Lemma simple_deleted_is_unknown (id : string) (st : Simple.State) :
  unknown id (snd (Simple.delete_receipt id st)).
Proof.
  unfold unknown, Simple.delete_receipt. intros r.
  destruct (Nat.eqb _ _); simpl; intro I; apply filter_In in I;
    destruct I as [_ I]; now apply negb_true_iff in I.
Qed.

(** On the in-memory back end an Update or a Delete of an id that no stored
    record has is answered 404 and leaves the state as it was, and an id is
    unknown once it has been deleted. *)
Lemma simple_unknown_id_404 (now : Z) (id : string) (body : Body) (st : Simple.State) :
  (unknown id st ->
   Simple.put_receipt now id body st
   = (Simple.status_json 404 (Simple.Error "Receipt not found"), st)
   /\ Simple.delete_receipt id st
      = (Simple.status_json 404 (Simple.Error "Receipt not found"), st)) /\
  (let st' := snd (Simple.delete_receipt id st) in
   Simple.put_receipt now id body st'
   = (Simple.status_json 404 (Simple.Error "Receipt not found"), st')
   /\ Simple.delete_receipt id st'
      = (Simple.status_json 404 (Simple.Error "Receipt not found"), st')).
Proof.
  split.
  - intro U. split; [now apply simple_put_unknown | now apply simple_delete_unknown].
  - pose proof (simple_deleted_is_unknown id st) as U. simpl.
    split; [now apply simple_put_unknown | now apply simple_delete_unknown].
Qed.

End UnknownId.

Example simple_delete_then_update :
  let st := snd (@Simple.delete_receipt RefEngine.engine "1" one_receipt) in
  Simple.code (fst (@Simple.delete_receipt RefEngine.engine "1" one_receipt)) = 200
  /\ Simple.receipts st = []
  /\ @Simple.put_receipt RefEngine.engine 2000 "1" (obj [("note", JStr "paid")]) st
     = (Simple.status_json 404 (Simple.Error "Receipt not found"), st)
  /\ @Simple.delete_receipt RefEngine.engine "1" st
     = (Simple.status_json 404 (Simple.Error "Receipt not found"), st).
Proof. repeat split. Qed.

(** The handlers of [backend/server.js] have three answers each. *)
Lemma firebase_put_codes {Db : Type} `{Firestore.Client Db}
    (id : string) (body : Body) (st : Firebase.State) :
  In (Firebase.code (fst (Firebase.put_receipt id body st))) [200; 500; 503].
Proof.
  unfold Firebase.put_receipt.
  destruct (Firebase.firebaseInitialized st); simpl; [|auto].
  destruct (Firestore.update _ _ _) as [db' [u | m]]; simpl; [|auto].
  destruct (Firestore.get db' id) as [doc | m]; simpl; auto.
Qed.

Lemma firebase_delete_codes {Db : Type} `{Firestore.Client Db}
    (id : string) (st : Firebase.State) :
  In (Firebase.code (fst (Firebase.delete_receipt id st))) [200; 500; 503].
Proof.
  unfold Firebase.delete_receipt.
  destruct (Firebase.firebaseInitialized st); simpl; [|auto].
  destruct (Firestore.delete _ _) as [db' [u | m]]; simpl; auto.
Qed.

(** C3.  On [backend/server.js] an Update or a Delete never answers 404,
    whatever the store does: the answer is 200, 500 or 503.  With no document
    in the store, DELETE /api/receipts/nope answers 200 with success, and
    PUT /api/receipts/nope answers 500 with the store's error. *)
Theorem firebase_unknown_id_never_404 :
  (forall (Db : Type) (C : Firestore.Client Db) (id : string) (body : Body)
          (st : Firebase.State),
     Firebase.code (fst (Firebase.put_receipt id body st)) <> 404
     /\ Firebase.code (fst (Firebase.delete_receipt id st)) <> 404) /\
  fst (@Firebase.delete_receipt _ MemoryFirestore.client "nope" firebase_empty)
    = Firebase.json (Firebase.Deleted true "Receipt deleted" "nope") /\
  fst (@Firebase.put_receipt _ MemoryFirestore.client "nope"
         (obj [("note", JStr "late")]) firebase_empty)
    = Firebase.status_json 500 (Firebase.Error "5 NOT_FOUND: No document to update").
Proof.
  split; [|split; reflexivity].
  intros Db C id body st.
  pose proof (firebase_put_codes id body st) as P.
  pose proof (firebase_delete_codes id st) as D.
  simpl in P, D. split; intro E; rewrite E in *; intuition discriminate.
Qed.

(** ** Update *)

Lemma find_mutate_first (p : Simple.Receipt -> bool) (r' : Simple.Receipt)
    (l : list Simple.Receipt) (prev : Simple.Receipt) :
  p r' = true -> find p l = Some prev ->
  find p (Simple.mutate_first p (fun _ => r') l) = Some r'.
Proof.
  intros P. induction l as [|r l IH]; simpl; [discriminate|].
  destruct (p r) eqn:E; simpl.
  - intros _. now rewrite P.
  - rewrite E. exact IH.
Qed.

(** C1, counterexample.  Receipt 1 was created with [updatedBy = 'system'];
    an Update that supplies only [note] returns it with [updatedBy = 'user']. *)
Lemma update_resets_updatedBy :
  ~ @update_keeps_omitted RefEngine.engine 2000 "1" (obj [("note", JStr "paid")])
      one_receipt.
Proof.
  intro U.
  destruct (U first_receipt eq_refl) as (r & R & _ & _ & B).
  cbv in R. injection R as <-.
  specialize (B eq_refl). discriminate B.
Qed.

(** C1, amended.  On the in-memory back end an Update of an existing receipt
    answers 200 with the stored record after the update; [status] is kept
    when the body omits it (or gives a falsy one) and [note] is kept when the
    body omits it, while a supplied one is stored; [id], [imageSrc],
    [extractedText], [orderDate], [daysPassed], [daysLeft], [fileName] and
    [uploadedAt] are kept always; [updatedAt] is the instant of the update;
    [updatedBy] is the supplied one, or ['user'] when omitted; the other
    records are untouched. *)
Theorem update_keeps_status_and_note `{JsEngine} (now : Z) (id : string) (body : Body)
    (st : Simple.State) (prev : Simple.Receipt) :
  find (names id) (Simple.receipts st) = Some prev ->
  exists r st',
    Simple.put_receipt now id body st = (Simple.json (Simple.One r), st') /\
    find (names id) (Simple.receipts st') = Some r /\
    Simple.receipts st' = Simple.mutate_first (names id) (fun _ => r) (Simple.receipts st) /\
    Simple.receiptId st' = Simple.receiptId st /\
    Simple.status r
      = (if Js.truthy (body "status") then body "status" else Simple.status prev) /\
    (body "status" = JUndefined -> Simple.status r = Simple.status prev) /\
    Simple.note r
      = (if Js.strict_eq (body "note") JUndefined then Simple.note prev else body "note") /\
    (body "note" = JUndefined -> Simple.note r = Simple.note prev) /\
    Simple.updatedBy r = Js.or (body "updatedBy") (JStr "user") /\
    Simple.updatedAt r = now /\
    Simple.id r = Simple.id prev /\
    Simple.imageSrc r = Simple.imageSrc prev /\
    Simple.extractedText r = Simple.extractedText prev /\
    Simple.orderDate r = Simple.orderDate prev /\
    Simple.daysPassed r = Simple.daysPassed prev /\
    Simple.daysLeft r = Simple.daysLeft prev /\
    Simple.fileName r = Simple.fileName prev /\
    Simple.uploadedAt r = Simple.uploadedAt prev.
Proof.
  intro F. unfold Simple.put_receipt.
  change (fun r : Simple.Receipt => Js.num_eqb (Simple.id r) (parseInt id)) with (names id).
  rewrite F.
  eexists. eexists. split; [reflexivity|].
  assert (I : forall r : Simple.Receipt, Simple.id r = Simple.id prev -> names id r = true).
  { intros r E. unfold names. rewrite E. apply find_some in F. exact (proj2 F). }
  split.
  { simpl. apply find_mutate_first with (prev := prev); [|exact F].
    apply I. destruct (Js.truthy (body "status")), (Js.strict_eq (body "note") JUndefined);
      reflexivity. }
  split; [reflexivity|]. split; [reflexivity|].
  split.
  { destruct (Js.truthy (body "status")), (Js.strict_eq (body "note") JUndefined);
      reflexivity. }
  split.
  { intros ->. simpl. destruct (Js.strict_eq (body "note") JUndefined); reflexivity. }
  split.
  { destruct (Js.truthy (body "status")), (Js.strict_eq (body "note") JUndefined);
      reflexivity. }
  split.
  { intros ->. simpl. destruct (Js.truthy (body "status")); reflexivity. }
  repeat split;
    destruct (Js.truthy (body "status")), (Js.strict_eq (body "note") JUndefined);
    reflexivity.
Qed.

(** Receipt 1 after an Update that supplies only [note]. *)
Lemma update_keeps_status_and_note_witness :
  find (@names RefEngine.engine "1") (Simple.receipts one_receipt) = Some first_receipt
  /\ exists r st',
       @Simple.put_receipt RefEngine.engine 2000 "1" (obj [("note", JStr "paid")]) one_receipt
         = (Simple.json (Simple.One r), st')
       /\ Simple.status r = JStr "Pending"
       /\ Simple.note r = JStr "paid"
       /\ Simple.updatedBy r = JStr "user".
Proof.
  split; [reflexivity|].
  destruct (@update_keeps_status_and_note RefEngine.engine 2000 "1"
              (obj [("note", JStr "paid")]) one_receipt first_receipt eq_refl)
    as (r & st' & P & _ & _ & _ & _ & S & N & _ & B & _).
  exists r, st'. split; [exact P|].
  split; [exact (S eq_refl)|]. split; [exact N | exact B].
Defined.

(** The same Update on [backend/server.js]: the object handed to the store
    sets [status] to ['Pending'] and keeps the supplied [note]; with only
    [status] supplied it sets [note] to the empty string. *)
Example firebase_update_defaults :
  Firebase.updateData (obj [("note", JStr "paid")])
  = [ ("status", Firestore.Val (JStr "Pending"));
      ("note", Firestore.Val (JStr "paid"));
      ("updatedAt", Firestore.serverTimestamp);
      ("updatedBy", Firestore.Val (JStr "user")) ]
  /\ Firebase.updateData (obj [("status", JStr "Done")])
     = [ ("status", Firestore.Val (JStr "Done"));
         ("note", Firestore.Val (JStr EmptyString));
         ("updatedAt", Firestore.serverTimestamp);
         ("updatedBy", Firestore.Val (JStr "user")) ].
Proof. split; reflexivity. Qed.

(** ** Creation and aging *)

(** C2, counterexample.  The order date 2025-10-01 is 23 days before the
    reference; the record is persisted with the submitted 3 and 99. *)
Lemma create_trusts_submitted_aging :
  ~ @create_computes_aging RefEngine.engine (fun _ => 1000) stale_aging Simple.initial.
Proof.
  intro C.
  destruct (C _ _ "2025-10-01" eq_refl eq_refl) as (_ & P & _).
  discriminate P.
Qed.

(** The record that a valid Create builds. *)
Lemma simple_post_valid (now : nat -> Z) (body : Body) (st : Simple.State) :
  Js.truthy (body "imageSrc") = true ->
  Js.truthy (body "extractedText") = true ->
  let r := {|
    Simple.id := Int (Simple.receiptId st);
    Simple.imageSrc := body "imageSrc";
    Simple.extractedText := body "extractedText";
    Simple.orderDate := Js.or (body "orderDate") (JStr "N/A");
    Simple.daysPassed := Js.or (body "daysPassed") (JNum (Int 0));
    Simple.daysLeft := Js.or (body "daysLeft") (JNum (Int 18));
    Simple.status := JStr "Pending";
    Simple.note := JStr EmptyString;
    Simple.fileName :=
      Js.or (body "fileName") (JStr ("receipt-" ++ Js.num_to_string (Int (now 0%nat))));
    Simple.uploadedAt := now 1%nat;
    Simple.updatedAt := now 2%nat;
    Simple.updatedBy := JStr "system"
  |} in
  Simple.post_receipts now body st
  = (Simple.status_json 201 (Simple.One r),
     {| Simple.receipts := Simple.receipts st ++ [r];
        Simple.receiptId := Simple.receiptId st + 1 |}).
Proof.
  intros I T. unfold Simple.post_receipts. rewrite I, T. reflexivity.
Qed.

(** C2, amended.  A Create that passes validation answers 201 with the
    record it appends to the store; the record holds the submitted
    [daysPassed] and [daysLeft], or 0 and 18 where the submitted value is
    absent or falsy, and the submitted [orderDate] or ['N/A']; nothing is
    computed from the order date; [status] is ['Pending'] and [note] is
    empty.  [backend/server.js] hands the same values to the store. *)
Theorem create_persists_submitted_aging (now : nat -> Z) (body : Body)
    (st : Simple.State) :
  Js.truthy (body "imageSrc") = true ->
  Js.truthy (body "extractedText") = true ->
  (exists r,
     Simple.post_receipts now body st
     = (Simple.status_json 201 (Simple.One r),
        {| Simple.receipts := Simple.receipts st ++ [r];
           Simple.receiptId := Simple.receiptId st + 1 |}) /\
     Simple.id r = Int (Simple.receiptId st) /\
     Simple.daysPassed r = Js.or (body "daysPassed") (JNum (Int 0)) /\
     Simple.daysLeft r = Js.or (body "daysLeft") (JNum (Int 18)) /\
     Simple.orderDate r = Js.or (body "orderDate") (JStr "N/A") /\
     Simple.status r = JStr "Pending" /\
     Simple.note r = JStr EmptyString) /\
  (In ("orderDate", Firestore.Val (Js.or (body "orderDate") (JStr "N/A")))
      (Firebase.receiptData now body) /\
   In ("daysPassed", Firestore.Val (Js.or (body "daysPassed") (JNum (Int 0))))
      (Firebase.receiptData now body) /\
   In ("daysLeft", Firestore.Val (Js.or (body "daysLeft") (JNum (Int 18))))
      (Firebase.receiptData now body) /\
   In ("status", Firestore.Val (JStr "Pending")) (Firebase.receiptData now body) /\
   In ("note", Firestore.Val (JStr EmptyString)) (Firebase.receiptData now body)).
Proof.
  intros I T. split.
  - eexists. split; [exact (simple_post_valid now body st I T)|]. repeat split.
  - unfold Firebase.receiptData. repeat split; simpl; tauto.
Qed.

(** The Create of [stale_aging] on the empty store keeps 3 and 99. *)
Lemma create_persists_submitted_aging_witness :
  Js.truthy (stale_aging "imageSrc") = true
  /\ Js.truthy (stale_aging "extractedText") = true
  /\ exists r,
       fst (Simple.post_receipts (fun _ => 1000) stale_aging Simple.initial)
         = Simple.status_json 201 (Simple.One r)
       /\ Simple.daysPassed r = JNum (Int 3)
       /\ Simple.daysLeft r = JNum (Int 99).
Proof.
  split; [reflexivity|]. split; [reflexivity|].
  destruct (create_persists_submitted_aging (fun _ => 1000) stale_aging Simple.initial
              eq_refl eq_refl) as [(r & P & _ & D & L & _) _].
  exists r. rewrite P. split; [reflexivity|]. split; [exact D | exact L].
Defined.

Lemma simple_post_valid_upload `{JsEngine} (now : nat -> Z)
    (imageSrc extractedText orderDate fileName : string) (st : Simple.State) :
  imageSrc <> EmptyString -> extractedText <> EmptyString ->
  Simple.post_receipts now
    (Upload.receiptData imageSrc extractedText orderDate fileName) st
  = (Simple.status_json 201
       (Simple.One
          (Simple.mkReceipt (Int (Simple.receiptId st)) (JStr imageSrc) (JStr extractedText)
             (Js.or (JStr orderDate) (JStr "N/A"))
             (Js.or (Upload.stringify_num
                       (GeminiService.daysPassed
                          (GeminiService.calculateDateDifference orderDate)))
                (JNum (Int 0)))
             (Js.or (Upload.stringify_num
                       (GeminiService.daysLeft
                          (GeminiService.calculateDateDifference orderDate)))
                (JNum (Int 18)))
             (JStr "Pending") (JStr EmptyString)
             (Js.or (JStr fileName)
                (JStr ("receipt-" ++ Js.num_to_string (Int (now 0%nat)))))
             (now 1%nat) (now 2%nat) (JStr "system"))),
     snd (Simple.post_receipts now
            (Upload.receiptData imageSrc extractedText orderDate fileName) st)).
Proof.
  intros I T.
  rewrite (simple_post_valid now
             (Upload.receiptData imageSrc extractedText orderDate fileName) st).
  - reflexivity.
  - simpl. apply negb_true_iff. now apply String.eqb_neq.
  - simpl. apply negb_true_iff. now apply String.eqb_neq.
Qed.

(** What the front end submits: the calculator's pair, so that the record
    persisted for an upload holds the calculator's [daysPassed] unless it is
    0 or [NaN] (stored as 0 either way) and the calculator's [daysLeft]
    unless it is 0 or [NaN] (stored as 18). *)
Lemma upload_create_aging `{JsEngine} (now : nat -> Z)
    (imageSrc extractedText orderDate fileName : string) (st : Simple.State) :
  imageSrc <> EmptyString -> extractedText <> EmptyString ->
  let aging := GeminiService.calculateDateDifference orderDate in
  exists r st',
    Simple.post_receipts now
      (Upload.receiptData imageSrc extractedText orderDate fileName) st
    = (Simple.status_json 201 (Simple.One r), st') /\
    Simple.daysPassed r
      = Js.or (Upload.stringify_num (GeminiService.daysPassed aging)) (JNum (Int 0)) /\
    Simple.daysLeft r
      = Js.or (Upload.stringify_num (GeminiService.daysLeft aging)) (JNum (Int 18)).
Proof.
  intros I T aging.
  eexists. eexists. split.
  - apply simple_post_valid_upload; assumption.
  - split; reflexivity.
Qed.

(** An upload dated 2025-10-06 is 18 days old with 0 days left; the record
    persisted for it holds 18 days left. *)
Example upload_at_day_18 `{JsEngine} (now : nat -> Z) :
  GeminiService.calculateDateDifference "2025-10-06"
  = GeminiService.mkAging (Int 18) (Int 0)
  /\ map Simple.daysLeft
       (Simple.receipts
          (snd (Simple.post_receipts now
                  (Upload.receiptData "blob:receipt" "Order 06/10" "2025-10-06" "r.png")
                  Simple.initial)))
     = [JNum (Int 18)].
Proof. split; reflexivity. Qed.

(** ** Listing *)

Lemma insert_perm (cmp : Simple.Receipt -> Simple.Receipt -> Z) (a : Simple.Receipt)
    (l : list Simple.Receipt) :
  Permutation (Simple.insert cmp a l) (a :: l).
Proof.
  induction l as [|b l IH]; simpl.
  - apply Permutation_refl.
  - destruct (0 <? cmp a b).
    + apply perm_trans with (b :: a :: l); [now apply perm_skip | apply perm_swap].
    + apply Permutation_refl.
Qed.

Lemma sort_perm (cmp : Simple.Receipt -> Simple.Receipt -> Z) (l : list Simple.Receipt) :
  Permutation (Simple.sort cmp l) l.
Proof.
  induction l as [|a l IH]; simpl.
  - apply perm_nil.
  - apply perm_trans with (a :: Simple.sort cmp l); [apply insert_perm | now apply perm_skip].
Qed.

Lemma insert_hd (a b : Simple.Receipt) (l : list Simple.Receipt) :
  newer_or_same b a -> HdRel newer_or_same b l ->
  HdRel newer_or_same b (Simple.insert Simple.byUploadedAtDesc a l).
Proof.
  intros BA H. destruct l as [|c l]; simpl.
  - now constructor.
  - destruct (0 <? Simple.byUploadedAtDesc a c); constructor;
      [now inversion H | exact BA].
Qed.

Lemma insert_sorted (a : Simple.Receipt) (l : list Simple.Receipt) :
  Sorted newer_or_same l ->
  Sorted newer_or_same (Simple.insert Simple.byUploadedAtDesc a l).
Proof.
  induction l as [|b l IH]; simpl; intro S.
  - repeat constructor.
  - inversion S as [|? ? S' H]; subst.
    destruct (0 <? Simple.byUploadedAtDesc a b) eqn:E.
    + constructor; [now apply IH|].
      apply insert_hd; [|exact H].
      apply Z.ltb_lt in E. unfold newer_or_same, Simple.byUploadedAtDesc in *. lia.
    + constructor; [exact S|]. constructor.
      apply Z.ltb_ge in E. unfold newer_or_same, Simple.byUploadedAtDesc in *. lia.
Qed.

(** The list that GET /api/receipts returns is the stored one, rearranged,
    newest first. *)
Lemma sort_sorted (l : list Simple.Receipt) :
  Sorted newer_or_same (Simple.sort Simple.byUploadedAtDesc l).
Proof.
  induction l as [|a l IH]; simpl; [constructor | now apply insert_sorted].
Qed.

(** The sort is stable: a list already newest first, ties included, stays
    as it is. *)
Lemma sort_stable (l : list Simple.Receipt) :
  Sorted newer_or_same l -> Simple.sort Simple.byUploadedAtDesc l = l.
Proof.
  induction l as [|a l IH]; simpl; intro S; [reflexivity|].
  inversion S as [|? ? S' H]; subst. rewrite (IH S').
  destruct l as [|b l]; simpl; [reflexivity|].
  inversion H; subst.
  replace (0 <? Simple.byUploadedAtDesc a b) with false; [reflexivity|].
  symmetry. apply Z.ltb_ge. unfold newer_or_same, Simple.byUploadedAtDesc in *. lia.
Qed.

Lemma sort_newest_last (l : list Simple.Receipt) (r : Simple.Receipt) :
  (forall r', In r' l -> Simple.uploadedAt r' < Simple.uploadedAt r) ->
  Simple.sort Simple.byUploadedAtDesc (l ++ [r])
  = r :: Simple.sort Simple.byUploadedAtDesc l.
Proof.
  induction l as [|a l IH]; simpl; intro N; [reflexivity|].
  rewrite IH by (intros r' I; apply N; now right). simpl.
  replace (0 <? Simple.byUploadedAtDesc a r) with true; [reflexivity|].
  symmetry. apply Z.ltb_lt. unfold Simple.byUploadedAtDesc.
  specialize (N a (or_introl eq_refl)). lia.
Qed.

(** C7, counterexample.  Two uploads in the same millisecond: the second is
    listed after the first. *)
Lemma create_then_list_tie :
  ~ create_then_list_first (fun _ => 1000) only_image_and_text one_receipt.
Proof.
  intro C.
  destruct (C eq_refl eq_refl eq_refl)
    as (r & st1 & rest & st2 & P & _ & _ & _ & _ & L).
  cbv in P. injection P as <- <-.
  cbv in L. discriminate L.
Qed.

(** Without an order date the submitted aging fields are still stored. *)
Example create_without_date_keeps_submitted_aging :
  map Simple.daysPassed
    (Simple.receipts
       (snd (Simple.post_receipts (fun _ => 1000)
               (obj [("imageSrc", JStr "x"); ("extractedText", JStr "y");
                     ("daysPassed", JNum (Int 7))])
               Simple.initial)))
  = [JNum (Int 7)].
Proof. reflexivity. Qed.

(** C7, amended.  A Create with imageSrc and extractedText present and no
    (or a falsy) orderDate, daysPassed and daysLeft gives a record with
    orderDate 'N/A', daysPassed 0, daysLeft 18 and status Pending; when its
    uploadedAt is later than that of every stored record, the next List
    returns it first, followed by the other records newest first. *)
Theorem create_then_list_newest_first (now : nat -> Z) (body : Body) (st : Simple.State) :
  Js.truthy (body "imageSrc") = true ->
  Js.truthy (body "extractedText") = true ->
  Js.truthy (body "orderDate") = false ->
  Js.truthy (body "daysPassed") = false ->
  Js.truthy (body "daysLeft") = false ->
  (forall r', In r' (Simple.receipts st) -> Simple.uploadedAt r' < now 1%nat) ->
  exists r st1,
    Simple.post_receipts now body st = (Simple.status_json 201 (Simple.One r), st1) /\
    Simple.orderDate r = JStr "N/A" /\
    Simple.daysPassed r = JNum (Int 0) /\
    Simple.daysLeft r = JNum (Int 18) /\
    Simple.status r = JStr "Pending" /\
    Simple.uploadedAt r = now 1%nat /\
    fst (Simple.get_receipts st1)
      = Simple.json
          (Simple.Many (r :: Simple.sort Simple.byUploadedAtDesc (Simple.receipts st))).
Proof.
  intros I T O P L N.
  eexists. eexists. split; [exact (simple_post_valid now body st I T)|]. simpl.
  rewrite (truthy_undefined_or _ _ O), (truthy_undefined_or _ _ P),
    (truthy_undefined_or _ _ L).
  repeat (split; [reflexivity|]).
  rewrite sort_newest_last; [reflexivity|].
  intros r' R. simpl. now apply N.
Qed.

(** An upload one second after the first one. *)
Lemma create_then_list_newest_first_witness :
  (forall r', In r' (Simple.receipts one_receipt) -> Simple.uploadedAt r' < 2000)
  /\ exists r st1,
       Simple.post_receipts (fun _ => 2000) only_image_and_text one_receipt
         = (Simple.status_json 201 (Simple.One r), st1)
       /\ Simple.id r = Int 2
       /\ fst (Simple.get_receipts st1)
          = Simple.json (Simple.Many (r :: Simple.receipts one_receipt)).
Proof.
  assert (N : forall r', In r' (Simple.receipts one_receipt)
                         -> Simple.uploadedAt r' < (fun _ : nat => 2000) 1%nat).
  { intros r' [<- | []]. reflexivity. }
  split; [exact N|].
  destruct (create_then_list_newest_first (fun _ => 2000) only_image_and_text one_receipt
              eq_refl eq_refl eq_refl eq_refl eq_refl N)
    as (r & st1 & P & _ & _ & _ & _ & _ & G).
  exists r, st1. split; [exact P|]. split; [|exact G].
  cbv in P. injection P as <- _. reflexivity.
Defined.

(** ** The daily scan *)

Lemma le_18_not_gt `{JsEngine} (v : JsVal) :
  Js.le v 18 = true -> Js.gt v 18 = false.
Proof.
  unfold Js.le, Js.gt. destruct (Js.ToNumber v) as [|z]; simpl; [reflexivity|].
  intro L. apply Z.leb_le in L. apply Z.ltb_ge. exact L.
Qed.

Lemma tierLine_in_window `{JsEngine} (data : Firestore.DocumentData) :
  Js.ge (data "daysPassed") 5 && Js.le (data "daysPassed") 18 = true ->
  Original.tierLine data = dueSoonOrDay5 data.
Proof.
  intro W. apply andb_true_iff in W. destruct W as [_ L].
  unfold Original.tierLine, dueSoonOrDay5. now rewrite (le_18_not_gt _ L).
Qed.

Lemma visit_two_tiers `{JsEngine} (acc : Original.Scan)
    (doc : string * Firestore.DocumentData) :
  Original.visit Original.tierLine acc doc = Original.visit dueSoonOrDay5 acc doc.
Proof.
  unfold Original.visit.
  destruct (Js.ge (snd doc "daysPassed") 5 && Js.le (snd doc "daysPassed") 18) eqn:W;
    [|reflexivity].
  now rewrite (tierLine_in_window _ W).
Qed.

Lemma fold_left_pointwise {A B : Type} (f g : A -> B -> A) (l : list B) (a : A) :
  (forall x y, f x y = g x y) -> fold_left f l a = fold_left g l a.
Proof.
  intro E. revert a. induction l as [|y l IH]; intro a; simpl; [reflexivity|].
  now rewrite E, IH.
Qed.

(** C9.  In [checkAndSendAlerts] a row that passes the window test
    [5 <= daysPassed <= 18] never satisfies [daysPassed > 18]: its tier line
    is DUE SOON (from 9 on) or DAY 5+, never OVERDUE, and the message of the
    scan is the one the scan would build with the OVERDUE branch removed. *)
Theorem overdue_branch_unreachable `{JsEngine} :
  (forall data : Firestore.DocumentData,
     Js.ge (data "daysPassed") 5 && Js.le (data "daysPassed") 18 = true ->
     Js.gt (data "daysPassed") 18 = false
     /\ Original.tierLine data <> Original.OVERDUE_line
     /\ (Original.tierLine data = Original.DUE_SOON_line
         \/ Original.tierLine data = Original.DAY_5_line)) /\
  (forall (APP_URL : JsVal) (snapshot : list (string * Firestore.DocumentData)),
     Original.scanWith Original.tierLine APP_URL snapshot
     = Original.scanWith dueSoonOrDay5 APP_URL snapshot) /\
  (forall (Db : Type) (C : Firestore.Client Db) (APP_URL : JsVal) (db : Db),
     Original.checkAndSendAlerts APP_URL db
     = match Firestore.where_eq db "status" (JStr "Pending") with
       | Throw _ => None
       | Ok snapshot => Original.scanWith dueSoonOrDay5 APP_URL snapshot
       end).
Proof.
  assert (S : forall APP_URL snapshot,
             Original.scanWith Original.tierLine APP_URL snapshot
             = Original.scanWith dueSoonOrDay5 APP_URL snapshot).
  { intros APP_URL snapshot. unfold Original.scanWith.
    now rewrite (fold_left_pointwise _ _ snapshot Original.start visit_two_tiers). }
  split; [|split; [exact S|]].
  - intros data W. pose proof (tierLine_in_window data W) as T.
    apply andb_true_iff in W. destruct W as [_ L].
    split; [exact (le_18_not_gt _ L)|].
    rewrite T. unfold dueSoonOrDay5.
    destruct (Js.ge (data "daysPassed") 9); split; try discriminate; auto.
  - intros Db C APP_URL db. unfold Original.checkAndSendAlerts.
    destruct (Firestore.where_eq db "status" (JStr "Pending")); [apply S | reflexivity].
Qed.

Example scan_of_two_rows :
  @Original.scanWith RefEngine.engine (@Original.tierLine RefEngine.engine)
    (JStr "https://app")
    [ ("a", obj [("fileName", JStr "r1.png"); ("orderDate", JStr "2025-10-14");
                 ("daysPassed", JNum (Int 10)); ("daysLeft", JNum (Int 8))]);
      ("b", obj [("fileName", JStr "r2.png"); ("orderDate", JStr "2025-10-01");
                 ("daysPassed", JNum (Int 23)); ("daysLeft", JNum (Int (-5)))]) ]
  = Some
      ("<b>🔔 BAGIFY DAILY ALERT</b>" ++ Js.nl ++ Js.nl
       ++ "🟡 <b>DUE SOON</b>" ++ Js.nl
       ++ "Order: r1.png" ++ Js.nl
       ++ "Date: 2025-10-14" ++ Js.nl
       ++ "Days Passed: 10" ++ Js.nl
       ++ "Days Left: 8" ++ Js.nl ++ Js.nl
       ++ "Total Alerts: 1" ++ Js.nl
       ++ Js.nl ++ "<a href=" ++ Original.dq ++ "https://app" ++ Original.dq
       ++ ">📱 Open Dashboard</a>")%string.
Proof. reflexivity. Qed.

(** ** Update on the Firestore back end *)

(** A document marked Done, then an Update that supplies only [note]: the
    record that [backend/server.js] returns is Pending again. *)
Example firebase_note_only_resets_status :
  let post :=
    @Firebase.post_receipts _ MemoryFirestore.client (fun _ => 1000) only_image_and_text in
  let put := @Firebase.put_receipt _ MemoryFirestore.client "doc1" in
  let st1 := snd (post firebase_empty) in
  let st2 := snd (put (obj [("status", JStr "Done")]) st1) in
  match Firebase.payload (fst (put (obj [("note", JStr "paid")]) st2)) with
  | Firebase.Document id (Some data) => (id, data "status", data "note")
  | _ => (EmptyString, JUndefined, JUndefined)
  end
  = ("doc1", JStr "Pending", JStr "paid")
  /\ MemoryFirestore.lookup "doc1" (Firebase.db st2) <> None
  /\ option_map (fun fields => obj fields "status")
       (MemoryFirestore.lookup "doc1" (Firebase.db st2))
     = Some (JStr "Done").
Proof. repeat split. discriminate. Qed.

(** * Further properties *)

(** ** The store of the in-memory back end *)

Lemma num_eqb_eq (a b : num) : Js.num_eqb a b = true -> a = b.
Proof.
  destruct a as [|x], b as [|y]; simpl; try discriminate.
  intro E. apply Z.eqb_eq in E. now subst.
Qed.

Lemma names_id `{JsEngine} (id : string) (r : Simple.Receipt) :
  names id r = true -> Simple.id r = parseInt id.
Proof. apply num_eqb_eq. Qed.

Lemma updated_id (now : Z) (body : Body) (r : Simple.Receipt) :
  Simple.id (SimpleApi.updated now body r) = Simple.id r.
Proof.
  unfold SimpleApi.updated.
  destruct (Js.truthy (body "status")), (negb (Js.strict_eq (body "note") JUndefined));
    reflexivity.
Qed.

Lemma put_found `{JsEngine} (now : Z) (id : string) (body : Body) (st : Simple.State)
    (prev : Simple.Receipt) :
  find (names id) (Simple.receipts st) = Some prev ->
  Simple.put_receipt now id body st
  = (Simple.json (Simple.One (SimpleApi.updated now body prev)),
     {| Simple.receipts :=
          Simple.mutate_first (names id) (fun _ => SimpleApi.updated now body prev)
            (Simple.receipts st);
        Simple.receiptId := Simple.receiptId st |}).
Proof.
  intro F. unfold Simple.put_receipt.
  change (fun r : Simple.Receipt => Js.num_eqb (Simple.id r) (parseInt id)) with (names id).
  rewrite F. reflexivity.
Qed.

Lemma map_id_mutate_first (p : Simple.Receipt -> bool) (r' prev : Simple.Receipt)
    (l : list Simple.Receipt) :
  find p l = Some prev -> Simple.id r' = Simple.id prev ->
  map Simple.id (Simple.mutate_first p (fun _ => r') l) = map Simple.id l.
Proof.
  intros F E. induction l as [|r l IH]; simpl in *; [reflexivity|].
  destruct (p r); simpl.
  - injection F as ->. now rewrite E.
  - f_equal. now apply IH.
Qed.

Lemma in_mutate_first (p : Simple.Receipt -> bool) (r' x : Simple.Receipt)
    (l : list Simple.Receipt) :
  In x (Simple.mutate_first p (fun _ => r') l) -> x = r' \/ In x l.
Proof.
  induction l as [|r l IH]; simpl; [tauto|].
  destruct (p r); simpl; intros [E | I]; auto.
  destruct (IH I); auto.
Qed.

(** Removing receipts keeps the remaining ids distinct. *)
Lemma kept_ids_distinct (keep : Simple.Receipt -> bool) (receipts : list Simple.Receipt) :
  NoDup (map Simple.id receipts) -> NoDup (map Simple.id (filter keep receipts)).
Proof.
  induction receipts as [|r rest IH]; simpl; intro N; [constructor|].
  inversion N as [|? ? Fresh N']; subst.
  destruct (keep r); simpl; [|now apply IH].
  constructor; [|now apply IH].
  intro I. apply Fresh. apply in_map_iff in I. destruct I as (x & E & I).
  apply filter_In in I. apply in_map_iff. exists x. tauto.
Qed.

Lemma handle_well_formed `{JsEngine} (req : SimpleApi.Request) (st : Simple.State) :
  SimpleApi.well_formed st ->
  SimpleApi.well_formed (snd (SimpleApi.handle req st))
  /\ Simple.receiptId st <= Simple.receiptId (snd (SimpleApi.handle req st)).
Proof.
  intros (P & N & B). destruct req as [| now body | now id body | id | |]; simpl.
  - split; [|lia]. split; [exact P|]. split.
    + apply Permutation_NoDup with (l := map Simple.id (Simple.receipts st)); [|exact N].
      apply Permutation_map, Permutation_sym, sort_perm.
    + intros r I. apply B.
      apply Permutation_in with (l := Simple.sort Simple.byUploadedAtDesc (Simple.receipts st));
        [apply sort_perm | exact I].
  - unfold Simple.post_receipts.
    destruct (negb (Js.truthy (body "imageSrc")) || negb (Js.truthy (body "extractedText")));
      simpl; [split; [repeat split; assumption | lia]|].
    split; [|lia]. unfold SimpleApi.well_formed; simpl. split; [lia|]. split.
    + rewrite map_app. simpl.
      apply NoDup_Add with (a := Int (Simple.receiptId st))
        (l := map Simple.id (Simple.receipts st)).
      * rewrite <- (app_nil_r (map Simple.id (Simple.receipts st))) at 1.
        apply Add_app.
      * split; [exact N|]. intro I. apply in_map_iff in I.
        destruct I as (r & E & I). destruct (B r I) as (z & Ez & Rz).
        rewrite Ez in E. injection E as ->. lia.
    + intros r I. apply in_app_or in I. destruct I as [I | [<- | []]].
      * destruct (B r I) as (z & Ez & Rz). exists z. split; [exact Ez | lia].
      * exists (Simple.receiptId st). split; [reflexivity | lia].
  - destruct (find (names id) (Simple.receipts st)) as [prev|] eqn:F.
    + rewrite (put_found now id body st prev F).
      split; [|simpl; lia]. unfold SimpleApi.well_formed. cbn [snd Simple.receipts Simple.receiptId].
      split; [exact P|]. split.
      * rewrite (map_id_mutate_first _ _ prev); [exact N | exact F | apply updated_id].
      * intros r I. apply in_mutate_first in I. destruct I as [-> | I]; [|now apply B].
        rewrite updated_id. apply B. apply find_some in F. exact (proj1 F).
    + unfold Simple.put_receipt.
      change (fun r : Simple.Receipt => Js.num_eqb (Simple.id r) (parseInt id))
        with (names id).
      rewrite F. simpl. split; [repeat split; assumption | lia].
  - unfold Simple.delete_receipt.
    destruct (Nat.eqb _ _); simpl; (split; [|lia]); (split; [exact P|]); split;
      try (now apply kept_ids_distinct);
      intros r I; apply filter_In in I; now apply B.
  - split; [repeat split; assumption | lia].
  - split; [repeat split; assumption | lia].
Qed.

Lemma run_well_formed `{JsEngine} (reqs : list SimpleApi.Request) (st : Simple.State) :
  SimpleApi.well_formed st ->
  SimpleApi.well_formed (SimpleApi.run reqs st)
  /\ Simple.receiptId st <= Simple.receiptId (SimpleApi.run reqs st).
Proof.
  revert st. induction reqs as [|req reqs IH]; intros st W; simpl; [split; [exact W | lia]|].
  destruct (handle_well_formed req st W) as [W' L].
  destruct (IH _ W') as [W'' L']. split; [exact W'' | lia].
Qed.

Lemma initial_well_formed : SimpleApi.well_formed Simple.initial.
Proof.
  split; [simpl; lia|]. split; [constructor|]. intros r [].
Qed.

(** X1.  Whatever requests the in-memory server has handled since it
    started, the ids of the stored receipts are distinct whole numbers from
    1 up to, and not including, the counter [receiptId]. *)
Theorem simple_ids_distinct `{JsEngine} (reqs : list SimpleApi.Request) :
  let st := SimpleApi.run reqs Simple.initial in
  NoDup (map Simple.id (Simple.receipts st))
  /\ (forall r, In r (Simple.receipts st) ->
       exists z, Simple.id r = Int z /\ 1 <= z < Simple.receiptId st).
Proof.
  destruct (run_well_formed reqs Simple.initial initial_well_formed) as [(_ & N & B) _].
  split; assumption.
Qed.

Lemma same_id_same_record (l : list Simple.Receipt) (x y : Simple.Receipt) :
  NoDup (map Simple.id l) -> In x l -> In y l -> Simple.id x = Simple.id y -> x = y.
Proof.
  induction l as [|a l IH]; simpl; intros N X Y E; [contradiction|].
  inversion N as [|? ? NI N']; subst.
  destruct X as [-> | X], Y as [-> | Y]; auto.
  - elim NI. rewrite E. now apply in_map.
  - elim NI. rewrite <- E. now apply in_map.
Qed.

Lemma filter_all {A : Type} (p : A -> bool) (l : list A) :
  (forall x, In x l -> p x = true) -> filter p l = l.
Proof.
  induction l as [|a l IH]; simpl; intro T; [reflexivity|].
  rewrite (T a (or_introl eq_refl)). f_equal. apply IH. intros x I. apply T. now right.
Qed.

Lemma filter_out_one {A : Type} (p : A -> bool) (l : list A) (r : A) :
  NoDup l -> In r l -> (forall x, In x l -> p x = true -> x = r) -> p r = true ->
  (length (filter (fun x => negb (p x)) l) + 1 = length l)%nat.
Proof.
  induction l as [|a l IH]; simpl; intros N I U R; [contradiction|].
  inversion N as [|? ? NI N']; subst.
  destruct (p a) eqn:Pa; simpl.
  - assert (a = r) as -> by (apply U; auto).
    rewrite filter_all; [lia|].
    intros x X. apply negb_true_iff. destruct (p x) eqn:Px; [|reflexivity].
    elim NI. rewrite <- (U x (or_intror X) Px). exact X.
  - destruct I as [-> | I]; [congruence|].
    rewrite <- (IH N' I); [lia | | exact R].
    intros x X. apply U. now right.
Qed.

Lemma older_ids_unknown `{JsEngine} (id : string) (st : Simple.State) :
  SimpleApi.well_formed st -> parseInt id = Int (Simple.receiptId st) ->
  forall r, In r (Simple.receipts st) -> names id r = false.
Proof.
  intros (_ & _ & B) E r I. destruct (B r I) as (z & Ez & Rz).
  unfold names. rewrite Ez, E. simpl. apply Z.eqb_neq. lia.
Qed.

(** X2.  An id is never given twice: a Create returns the current counter,
    which no stored receipt has, and after any further requests, deletions
    included, a Create returns a greater id. *)
Theorem simple_ids_never_reused `{JsEngine} (reqs later : list SimpleApi.Request)
    (now now' : nat -> Z) (body body' : Body) :
  Js.truthy (body "imageSrc") = true -> Js.truthy (body "extractedText") = true ->
  Js.truthy (body' "imageSrc") = true -> Js.truthy (body' "extractedText") = true ->
  let st := SimpleApi.run reqs Simple.initial in
  let st' := SimpleApi.run later (snd (Simple.post_receipts now body st)) in
  exists r r' z z',
    fst (Simple.post_receipts now body st) = Simple.status_json 201 (Simple.One r) /\
    fst (Simple.post_receipts now' body' st') = Simple.status_json 201 (Simple.One r') /\
    Simple.id r = Int z /\ Simple.id r' = Int z' /\ z < z' /\
    ~ In (Simple.id r) (map Simple.id (Simple.receipts st)) /\
    ~ In (Simple.id r') (map Simple.id (Simple.receipts st')).
Proof.
  intros I T I' T' st st'.
  destruct (run_well_formed reqs Simple.initial initial_well_formed) as [W _].
  fold st in W.
  pose proof (handle_well_formed (SimpleApi.PostReceipts now body) st W) as [W1 _].
  simpl in W1.
  destruct (run_well_formed later _ W1) as [W' L]. fold st' in W', L.
  rewrite (simple_post_valid now body st I T) in L |- *.
  rewrite (simple_post_valid now' body' st' I' T').
  eexists. eexists. exists (Simple.receiptId st), (Simple.receiptId st').
  split; [reflexivity|]. split; [reflexivity|].
  split; [reflexivity|]. split; [reflexivity|].
  simpl in L. split; [lia|].
  assert (F : forall s, SimpleApi.well_formed s ->
                        ~ In (Int (Simple.receiptId s)) (map Simple.id (Simple.receipts s))).
  { intros s (_ & _ & B) X. apply in_map_iff in X. destruct X as (x & E & X).
    destruct (B x X) as (k & Ek & Rk). rewrite Ek in E. injection E as ->. lia. }
  split; [exact (F st W) | exact (F st' W')].
Qed.

(** Two uploads with a deletion between them get the ids 1 and 2. *)
Lemma simple_ids_never_reused_witness :
  Js.truthy (only_image_and_text "imageSrc") = true
  /\ Js.truthy (only_image_and_text "extractedText") = true
  /\ exists r r' z z',
       fst (Simple.post_receipts (fun _ => 1000) only_image_and_text Simple.initial)
         = Simple.status_json 201 (Simple.One r)
       /\ fst (Simple.post_receipts (fun _ => 3000) only_image_and_text
                 (@SimpleApi.run RefEngine.engine [SimpleApi.DeleteReceipt "1"]
                    (snd (Simple.post_receipts (fun _ => 1000) only_image_and_text
                            Simple.initial))))
          = Simple.status_json 201 (Simple.One r')
       /\ Simple.id r = Int z /\ Simple.id r' = Int z' /\ z < z'.
Proof.
  split; [reflexivity|]. split; [reflexivity|].
  destruct (@simple_ids_never_reused RefEngine.engine [] [SimpleApi.DeleteReceipt "1"]
              (fun _ => 1000) (fun _ => 3000) only_image_and_text only_image_and_text
              eq_refl eq_refl eq_refl eq_refl)
    as (r & r' & z & z' & P & P' & E & E' & L & _).
  exists r, r', z, z'. repeat split; assumption.
Defined.

(** X3.  Deleting the id of a stored receipt answers 200 with that id and
    removes that receipt and no other: the store is the old one without it,
    in the same order, one shorter, and the counter is unchanged. *)
Theorem simple_delete_existing `{JsEngine} (reqs : list SimpleApi.Request) (id : string)
    (r : Simple.Receipt) :
  let st := SimpleApi.run reqs Simple.initial in
  In r (Simple.receipts st) -> names id r = true ->
  exists rest,
    Simple.delete_receipt id st
    = (Simple.json (Simple.Deleted true "Receipt deleted" (Simple.id r)),
       {| Simple.receipts := rest; Simple.receiptId := Simple.receiptId st |}) /\
    rest = filter (fun x => negb (Js.num_eqb (Simple.id x) (Simple.id r))) (Simple.receipts st) /\
    (forall x, In x rest <-> In x (Simple.receipts st) /\ x <> r) /\
    (length rest + 1 = length (Simple.receipts st))%nat.
Proof.
  intros st I M.
  destruct (run_well_formed reqs Simple.initial initial_well_formed) as [(_ & N & _) _].
  fold st in N.
  pose proof (names_id id r M) as E.
  assert (U : forall x, In x (Simple.receipts st) -> names id x = true -> x = r).
  { intros x X Mx. apply (same_id_same_record (Simple.receipts st)); auto.
    now rewrite (names_id id x Mx). }
  pose proof (filter_out_one (names id) (Simple.receipts st) r
                (NoDup_map_inv _ _ N) I U M) as L.
  exists (filter (fun x => negb (names id x)) (Simple.receipts st)).
  split.
  - unfold Simple.delete_receipt.
    change (fun r0 : Simple.Receipt => negb (Js.num_eqb (Simple.id r0) (parseInt id)))
      with (fun x => negb (names id x)).
    replace (Nat.eqb _ _) with false by (symmetry; apply Nat.eqb_neq; lia).
    now rewrite E.
  - split; [unfold names; now rewrite E|]. split; [|exact L].
    intro x. rewrite filter_In, negb_true_iff. split.
    + intros [X Mx]. split; [exact X|]. intros ->. congruence.
    + intros [X D]. split; [exact X|].
      destruct (names id x) eqn:Mx; [|reflexivity]. elim D. now apply U.
Qed.

(** The only receipt of a store, deleted. *)
Lemma simple_delete_existing_witness :
  In first_receipt
    (Simple.receipts
       (@SimpleApi.run RefEngine.engine
          [SimpleApi.PostReceipts (fun _ => 1000) only_image_and_text] Simple.initial))
  /\ @Simple.delete_receipt RefEngine.engine "1" one_receipt
     = (Simple.json (Simple.Deleted true "Receipt deleted" (Int 1)),
        {| Simple.receipts := []; Simple.receiptId := 2 |}).
Proof.
  split; [left; reflexivity|].
  destruct (@simple_delete_existing RefEngine.engine
              [SimpleApi.PostReceipts (fun _ => 1000) only_image_and_text] "1"
              first_receipt (or_introl eq_refl) eq_refl)
    as (rest & D & R & _).
  rewrite R in D. exact D.
Defined.

(** X4.  Create then Delete is a round trip on the stored receipts: when
    the route parameter reads as the id just created, the Delete answers 200
    and the store holds the receipts it held before the Create, in the same
    order; only the counter has moved on. *)
Theorem simple_create_then_delete `{JsEngine} (reqs : list SimpleApi.Request)
    (now : nat -> Z) (body : Body) (id : string) :
  let st := SimpleApi.run reqs Simple.initial in
  Js.truthy (body "imageSrc") = true -> Js.truthy (body "extractedText") = true ->
  parseInt id = Int (Simple.receiptId st) ->
  Simple.delete_receipt id (snd (Simple.post_receipts now body st))
  = (Simple.json (Simple.Deleted true "Receipt deleted" (Int (Simple.receiptId st))),
     {| Simple.receipts := Simple.receipts st;
        Simple.receiptId := Simple.receiptId st + 1 |}).
Proof.
  intros st I T E.
  destruct (run_well_formed reqs Simple.initial initial_well_formed) as [W _].
  fold st in W.
  assert (P : exists r,
             Simple.post_receipts now body st
             = (Simple.status_json 201 (Simple.One r),
                {| Simple.receipts := Simple.receipts st ++ [r];
                   Simple.receiptId := Simple.receiptId st + 1 |})
             /\ Simple.id r = Int (Simple.receiptId st)).
  { eexists. split; [exact (simple_post_valid now body st I T) | reflexivity]. }
  destruct P as (r & -> & Er).
  assert (M : names id r = true).
  { unfold names. rewrite Er, E. simpl. apply Z.eqb_refl. }
  unfold Simple.delete_receipt. cbn [snd Simple.receipts Simple.receiptId].
  change (fun r : Simple.Receipt => negb (Js.num_eqb (Simple.id r) (parseInt id)))
    with (fun r => negb (names id r)).
  rewrite filter_app, (filter_unknown id _ (older_ids_unknown id st W E)).
  cbn [filter]. rewrite M. cbn [negb]. rewrite app_nil_r, length_app. simpl length.
  replace (Nat.eqb _ _) with false by (symmetry; apply Nat.eqb_neq; lia).
  now rewrite E.
Qed.

(** An upload to the empty store, deleted again. *)
Lemma simple_create_then_delete_witness :
  Js.truthy (only_image_and_text "imageSrc") = true
  /\ Js.truthy (only_image_and_text "extractedText") = true
  /\ @parseInt RefEngine.engine "1" = Int 1
  /\ @Simple.delete_receipt RefEngine.engine "1"
       (snd (Simple.post_receipts (fun _ => 1000) only_image_and_text Simple.initial))
     = (Simple.json (Simple.Deleted true "Receipt deleted" (Int 1)),
        {| Simple.receipts := []; Simple.receiptId := 2 |}).
Proof.
  split; [reflexivity|]. split; [reflexivity|]. split; [reflexivity|].
  exact (@simple_create_then_delete RefEngine.engine [] (fun _ => 1000)
           only_image_and_text "1" eq_refl eq_refl eq_refl).
Defined.

Lemma insert_keeps_ties (t : Z) (a : Simple.Receipt) (l : list Simple.Receipt) :
  filter (fun r => Simple.uploadedAt r =? t) (Simple.insert Simple.byUploadedAtDesc a l)
  = filter (fun r => Simple.uploadedAt r =? t) (a :: l).
Proof.
  induction l as [|b l IH]; [reflexivity|].
  cbn [Simple.insert]. destruct (Z.ltb_spec 0 (Simple.byUploadedAtDesc a b)) as [L | L];
    [|reflexivity].
  unfold Simple.byUploadedAtDesc in L.
  cbn [filter] in IH |- *. rewrite IH.
  destruct (Z.eqb_spec (Simple.uploadedAt a) t), (Z.eqb_spec (Simple.uploadedAt b) t);
    try reflexivity.
  lia.
Qed.

Lemma sort_keeps_ties (t : Z) (l : list Simple.Receipt) :
  filter (fun r => Simple.uploadedAt r =? t) (Simple.sort Simple.byUploadedAtDesc l)
  = filter (fun r => Simple.uploadedAt r =? t) l.
Proof.
  induction l as [|a l IH]; [reflexivity|].
  cbn [Simple.sort]. rewrite insert_keeps_ties. cbn [filter]. now rewrite IH.
Qed.

(** X5.  GET /api/receipts answers with the stored receipts rearranged
    newest first, receipts of the same instant keeping their stored order;
    it stores that order, changes nothing else, and a second List answers
    the same and leaves the store as the first left it. *)
Theorem simple_list_newest_first (st : Simple.State) :
  exists l,
    Simple.get_receipts st
    = (Simple.json (Simple.Many l),
       {| Simple.receipts := l; Simple.receiptId := Simple.receiptId st |}) /\
    Permutation l (Simple.receipts st) /\
    Sorted newer_or_same l /\
    (forall t, filter (fun r => Simple.uploadedAt r =? t) l
               = filter (fun r => Simple.uploadedAt r =? t) (Simple.receipts st)) /\
    Simple.get_receipts (snd (Simple.get_receipts st))
    = (Simple.json (Simple.Many l), snd (Simple.get_receipts st)).
Proof.
  exists (Simple.sort Simple.byUploadedAtDesc (Simple.receipts st)).
  split; [reflexivity|]. split; [apply sort_perm|]. split; [apply sort_sorted|].
  split; [intro t; apply sort_keeps_ties|].
  unfold Simple.get_receipts. cbn [snd Simple.receipts Simple.receiptId].
  now rewrite (sort_stable _ (sort_sorted (Simple.receipts st))).
Qed.

Lemma filter_length_split {A : Type} (f g h : A -> bool) (l : list A) :
  (forall x, f x = g x || h x) -> (forall x, g x && h x = false) ->
  (length (filter f l) = length (filter g l) + length (filter h l))%nat.
Proof.
  intros E D. induction l as [|a l IH]; simpl; [reflexivity|].
  rewrite (E a). specialize (D a).
  destruct (g a), (h a); simpl in *; try discriminate; lia.
Qed.

Lemma filter_length_disjoint {A : Type} (g h : A -> bool) (l : list A) :
  (forall x, g x && h x = false) ->
  (length (filter g l) + length (filter h l) <= length l)%nat.
Proof.
  intro D. induction l as [|a l IH]; simpl; [lia|].
  specialize (D a). destruct (g a), (h a); simpl in *; try discriminate; lia.
Qed.

Lemma filter_length_and {A : Type} (g h : A -> bool) (l : list A) :
  (length (filter (fun x => g x && h x) l) <= length (filter g l))%nat.
Proof.
  induction l as [|a l IH]; simpl; [lia|].
  destruct (g a), (h a); simpl; lia.
Qed.

Lemma ge_5_split `{JsEngine} (v : JsVal) :
  Js.ge v 5 = (Js.ge v 5 && Js.le v 18) || Js.gt v 18.
Proof.
  unfold Js.ge, Js.le, Js.gt. destruct (Js.ToNumber v) as [|z]; simpl; [reflexivity|].
  destruct (5 <=? z) eqn:A, (z <=? 18) eqn:B, (18 <? z) eqn:C; simpl; try reflexivity;
    rewrite ?Z.leb_le, ?Z.leb_gt, ?Z.ltb_lt, ?Z.ltb_ge in *; lia.
Qed.

Lemma le_18_gt_18 `{JsEngine} (v : JsVal) : Js.le v 18 && Js.gt v 18 = false.
Proof.
  destruct (Js.le v 18) eqn:L; [|reflexivity]. now rewrite (le_18_not_gt v L).
Qed.

(** X6.  GET /api/stats leaves the store as it is and answers with the
    number of receipts, of Pending ones and of Done ones; [alertReceipts]
    has no upper bound on daysPassed, so it is the number of receipts that
    GET /api/alerts returns plus the number of Pending receipts more than
    18 days old, and it is at most [pendingReceipts]. *)
Theorem simple_stats_counts `{JsEngine} (st : Simple.State) :
  exists total pending completed alert alerts,
    Simple.get_stats st = (Simple.json (Simple.Stats total pending completed alert), st) /\
    fst (Simple.get_alerts st) = Simple.json (Simple.Many alerts) /\
    total = length (Simple.receipts st) /\
    (pending + completed <= total)%nat /\
    (alert <= pending)%nat /\
    (alert
     = length alerts
       + length (filter (fun r => Js.strict_eq (Simple.status r) (JStr "Pending")
                                  && Js.gt (Simple.daysPassed r) 18)
                   (Simple.receipts st)))%nat.
Proof.
  do 4 eexists. exists (filter Simple.isAlert (Simple.receipts st)).
  split; [reflexivity|]. split; [reflexivity|]. split; [reflexivity|].
  split; [|split].
  - apply filter_length_disjoint. intro r.
    destruct (Simple.status r) as [| | b | n | s]; try reflexivity. simpl.
    destruct (String.eqb_spec s "Pending") as [-> |]; reflexivity.
  - apply (filter_length_and
             (fun r => Js.strict_eq (Simple.status r) (JStr "Pending"))
             (fun r => Js.ge (Simple.daysPassed r) 5)).
  - apply filter_length_split; intro r; unfold Simple.isAlert.
    + pose proof (ge_5_split (Simple.daysPassed r)) as G.
      pose proof (le_18_gt_18 (Simple.daysPassed r)) as D.
      destruct (Js.strict_eq (Simple.status r) (JStr "Pending")),
        (Js.ge (Simple.daysPassed r) 5), (Js.le (Simple.daysPassed r) 18),
        (Js.gt (Simple.daysPassed r) 18); simpl in *; congruence.
    + pose proof (le_18_gt_18 (Simple.daysPassed r)) as D.
      destruct (Js.strict_eq (Simple.status r) (JStr "Pending")),
        (Js.ge (Simple.daysPassed r) 5), (Js.le (Simple.daysPassed r) 18),
        (Js.gt (Simple.daysPassed r) 18); simpl in *; congruence.
Qed.

(** ** Update and alerts *)

Lemma filter_mutate_first (p q : Simple.Receipt -> bool) (r' : Simple.Receipt)
    (k : num) (l : list Simple.Receipt) :
  NoDup (map Simple.id l) -> (forall x, p x = true -> Simple.id x = k) ->
  q r' = false ->
  filter q (Simple.mutate_first p (fun _ => r') l)
  = filter (fun r => q r && negb (p r)) l.
Proof.
  intros N K Q. induction l as [|a l IH]; simpl; [reflexivity|].
  inversion N as [|? ? NI N']; subst.
  destruct (p a) eqn:Pa; simpl.
  - rewrite Q, andb_false_r. apply filter_ext_in. intros x X.
    destruct (p x) eqn:Px; [|now rewrite andb_true_r].
    elim NI. rewrite (K a Pa), <- (K x Px). now apply in_map.
  - rewrite andb_true_r. destruct (q a); [f_equal|]; now apply IH.
Qed.

(** X7.  Marking a stored receipt with a status other than Pending takes it
    out of the alerts and changes no other alert: GET /api/alerts after the
    Update returns what it returned before, in the same order, without the
    receipt of that id. *)
Theorem simple_update_leaves_alerts `{JsEngine} (reqs : list SimpleApi.Request) (now : Z)
    (id : string) (body : Body) (s : string) (prev : Simple.Receipt) :
  let st := SimpleApi.run reqs Simple.initial in
  find (names id) (Simple.receipts st) = Some prev ->
  body "status" = JStr s -> s <> EmptyString -> s <> "Pending" ->
  exists before after,
    fst (Simple.get_alerts st) = Simple.json (Simple.Many before) /\
    fst (Simple.get_alerts (snd (Simple.put_receipt now id body st)))
      = Simple.json (Simple.Many after) /\
    after = filter (fun r => negb (names id r)) before /\
    (forall r, In r after -> Simple.id r <> Simple.id prev).
Proof.
  intros st F S NE NP.
  destruct (run_well_formed reqs Simple.initial initial_well_formed) as [(_ & N & _) _].
  fold st in N.
  exists (filter Simple.isAlert (Simple.receipts st)).
  exists (filter (fun r => negb (names id r)) (filter Simple.isAlert (Simple.receipts st))).
  split; [reflexivity|].
  assert (A : filter Simple.isAlert
                (Simple.mutate_first (names id) (fun _ => SimpleApi.updated now body prev)
                   (Simple.receipts st))
              = filter (fun r => negb (names id r))
                  (filter Simple.isAlert (Simple.receipts st))).
  { rewrite (filter_mutate_first (names id) Simple.isAlert _ (parseInt id)); auto.
    - clear. induction (Simple.receipts st) as [|a l IH]; simpl; [reflexivity|].
      destruct (Simple.isAlert a); simpl; [|exact IH].
      destruct (names id a); simpl; now rewrite IH.
    - intros x. apply names_id.
    - unfold Simple.isAlert, SimpleApi.updated. rewrite S. simpl Js.truthy.
      apply String.eqb_neq in NE. rewrite NE. cbn [negb].
      replace (Simple.status _) with (JStr s)
        by (destruct (negb (Js.strict_eq (body "note") JUndefined)); reflexivity).
      simpl. apply String.eqb_neq in NP. now rewrite NP. }
  split.
  - rewrite (put_found now id body st prev F). simpl. now rewrite A.
  - split; [reflexivity|]. intros r I. apply filter_In in I. destruct I as [_ I].
    apply negb_true_iff in I. intro E. apply find_some in F. destruct F as [_ F].
    unfold names in *. rewrite E, F in I. discriminate.
Qed.

(** An alerted receipt, marked Done. *)
Lemma simple_update_leaves_alerts_witness :
  exists prev,
    find (@names RefEngine.engine "1")
      (Simple.receipts
         (@SimpleApi.run RefEngine.engine
            [SimpleApi.PostReceipts (fun _ => 1000)
               (obj [("imageSrc", JStr "x"); ("extractedText", JStr "y");
                     ("daysPassed", JNum (Int 7)); ("daysLeft", JNum (Int 11))])]
            Simple.initial)) = Some prev
    /\ Simple.isAlert (H := RefEngine.engine) prev = true
    /\ fst (@Simple.get_alerts RefEngine.engine
              (snd (@Simple.put_receipt RefEngine.engine 2000 "1"
                      (obj [("status", JStr "Done")])
                      (@SimpleApi.run RefEngine.engine
                         [SimpleApi.PostReceipts (fun _ => 1000)
                            (obj [("imageSrc", JStr "x"); ("extractedText", JStr "y");
                                  ("daysPassed", JNum (Int 7)); ("daysLeft", JNum (Int 11))])]
                         Simple.initial))))
       = Simple.json (Simple.Many []).
Proof.
  eexists. split; [reflexivity|]. split; [reflexivity|].
  destruct (@simple_update_leaves_alerts RefEngine.engine
              [SimpleApi.PostReceipts (fun _ => 1000)
                 (obj [("imageSrc", JStr "x"); ("extractedText", JStr "y");
                       ("daysPassed", JNum (Int 7)); ("daysLeft", JNum (Int 11))])]
              2000 "1" (obj [("status", JStr "Done")]) "Done" _ eq_refl eq_refl)
    as (before & after & B & A & E & _); try discriminate.
  rewrite A, E. cbv in B. injection B as <-. reflexivity.
Defined.

(** ** The message of the daily scan *)

Lemma append_assoc (a b c : string) : ((a ++ b) ++ c = a ++ (b ++ c))%string.
Proof. induction a as [|x a IH]; simpl; [reflexivity | now rewrite IH]. Qed.

Lemma append_empty (a : string) : (a ++ EmptyString = a)%string.
Proof. induction a as [|x a IH]; simpl; [reflexivity | now rewrite IH]. Qed.

Lemma scan_fold `{JsEngine} (snapshot : list (string * Firestore.DocumentData))
    (acc : Original.Scan) :
  let rows := filter ScanRows.inWindow snapshot in
  fold_left (Original.visit Original.tierLine) snapshot acc
  = {| Original.alertCount := Original.alertCount acc + Z.of_nat (length rows);
       Original.messageText :=
         Original.messageText acc ++ ScanRows.concat (map ScanRows.entry rows);
       Original.hasAlerts := Original.hasAlerts acc || negb (Nat.eqb (length rows) 0) |}.
Proof.
  revert acc. induction snapshot as [|doc l IH]; intro acc.
  - simpl. rewrite Z.add_0_r, append_empty, orb_false_r. now destruct acc.
  - cbn [fold_left filter]. rewrite IH. clear IH.
    assert (V : Original.visit Original.tierLine acc doc
                = if ScanRows.inWindow doc
                  then {| Original.alertCount := Original.alertCount acc + 1;
                          Original.messageText :=
                            (Original.messageText acc ++ Original.tierLine (snd doc))
                            ++ Original.details (snd doc);
                          Original.hasAlerts := true |}
                  else acc) by reflexivity.
    rewrite V. destruct (ScanRows.inWindow doc); [|reflexivity].
    cbn [Original.alertCount Original.messageText Original.hasAlerts length map
         ScanRows.concat fold_right].
    f_equal.
    + lia.
    + unfold ScanRows.entry, ScanRows.concat. now rewrite !append_assoc.
    + simpl. now rewrite orb_true_r.
Qed.

(** X8.  The daily scan sends nothing when the query fails or when no row
    has 5 <= daysPassed <= 18; otherwise it sends one message: the heading,
    then for each row in that window, in query order, its tier line and its
    details, then a total equal to the number of those rows.  Rows outside
    the window leave no trace in it. *)
Theorem scan_message `{JsEngine} :
  (forall (APP_URL : JsVal) (snapshot : list (string * Firestore.DocumentData)),
     let rows := filter ScanRows.inWindow snapshot in
     Original.scanWith Original.tierLine APP_URL snapshot
     = match rows with
       | [] => None
       | _ :: _ =>
           Some (Original.footer APP_URL
                   {| Original.alertCount := Z.of_nat (length rows);
                      Original.messageText :=
                        Original.messageText Original.start
                        ++ ScanRows.concat (map ScanRows.entry rows);
                      Original.hasAlerts := true |})
       end) /\
  (forall (APP_URL : JsVal) (snapshot : list (string * Firestore.DocumentData)),
     Original.scanWith Original.tierLine APP_URL snapshot
     = Original.scanWith Original.tierLine APP_URL (filter ScanRows.inWindow snapshot)) /\
  (forall (Db : Type) (C : Firestore.Client Db) (APP_URL : JsVal) (db : Db) message,
     Firestore.where_eq db "status" (JStr "Pending") = Throw message ->
     Original.checkAndSendAlerts APP_URL db = None).
Proof.
  assert (S : forall APP_URL snapshot,
             Original.scanWith Original.tierLine APP_URL snapshot
             = match filter ScanRows.inWindow snapshot with
               | [] => None
               | _ :: _ =>
                   Some (Original.footer APP_URL
                           {| Original.alertCount :=
                                Z.of_nat (length (filter ScanRows.inWindow snapshot));
                              Original.messageText :=
                                Original.messageText Original.start
                                ++ ScanRows.concat
                                     (map ScanRows.entry
                                        (filter ScanRows.inWindow snapshot));
                              Original.hasAlerts := true |})
               end).
  { intros APP_URL snapshot. unfold Original.scanWith. rewrite scan_fold. simpl.
    destruct (filter ScanRows.inWindow snapshot); reflexivity. }
  split; [exact S|]. split.
  - intros APP_URL snapshot. rewrite !S.
    replace (filter ScanRows.inWindow (filter ScanRows.inWindow snapshot))
      with (filter ScanRows.inWindow snapshot); [reflexivity|].
    symmetry. apply filter_all. intros x I. apply filter_In in I. tauto.
  - intros Db C APP_URL db message E. unfold Original.checkAndSendAlerts. now rewrite E.
Qed.

(** ** The Firestore back end without a store, and what it writes *)

Lemma firebase_handle_flag {Db : Type} `{Firestore.Client Db}
    `{FirebaseReads.Collection Db} `{JsEngine}
    (req : FirebaseApi.Request) (st : @Firebase.State Db) :
  Firebase.firebaseInitialized (snd (FirebaseApi.handle req st))
  = Firebase.firebaseInitialized st.
Proof.
  destruct req; cbn [FirebaseApi.handle];
    unfold FirebaseReads.get_receipts, Firebase.post_receipts, Firebase.put_receipt,
      Firebase.delete_receipt, Firebase.get_alerts, FirebaseReads.get_stats;
    destruct (Firebase.firebaseInitialized st) eqn:F; cbn [negb]; try exact F.
  - now destruct (FirebaseReads.orderBy_desc _ _).
  - destruct (_ || _); [exact F|]. now destruct (Firestore.add _ _) as [db' [i | m]].
  - destruct (Firestore.update _ _ _) as [db' [u | m]]; [|exact F].
    now destruct (Firestore.get db' id).
  - now destruct (Firestore.delete _ _) as [db' [u | m]].
  - now destruct (Firestore.where_eq _ _ _).
  - now destruct (FirebaseReads.get_all _).
Qed.

Lemma firebase_handle_unavailable {Db : Type} `{Firestore.Client Db}
    `{FirebaseReads.Collection Db} `{JsEngine}
    (req : FirebaseApi.Request) (st : @Firebase.State Db) :
  Firebase.firebaseInitialized st = false ->
  snd (FirebaseApi.handle req st) = st
  /\ FirebaseApi.code (fst (FirebaseApi.handle req st)) = 503
  /\ FirebaseApi.error (fst (FirebaseApi.handle req st)) = Some "Firebase not initialized".
Proof.
  intro U.
  destruct req; cbn [FirebaseApi.handle];
    unfold FirebaseReads.get_receipts, Firebase.post_receipts, Firebase.put_receipt,
      Firebase.delete_receipt, Firebase.get_alerts, FirebaseReads.get_stats;
    rewrite U; repeat split.
Qed.

(** X9.  The requests that [backend/server.js] serves never change whether
    Firebase counts as initialised.  While it does not, every data route
    answers 503 'Firebase not initialized', whatever the requests and
    however many, and the server's state stays as it is: only a restart
    takes the server out of that mode. *)
Theorem firebase_unavailable {Db : Type} `{Firestore.Client Db}
    `{FirebaseReads.Collection Db} `{JsEngine}
    (reqs : list FirebaseApi.Request) (st : @Firebase.State Db) :
  Firebase.firebaseInitialized (snd (FirebaseApi.serve reqs st))
  = Firebase.firebaseInitialized st /\
  length (fst (FirebaseApi.serve reqs st)) = length reqs /\
  (Firebase.firebaseInitialized st = false ->
   snd (FirebaseApi.serve reqs st) = st /\
   Forall (fun r => FirebaseApi.code r = 503
                    /\ FirebaseApi.error r = Some "Firebase not initialized")
     (fst (FirebaseApi.serve reqs st))).
Proof.
  revert st. induction reqs as [|req reqs IH]; intro st.
  - simpl. repeat split. constructor.
  - cbn [FirebaseApi.serve].
    pose proof (firebase_handle_flag req st) as F.
    pose proof (firebase_handle_unavailable req st) as U.
    destruct (FirebaseApi.handle req st) as [r st'].
    destruct (IH st') as (F' & L & U').
    destruct (FirebaseApi.serve reqs st') as [rs st''].
    cbn [fst snd length] in *.
    split; [congruence|]. split; [now rewrite L|].
    intro D. destruct (U D) as (-> & C & E).
    destruct (U' D) as (-> & A). split; [reflexivity|]. now constructor.
Qed.

(** The server in demo mode, asked to save a receipt and then for the
    list. *)
Lemma firebase_unavailable_witness :
  Firebase.firebaseInitialized Offline.demo = false
  /\ snd (@FirebaseApi.serve unit Offline.client Offline.collection RefEngine.engine
            [FirebaseApi.PostReceipts (fun _ => 0) only_image_and_text;
             FirebaseApi.GetReceipts] Offline.demo)
     = Offline.demo
  /\ Forall (fun r => FirebaseApi.code r = 503
                      /\ FirebaseApi.error r = Some "Firebase not initialized")
       (fst (@FirebaseApi.serve unit Offline.client Offline.collection RefEngine.engine
               [FirebaseApi.PostReceipts (fun _ => 0) only_image_and_text;
                FirebaseApi.GetReceipts] Offline.demo)).
Proof.
  split; [reflexivity|].
  destruct (@firebase_unavailable unit Offline.client Offline.collection RefEngine.engine
              [FirebaseApi.PostReceipts (fun _ => 0) only_image_and_text;
               FirebaseApi.GetReceipts] Offline.demo)
    as (_ & _ & U).
  exact (U eq_refl).
Defined.

Lemma or_defined (v d : JsVal) : d <> JUndefined -> Js.or v d <> JUndefined.
Proof.
  intro D. unfold Js.or. destruct (Js.truthy v) eqn:T; [|exact D].
  intros ->. discriminate T.
Qed.

(** X10.  [backend/server.js] never hands an undefined field to the store:
    every value in the object of a PUT, and in the object of a POST that
    passed validation, is defined, whatever the body leaves out. *)
Theorem firebase_writes_defined (now : nat -> Z) (body : Body) :
  (forall key, ~ In (key, Firestore.Val JUndefined) (Firebase.updateData body)) /\
  (Js.truthy (body "imageSrc") = true -> Js.truthy (body "extractedText") = true ->
   forall key, ~ In (key, Firestore.Val JUndefined) (Firebase.receiptData now body)).
Proof.
  assert (D : forall v d, d <> JUndefined -> forall key key' : string,
                (key, Firestore.Val JUndefined) <> (key', Firestore.Val (Js.or v d))).
  { intros v d N key key' E. injection E as _ E. now apply (or_defined v d N). }
  split.
  - intros key I. simpl in I.
    repeat (destruct I as [E | I];
            [try discriminate E; symmetry in E; revert E; apply D; discriminate|]).
    exact I.
  - intros Ti Te key I. simpl in I.
    repeat (destruct I as [E | I];
            [try discriminate E;
             try (injection E as _ E; rewrite E in *; discriminate);
             symmetry in E; revert E; apply D; discriminate|]).
    exact I.
Qed.

(** ** The analysis of an uploaded file *)

Lemma analysis_cases (generate : string -> Result (option string)) (text : string) :
  Front.analyzeTextForDate generate text = "N/A"
  \/ (text <> EmptyString
      /\ Front.analyzeTextForDate generate text <> EmptyString
      /\ generate text = Ok (Some (Front.analyzeTextForDate generate text))).
Proof.
  unfold Front.analyzeTextForDate.
  destruct (String.eqb_spec text EmptyString) as [-> | T]; [now left|].
  destruct (generate text) as [[d|] | m]; try now left.
  destruct (String.eqb_spec d EmptyString) as [-> | D]; [now left|].
  right. auto.
Qed.

(** X11.  The date analysis never fails and never gives an empty string:
    its result is the date the model returned, or the sentinel 'N/A' when
    the text is empty, the model call or the parsing of its answer throws,
    or the answer has no date; with the sentinel the receipt gets 0 days
    passed and 18 days left. *)
Theorem analysis_date_or_sentinel `{JsEngine}
    (generate : string -> Result (option string)) (text : string) :
  let orderDate := Front.analyzeTextForDate generate text in
  orderDate <> EmptyString /\
  (orderDate = "N/A" \/ (text <> EmptyString /\ generate text = Ok (Some orderDate))) /\
  (text = EmptyString -> orderDate = "N/A") /\
  (forall message, generate text = Throw message -> orderDate = "N/A") /\
  (generate text = Ok None -> orderDate = "N/A") /\
  (generate text = Ok (Some EmptyString) -> orderDate = "N/A") /\
  (orderDate = "N/A" ->
   GeminiService.calculateDateDifference orderDate
   = GeminiService.mkAging (Int 0) (Int 18)).
Proof.
  intro orderDate. subst orderDate.
  split.
  { destruct (analysis_cases generate text) as [-> | (_ & N & _)]; [discriminate | exact N]. }
  split.
  { destruct (analysis_cases generate text) as [E | (T & _ & G)]; [now left | right; auto]. }
  unfold Front.analyzeTextForDate.
  split; [intros ->; reflexivity|].
  split; [intros message ->; now destruct (String.eqb text EmptyString)|].
  split; [intros ->; now destruct (String.eqb text EmptyString)|].
  split; [intros ->; now destruct (String.eqb text EmptyString)|].
  intros ->. reflexivity.
Qed.

(** ** Uploading to the in-memory back end *)

Section UploadToSimple.
Context `{JsEngine}.
Variable extractTextFromImage : Front.File -> Result string.
Variable generate : string -> Result (option string).
Variable createObjectURL : Front.File -> string.
Variable Date_now : Z.
Variable now : nat -> Z.

Local Abbreviation upload :=
  (SimpleFetch.upload extractTextFromImage generate createObjectURL Date_now now).

Lemma stored_aging (n : num) (d : Z) :
  Js.or (Upload.stringify_num n) (JNum (Int d))
  = match n with
    | NaN => JNum (Int d)
    | Int z => if z =? 0 then JNum (Int d) else JNum (Int z)
    end.
Proof.
  destruct n as [|z]; [reflexivity|]. unfold Js.or. simpl.
  now destruct (z =? 0).
Qed.

Lemma upload_saved (file : Front.File) (text : string) (st : Simple.State) :
  extractTextFromImage file = Ok text -> text <> EmptyString ->
  createObjectURL file <> EmptyString -> Simple.receiptId st <> 0 ->
  let orderDate := Front.analyzeTextForDate generate text in
  let aging := GeminiService.calculateDateDifference orderDate in
  let stored :=
    Simple.mkReceipt (Int (Simple.receiptId st)) (JStr (createObjectURL file)) (JStr text)
      (JStr orderDate)
      (Js.or (Upload.stringify_num (GeminiService.daysPassed aging)) (JNum (Int 0)))
      (Js.or (Upload.stringify_num (GeminiService.daysLeft aging)) (JNum (Int 18)))
      (JStr "Pending") (JStr EmptyString)
      (Js.or (JStr (Front.name file)) (JStr ("receipt-" ++ Js.num_to_string (Int (now 0%nat)))))
      (now 1%nat) (now 2%nat) (JStr "system") in
  upload file st
  = ({| Front.id := JNum (Int (Simple.receiptId st));
        Front.imageSrc := createObjectURL file;
        Front.extractedText := text;
        Front.orderDate := orderDate;
        Front.daysPassed := GeminiService.daysPassed aging;
        Front.daysLeft := GeminiService.daysLeft aging;
        Front.status := Pending;
        Front.note := EmptyString;
        Front.fileName := Front.name file |},
     {| Simple.receipts := Simple.receipts st ++ [stored];
        Simple.receiptId := Simple.receiptId st + 1 |}).
Proof.
  intros X T U R orderDate aging stored.
  assert (D : orderDate <> EmptyString).
  { subst orderDate. destruct (analysis_cases generate text) as [-> | (_ & N & _)];
      [discriminate | exact N]. }
  unfold SimpleFetch.upload, Front.processReceiptFile, Front.saveReceiptToBackend,
    SimpleFetch.post.
  rewrite X. fold orderDate. fold aging.
  rewrite (simple_post_valid now
             (Upload.receiptData (createObjectURL file) text orderDate (Front.name file)) st).
  - cbn [fst snd Simple.code Simple.payload Simple.status_json Front.response_status
         Front.response_json Z.leb Z.compare Pos.compare Pos.compare_cont andb
         SimpleFetch.payload_json].
    replace (Js.or _ (JNum (Int Date_now))) with (JNum (Int (Simple.receiptId st))).
    + f_equal. f_equal. f_equal. subst stored. f_equal.
      simpl. unfold Js.or. simpl. apply String.eqb_neq in D. now rewrite D.
    + simpl. unfold Js.or. simpl. apply Z.eqb_neq in R. now rewrite R.
  - simpl. apply negb_true_iff. now apply String.eqb_neq.
  - simpl. apply negb_true_iff. now apply String.eqb_neq.
Qed.

Lemma upload_failed (file : Front.File) (st : Simple.State) :
  extractTextFromImage file = Ok EmptyString
  \/ (exists message, extractTextFromImage file = Throw message) ->
  upload file st = (Front.failed createObjectURL Date_now file, st).
Proof.
  unfold SimpleFetch.upload, Front.processReceiptFile.
  intros [-> | [message ->]]; [|reflexivity].
  unfold Front.saveReceiptToBackend, SimpleFetch.post.
  rewrite simple_post_invalid; [reflexivity|]. right. reflexivity.
Qed.

(** X12.  An upload whose image yields some text is saved once: the
    in-memory server appends one record under the next id and the receipt
    shown in the front end carries that id, the extracted text and the
    calculator's aging for the analysed date.  The stored aging is the
    shown one, except that a [daysPassed] that is not a number is stored as
    0 and a [daysLeft] that is 0 or not a number is stored as 18. *)
Theorem upload_is_saved (reqs : list SimpleApi.Request) (file : Front.File) (text : string) :
  let st := SimpleApi.run reqs Simple.initial in
  extractTextFromImage file = Ok text -> text <> EmptyString ->
  createObjectURL file <> EmptyString ->
  exists shown stored,
    upload file st
    = (shown, {| Simple.receipts := Simple.receipts st ++ [stored];
                 Simple.receiptId := Simple.receiptId st + 1 |}) /\
    Front.id shown = JNum (Simple.id stored) /\
    Simple.id stored = Int (Simple.receiptId st) /\
    Simple.extractedText stored = JStr text /\
    Front.extractedText shown = text /\
    Simple.orderDate stored = JStr (Front.orderDate shown) /\
    Front.orderDate shown = Front.analyzeTextForDate generate text /\
    GeminiService.mkAging (Front.daysPassed shown) (Front.daysLeft shown)
      = GeminiService.calculateDateDifference (Front.orderDate shown) /\
    Simple.daysPassed stored
      = match Front.daysPassed shown with
        | NaN => JNum (Int 0)
        | Int z => JNum (Int z)
        end /\
    Simple.daysLeft stored
      = match Front.daysLeft shown with
        | NaN => JNum (Int 18)
        | Int z => if z =? 0 then JNum (Int 18) else JNum (Int z)
        end /\
    Simple.status stored = JStr "Pending" /\ Front.status shown = Pending.
Proof.
  intros st X T U.
  destruct (run_well_formed reqs Simple.initial initial_well_formed) as [(P & _) _].
  fold st in P.
  eexists. eexists. split.
  - apply (upload_saved file text st X T U). lia.
  - cbn [Front.id Front.extractedText Front.orderDate Front.daysPassed Front.daysLeft
         Front.status Simple.id Simple.extractedText Simple.orderDate Simple.daysPassed
         Simple.daysLeft Simple.status].
    rewrite !stored_aging.
    repeat (split; [reflexivity|]).
    split; [now destruct (GeminiService.calculateDateDifference _)|].
    split.
    + destruct (GeminiService.daysPassed _) as [|z]; [reflexivity|].
      destruct (Z.eqb_spec z 0) as [-> |]; reflexivity.
    + repeat split.
Qed.

(** X13.  An upload whose image yields no text, or whose extraction
    throws, is not saved: the server's state is unchanged (an empty text is
    refused with 400) and the front end shows the receipt of the [catch]
    block, with the note 'Error: Could not process receipt'. *)
Theorem upload_without_text_is_not_saved (file : Front.File) (st : Simple.State) :
  extractTextFromImage file = Ok EmptyString
  \/ (exists message, extractTextFromImage file = Throw message) ->
  exists shown,
    upload file st = (shown, st) /\
    Front.extractedText shown = "Error processing image" /\
    Front.note shown = "Error: Could not process receipt" /\
    Front.orderDate shown = "N/A" /\
    Front.daysPassed shown = Int 0 /\ Front.daysLeft shown = Int 18 /\
    Front.id shown = JNum (Int Date_now) /\
    Front.fileName shown = Front.name file.
Proof.
  intro F. eexists. split; [exact (upload_failed file st F)|]. repeat split.
Qed.

End UploadToSimple.

(** A receipt dated 2025-10-06, uploaded to the empty store. *)
Lemma upload_is_saved_witness :
  exists shown stored,
    @SimpleFetch.upload RefEngine.engine (fun _ => Ok "Order 06/10")
      (fun _ => Ok (Some "2025-10-06")) (fun _ => "blob:1") 5000 (fun _ => 4000)
      (Front.mkFile "r.png" "image/png") Simple.initial
    = (shown, {| Simple.receipts := [stored]; Simple.receiptId := 2 |})
    /\ Front.id shown = JNum (Int 1)
    /\ Front.daysLeft shown = Int 0
    /\ Simple.daysLeft stored = JNum (Int 18).
Proof.
  destruct (@upload_is_saved RefEngine.engine (fun _ => Ok "Order 06/10")
              (fun _ => Ok (Some "2025-10-06")) (fun _ => "blob:1") 5000 (fun _ => 4000)
              [] (Front.mkFile "r.png" "image/png") "Order 06/10" eq_refl)
    as (shown & stored & U & I & S & _); try discriminate.
  exists shown, stored. split; [exact U|].
  cbv in U. injection U as <- <-. repeat split.
Defined.

(** An image without text, uploaded to the empty store. *)
Lemma upload_without_text_is_not_saved_witness :
  exists shown,
    @SimpleFetch.upload RefEngine.engine (fun _ => Ok EmptyString)
      (fun _ => Ok (Some "2025-10-06")) (fun _ => "blob:1") 5000 (fun _ => 4000)
      (Front.mkFile "r.png" "image/png") Simple.initial
    = (shown, Simple.initial)
    /\ Front.note shown = "Error: Could not process receipt".
Proof.
  destruct (@upload_without_text_is_not_saved RefEngine.engine (fun _ => Ok EmptyString)
              (fun _ => Ok (Some "2025-10-06")) (fun _ => "blob:1") 5000 (fun _ => 4000)
              (Front.mkFile "r.png" "image/png") Simple.initial (or_introl eq_refl))
    as (shown & U & _ & N & _).
  exists shown. split; [exact U | exact N].
Defined.

(** ** A batch of files *)

Section Batch.
Variable S : Type.
Variable processReceiptFile : Front.File -> S -> Result Front.Receipt * S.

Local Abbreviation turn := (App.turn S processReceiptFile).
Local Abbreviation outcomes := (App.outcomes S processReceiptFile).

Lemma batch_loop (files : list Front.File) (acc : App.Loop S) :
  let results := outcomes files (App.backend S acc) in
  App.newReceipts S (fold_left turn files acc)
    = (App.newReceipts S acc ++ App.successes results)%list
  /\ App.message S (fold_left turn files acc)
     = match App.lastFailed files results with
       | Some file => Some (App.analysisFailed file)
       | None => App.message S acc
       end
  /\ (App.hadError S (fold_left turn files acc) = false ->
      App.lastFailed files results = None /\ App.hadError S acc = false)
  /\ length results = length files.
Proof.
  revert acc. induction files as [|file files IH]; intro acc.
  - simpl. rewrite app_nil_r. auto.
  - cbn [fold_left App.outcomes]. destruct (IH (turn acc file)) as (N & M & E & L).
    clear IH. unfold App.turn in N, M, E, L |- *.
    destruct (processReceiptFile file (App.backend S acc)) as [[r | m] s];
      cbn [fst snd App.backend App.newReceipts App.message App.hadError] in *.
    + rewrite N, M. cbn [App.successes flat_map App.lastFailed length].
      rewrite <- app_assoc. split; [reflexivity|]. split.
      * now destruct (App.lastFailed files _).
      * split; [|now rewrite L]. intro F. destruct (E F) as [-> A]. auto.
    + rewrite N, M. cbn [App.successes flat_map App.lastFailed length app].
      split; [reflexivity|]. split.
      * now destruct (App.lastFailed files _).
      * split; [|now rewrite L]. intro F. destruct (E F) as [_ A]. discriminate A.
Qed.

Lemma no_success_some_failure (files : list Front.File)
    (results : list (Result Front.Receipt)) :
  length results = length files -> files <> [] -> App.successes results = [] ->
  App.lastFailed files results <> None.
Proof.
  revert results. induction files as [|file files IH]; intros [|r results] L N E;
    try discriminate L; [now elim N|].
  simpl in *. destruct r as [x | m]; [discriminate E|].
  now destruct (App.lastFailed files results).
Qed.

Lemma filter_own_names (names' names : list string) :
  incl names' names -> filter (fun name => negb (App.includes names name)) names' = [].
Proof.
  induction names' as [|n l IH]; intro I; simpl; [reflexivity|].
  replace (App.includes names n) with true.
  - apply IH. intros x X. apply I. now right.
  - symmetry. apply existsb_exists. exists n. split; [apply I; now left|].
    apply String.eqb_refl.
Qed.

(** X14.  After a batch, the receipts of the files whose processing did not
    throw stand before the old ones, in file order; the names of the batch
    are gone from the files in processing; the message is the success message
    with the number of new receipts if there is one, otherwise the error
    message naming the last file, otherwise (no file) none.  The message
    'Could not process any of the selected files.' is never shown. *)
Theorem batch_outcome (files : list Front.File) (st : App.State) (s : S) :
  let results := outcomes files s in
  let new := App.successes results in
  let after := fst (App.handleFilesProcess S processReceiptFile files st s) in
  App.receipts after = (new ++ App.receipts st)%list /\
  (length new <= length files)%nat /\
  App.processingFiles after
    = filter (fun name => negb (App.includes (map Front.name files) name))
        (App.processingFiles st) /\
  App.userMessage after
    = match new with
      | _ :: _ => Some (App.processed (length new))
      | [] => option_map App.analysisFailed (App.lastFailed files results)
      end /\
  App.userMessage after <> Some App.noneProcessed.
Proof.
  intros results new after.
  destruct (batch_loop files
              {| App.newReceipts := []; App.hadError := false; App.message := None;
                 App.backend := s |}) as (N & M & E & L).
  cbn [App.backend App.newReceipts App.message App.hadError app] in N, M, E, L.
  fold results in N, M, E, L. fold new in N.
  assert (U : App.userMessage after
              = match new with
                | _ :: _ => Some (App.processed (length new))
                | [] => option_map App.analysisFailed (App.lastFailed files results)
                end).
  { subst after. unfold App.handleFilesProcess. cbn [fst App.userMessage].
    rewrite N, M. destruct new as [|r new'] eqn:En; [|reflexivity].
    cbn [length Nat.ltb Nat.leb].
    destruct (App.hadError S _) eqn:H.
    - cbn [negb andb]. now destruct (App.lastFailed files results).
    - destruct (E eq_refl) as [F _]. rewrite F.
      destruct files as [|file files']; [reflexivity|].
      elim (no_success_some_failure (file :: files') results L); [discriminate | | exact F].
      exact En. }
  split; [subst after; unfold App.handleFilesProcess; cbn [fst App.receipts]; now rewrite N|].
  split.
  { subst new. rewrite <- L. clear. induction results as [|[r | m] l IH]; simpl; lia. }
  split.
  { subst after. unfold App.handleFilesProcess. cbn [fst App.processingFiles].
    now rewrite filter_app, (filter_own_names _ _ (incl_refl _)), app_nil_r. }
  split; [exact U|].
  rewrite U. destruct new; [|discriminate].
  destruct (App.lastFailed files results); discriminate.
Qed.

End Batch.

(** X15.  With the service that saves to the back end no file of a batch
    is reported as failed: [processReceiptFile] returns a receipt for every
    file, so a batch of n files adds n receipts and shows 'Successfully
    processed n receipt(s).', also when every extraction threw and all n
    receipts are those of the [catch] block. *)
Theorem backend_batch_reports_success `{JsEngine}
    (extractTextFromImage : Front.File -> Result string)
    (generate : string -> Result (option string))
    (createObjectURL : Front.File -> string) (Date_now : Z)
    (S : Type) (fetch_post : Body -> S -> Result Front.FetchResponse * S)
    (files : list Front.File) (st : App.State) (s : S) :
  files <> [] ->
  let process := fun file s =>
    (Ok (fst (Front.processReceiptFile extractTextFromImage generate createObjectURL
                Date_now S fetch_post file s)),
     snd (Front.processReceiptFile extractTextFromImage generate createObjectURL
            Date_now S fetch_post file s)) in
  let after := fst (App.handleFilesProcess S process files st s) in
  App.userMessage after = Some (App.processed (length files)) /\
  length (App.receipts after) = (length files + length (App.receipts st))%nat /\
  ((forall file, In file files -> exists message, extractTextFromImage file = Throw message) ->
   App.receipts after
   = (map (Front.failed createObjectURL Date_now) files ++ App.receipts st)%list).
Proof.
  intros N process after.
  destruct (batch_loop S process files
              {| App.newReceipts := []; App.hadError := false; App.message := None;
                 App.backend := s |}) as (R & _ & _ & _).
  cbn [App.backend App.newReceipts app] in R.
  assert (L : forall fs s0, length (App.successes (App.outcomes S process fs s0)) = length fs).
  { induction fs as [|f fs IH]; intro s0; simpl; [reflexivity|]. now rewrite IH. }
  assert (A : App.receipts after
              = (App.successes (App.outcomes S process files s) ++ App.receipts st)%list).
  { subst after. unfold App.handleFilesProcess. cbn [fst App.receipts]. now rewrite R. }
  split.
  - subst after. unfold App.handleFilesProcess. cbn [fst App.userMessage].
    rewrite R, L. destruct files; [now elim N | reflexivity].
  - split; [now rewrite A, length_app, L|].
    intro T. rewrite A. f_equal. clear - T.
    revert s. induction files as [|f fs IH]; intro s; simpl; [reflexivity|].
    rewrite IH by (intros x X; apply T; now right). f_equal.
    unfold Front.processReceiptFile.
    destruct (T f (or_introl eq_refl)) as [m ->]. reflexivity.
Qed.

(** Two files whose extraction throws, against a back end that is never
    called. *)
Lemma backend_batch_reports_success_witness :
  App.userMessage
    (fst (App.handleFilesProcess unit
            (fun file s =>
               (Ok (fst (@Front.processReceiptFile RefEngine.engine
                           (fun _ => Throw "quota") (fun _ => Ok None) (fun _ => "blob:1")
                           5000 unit (fun _ s => (Throw "offline", s)) file s)),
                snd (@Front.processReceiptFile RefEngine.engine
                       (fun _ => Throw "quota") (fun _ => Ok None) (fun _ => "blob:1")
                       5000 unit (fun _ s => (Throw "offline", s)) file s)))
            [Front.mkFile "a.png" "image/png"; Front.mkFile "b.png" "image/png"]
            (App.mkState [] [] None) tt))
  = Some (App.mkUserMessage App.success "Successfully processed 2 receipt(s).").
Proof.
  destruct (@backend_batch_reports_success RefEngine.engine
              (fun _ => Throw "quota") (fun _ => Ok None) (fun _ => "blob:1") 5000 unit
              (fun _ s => (Throw "offline", s))
              [Front.mkFile "a.png" "image/png"; Front.mkFile "b.png" "image/png"]
              (App.mkState [] [] None) tt) as (M & _); [discriminate|].
  exact M.
Defined.

(** ** Updating and deleting in the front end *)

(** X16.  In the front end an update keeps the length and the order of the
    list, leaves every receipt with another id as it is, and changes in the
    others only the fields it carries (an update of the status keeps every
    note, one of the note every status, and neither changes an id); a
    deletion removes every receipt with that id and no other; and after a
    deletion an update of the same id changes nothing. *)
Theorem front_update_delete (id : JsVal) (updatedFields : App.Partial)
    (receipts : list Front.Receipt) :
  length (App.updateReceipt id updatedFields receipts) = length receipts /\
  (forall before r after,
     receipts = (before ++ r :: after)%list -> Js.strict_eq (Front.id r) id = false ->
     App.updateReceipt id updatedFields receipts
     = (App.updateReceipt id updatedFields before
        ++ r :: App.updateReceipt id updatedFields after)%list) /\
  (App.id updatedFields = None ->
   map Front.id (App.updateReceipt id updatedFields receipts) = map Front.id receipts) /\
  (App.note updatedFields = None ->
   map Front.note (App.updateReceipt id updatedFields receipts) = map Front.note receipts) /\
  (App.status updatedFields = None ->
   map Front.status (App.updateReceipt id updatedFields receipts)
   = map Front.status receipts) /\
  (forall v r,
     App.status updatedFields = Some v ->
     In r (App.updateReceipt id updatedFields receipts) ->
     Js.strict_eq (Front.id r) id = true -> App.id updatedFields = None ->
     Front.status r = v) /\
  (forall r, In r (App.deleteReceipt id receipts)
             <-> In r receipts /\ Js.strict_eq (Front.id r) id = false) /\
  App.updateReceipt id updatedFields (App.deleteReceipt id receipts)
  = App.deleteReceipt id receipts /\
  (App.id updatedFields = None ->
   App.deleteReceipt id (App.updateReceipt id updatedFields receipts)
   = App.deleteReceipt id receipts).
Proof.
  unfold App.updateReceipt, App.deleteReceipt.
  split; [apply length_map|].
  split.
  { intros before r after -> E. rewrite map_app. simpl. now rewrite E. }
  assert (K : forall (A : Type) (f : Front.Receipt -> A),
             (forall r, f (App.spread r updatedFields) = f r) ->
             map f (map (fun r => if Js.strict_eq (Front.id r) id
                                  then App.spread r updatedFields else r) receipts)
             = map f receipts).
  { intros A f E. rewrite map_map. apply map_ext. intro r.
    now destruct (Js.strict_eq (Front.id r) id). }
  split; [intro N; apply K; intro r; simpl; now rewrite N|].
  split; [intro N; apply K; intro r; simpl; now rewrite N|].
  split; [intro N; apply K; intro r; simpl; now rewrite N|].
  split.
  { intros v r V I E N. apply in_map_iff in I. destruct I as (x & <- & _).
    destruct (Js.strict_eq (Front.id x) id) eqn:X.
    - simpl. now rewrite V.
    - congruence. }
  split.
  { intro r. rewrite filter_In, negb_true_iff. reflexivity. }
  clear K. split.
  { induction receipts as [|r l IH]; simpl; [reflexivity|].
    destruct (Js.strict_eq (Front.id r) id) eqn:E; simpl; [exact IH|].
    now rewrite E, IH. }
  intro N. induction receipts as [|r l IH]; simpl; [reflexivity|].
  destruct (Js.strict_eq (Front.id r) id) eqn:E; simpl.
  - rewrite N. simpl. rewrite E. simpl. exact IH.
  - rewrite E. simpl. now rewrite IH.
Qed.

(** ** The cards and the text of a row *)

Lemma cards_partition (r : Front.Receipt) :
  let pending := Status_eqb (Front.status r) Pending
                 && Js.num_leb (Front.daysPassed r) (Int 18) in
  let overdue := Js.num_gtb (Front.daysPassed r) (Int 18)
                 && negb (Status_eqb (Front.status r) Done) in
  let processed := Status_eqb (Front.status r) Done in
  let uncounted := uncounted r in
  (Nat.b2n pending + Nat.b2n overdue + Nat.b2n processed + Nat.b2n uncounted = 1)%nat.
Proof.
  unfold uncounted.
  destruct (Front.status r), (Front.daysPassed r) as [|z]; simpl; try reflexivity;
    destruct (z <=? 18) eqn:L, (18 <? z) eqn:G; simpl; try reflexivity;
    rewrite ?Z.leb_le, ?Z.leb_gt, ?Z.ltb_lt, ?Z.ltb_ge in *; lia.
Qed.

Lemma filter_length_b2n {A : Type} (p : A -> bool) (l : list A) :
  length (filter p l) = fold_right (fun x n => (Nat.b2n (p x) + n)%nat) 0%nat l.
Proof.
  induction l as [|a l IH]; simpl; [reflexivity|].
  destruct (p a); simpl; now rewrite IH.
Qed.

(** X17.  Every receipt is counted by exactly one card of the dashboard or
    by none: the cards and the uncounted receipts (Delayed ones not more than
    18 days old, and Pending or Delayed ones whose daysPassed is not a
    number) add up to the list.  The Overdue card counts the rows labelled
    OVERDUE and the Processed card the rows labelled COMPLETED. *)
Theorem dashboard_cards (receipts : list Front.Receipt) :
  (Cards.pendingCount receipts + Cards.overdueCount receipts
   + Cards.processedCount receipts + length (filter uncounted receipts)
   = length receipts)%nat /\
  Cards.overdueCount receipts
  = length (filter (fun r => String.eqb
                               (ReceiptRow.tierLabel (Front.status r) (Front.daysPassed r))
                               "OVERDUE") receipts) /\
  Cards.processedCount receipts
  = length (filter (fun r => String.eqb
                               (ReceiptRow.tierLabel (Front.status r) (Front.daysPassed r))
                               "COMPLETED") receipts).
Proof.
  split.
  - unfold Cards.pendingCount, Cards.overdueCount, Cards.processedCount.
    rewrite !filter_length_b2n.
    induction receipts as [|r l IH]; simpl; [reflexivity|].
    pose proof (cards_partition r) as P. simpl in P. lia.
  - unfold Cards.overdueCount, Cards.processedCount, ReceiptRow.tierLabel.
    split; f_equal; apply filter_ext; intro r;
      destruct (Front.status r); simpl; try reflexivity;
      destruct (Js.num_gtb (Front.daysPassed r) (Int 18)); simpl; try reflexivity;
      destruct (Js.num_geb (Front.daysPassed r) (Int 9)); reflexivity.
Qed.

(** X18.  For a receipt that is not Done and whose aging is consistent
    (daysLeft = 18 - daysPassed), the text under the label agrees with the
    label: 'n days past due' with n = daysPassed - 18 exactly when the label
    is OVERDUE, and otherwise 'n days remaining' with n = 18 - daysPassed. *)
Theorem remaining_agrees_with_label (r : Front.Receipt) (z : Z) :
  Front.status r <> Done ->
  Front.daysPassed r = Int z ->
  Front.daysLeft r = Int (18 - z) ->
  (18 < z
   /\ ReceiptRow.tierLabel (Front.status r) (Front.daysPassed r) = "OVERDUE"
   /\ Cards.remaining r
      = Some (Js.num_to_string (Int (z - 18)) ++ " days past due"))
  \/ (z <= 18
      /\ ReceiptRow.tierLabel (Front.status r) (Front.daysPassed r) <> "OVERDUE"
      /\ Cards.remaining r
         = Some (Js.num_to_string (Int (18 - z)) ++ " days remaining")).
Proof.
  intros D P L. unfold Cards.remaining, ReceiptRow.tierLabel. rewrite P, L.
  assert (E : Status_eqb (Front.status r) Done = false)
    by (destruct (Front.status r); try reflexivity; now elim D).
  rewrite E. cbn [negb Js.num_gtb Js.num_geb Cards.abs].
  destruct (Z.ltb_spec 18 z) as [G | G].
  - left. split; [exact G|]. split; [reflexivity|].
    replace (0 <=? 18 - z) with false by (symmetry; apply Z.leb_gt; lia).
    now replace (Z.abs (18 - z)) with (z - 18) by lia.
  - right. split; [exact G|]. split.
    + destruct (9 <=? z); discriminate.
    + replace (0 <=? 18 - z) with true by (symmetry; apply Z.leb_le; lia).
      reflexivity.
Qed.

(** A Pending receipt 23 days old. *)
Lemma remaining_agrees_with_label_witness :
  Cards.remaining
    (Front.mkReceipt (JNum (Int 1)) "blob:1" "Order 01/10" "2025-10-01" (Int 23) (Int (-5))
       Pending EmptyString "r.png")
  = Some "5 days past due".
Proof.
  assert (D : Pending <> Done) by discriminate.
  destruct (remaining_agrees_with_label
              (Front.mkReceipt (JNum (Int 1)) "blob:1" "Order 01/10" "2025-10-01" (Int 23)
                 (Int (-5)) Pending EmptyString "r.png") 23 D eq_refl eq_refl)
    as [(_ & _ & R) | (G & _)].
  - exact R.
  - exfalso. revert G. apply Z.lt_nge. reflexivity.
Defined.

Example remaining_of_unparsable_date :
  Cards.remaining
    (Front.mkReceipt (JNum (Int 1)) "blob:1" "text" "soon" NaN NaN Pending EmptyString "r.png")
  = Some "NaN days past due"
  /\ ReceiptRow.tierLabel Pending NaN = "OK".
Proof. split; reflexivity. Qed.

(** ** The statistics of the Firestore back end *)

(** X19.  GET /api/stats of [backend/server.js] never changes the server's
    state.  It answers 503 or 500 with an error, or 200 with counts over the
    rows that the store returned: Pending and Done rows together are at most
    all rows, and [alertReceipts], which has no upper bound on daysPassed, is
    the number of Pending rows in the alert window 5..18 plus the number of
    Pending rows more than 18 days old, at most [pendingReceipts]. *)
Theorem firebase_stats_counts {Db : Type} `{FirebaseReads.Collection Db} `{JsEngine}
    (st : @Firebase.State Db) :
  snd (FirebaseReads.get_stats st) = st /\
  match FirebaseReads.payload (fst (FirebaseReads.get_stats st)) with
  | FirebaseReads.Stats total pending completed alert =>
      FirebaseReads.code (fst (FirebaseReads.get_stats st)) = 200 /\
      Firebase.firebaseInitialized st = true /\
      exists snapshot,
        FirebaseReads.get_all (Firebase.db st) = Ok snapshot /\
        total = length snapshot /\
        (pending + completed <= total)%nat /\
        (alert <= pending)%nat /\
        (alert
         = length (filter (fun doc => Js.strict_eq (snd doc "status") (JStr "Pending")
                                      && Firebase.inWindow (snd doc)) snapshot)
           + length (filter (fun doc => Js.strict_eq (snd doc "status") (JStr "Pending")
                                        && Js.gt (snd doc "daysPassed") 18) snapshot))%nat
  | FirebaseReads.Error message =>
      (FirebaseReads.code (fst (FirebaseReads.get_stats st)) = 503
       /\ Firebase.firebaseInitialized st = false)
      \/ (FirebaseReads.code (fst (FirebaseReads.get_stats st)) = 500
          /\ FirebaseReads.get_all (Firebase.db st) = Throw message)
  | FirebaseReads.Receipts _ => False
  end.
Proof.
  unfold FirebaseReads.get_stats.
  destruct (Firebase.firebaseInitialized st) eqn:F; cbn [negb];
    [|split; [reflexivity | left; split; reflexivity]].
  destruct (FirebaseReads.get_all (Firebase.db st)) as [snapshot | message];
    [|split; [reflexivity | right; split; reflexivity]].
  split; [reflexivity|].
  cbn [fst FirebaseReads.payload FirebaseReads.json FirebaseReads.code].
  split; [reflexivity|]. split; [reflexivity|].
  exists snapshot. split; [reflexivity|].
  split; [apply length_map|].
  assert (M : forall p : Firestore.DocumentData -> bool,
             length (filter p (map snd snapshot))
             = length (filter (fun doc : string * Firestore.DocumentData => p (snd doc))
                         snapshot)).
  { intro p. clear. induction snapshot as [|d l IH]; simpl; [reflexivity|].
    destruct (p (snd d)); simpl; now rewrite IH. }
  split; [|split].
  - apply filter_length_disjoint. intro r.
    destruct (r "status") as [| | b | n | s]; try reflexivity. simpl.
    destruct (String.eqb_spec s "Pending") as [-> |]; reflexivity.
  - apply (filter_length_and
             (fun r : Firestore.DocumentData => Js.strict_eq (r "status") (JStr "Pending"))
             (fun r : Firestore.DocumentData => Js.ge (r "daysPassed") 5)).
  - rewrite M. apply filter_length_split; intros [k r]; unfold Firebase.inWindow;
      cbn [snd];
      pose proof (ge_5_split (r "daysPassed")) as G;
      pose proof (le_18_gt_18 (r "daysPassed")) as D;
      destruct (Js.strict_eq (r "status") (JStr "Pending")),
        (Js.ge (r "daysPassed") 5), (Js.le (r "daysPassed") 18),
        (Js.gt (r "daysPassed") 18); simpl in *; congruence.
Qed.

(** ** The time of day of an order date *)

Lemma digit_bound (c : ascii) (x : Z) : JsDate.digit c = Some x -> 0 <= x <= 9.
Proof.
  unfold JsDate.digit. cbv zeta.
  destruct (Z.leb_spec 48 (Z.of_nat (nat_of_ascii c)));
    destruct (Z.leb_spec (Z.of_nat (nat_of_ascii c)) 57); simpl; intro E;
    try discriminate E.
  injection E as <-. lia.
Qed.

Lemma digits2_bound (a b : ascii) (x : Z) : JsDate.digits2 a b = Some x -> 0 <= x <= 99.
Proof.
  unfold JsDate.digits2.
  destruct (JsDate.digit a) as [p|] eqn:A; [|discriminate].
  destruct (JsDate.digit b) as [q|] eqn:B; [|discriminate].
  intro E. assert (X : x = 10 * p + q) by congruence.
  apply digit_bound in A. apply digit_bound in B. lia.
Qed.

Lemma digits3_bound (a b c : ascii) (x : Z) :
  JsDate.digits3 a b c = Some x -> 0 <= x <= 999.
Proof.
  unfold JsDate.digits3.
  destruct (JsDate.digit a) as [p|] eqn:A; [|discriminate].
  destruct (JsDate.digits2 b c) as [q|] eqn:B; [|discriminate].
  intro E. assert (X : x = 100 * p + q) by congruence.
  apply digit_bound in A. apply digits2_bound in B. lia.
Qed.

Ltac time_step E := cbv beta iota zeta delta [andb] in E.

Ltac time_fields :=
  repeat match goal with
         | E : context [Ascii.eqb ?a ?b] |- _ => destruct (Ascii.eqb a b); time_step E
         | E : context [JsDate.digits2 ?a ?b] |- _ =>
             let x := fresh "x" in
             let B := fresh "B" in
             destruct (JsDate.digits2 a b) as [x|] eqn:B;
             [apply digits2_bound in B | clear B]; time_step E
         | E : context [JsDate.digits3 ?a ?b ?c] |- _ =>
             let x := fresh "x" in
             let B := fresh "B" in
             destruct (JsDate.digits3 a b c) as [x|] eqn:B;
             [apply digits3_bound in B | clear B]; time_step E
         | E : context [?a <=? ?b] |- _ => destruct (Z.leb_spec a b); time_step E
         | E : None = Some _ |- _ => discriminate E
         | E : Some ?a = Some ?b |- _ => assert (a = b) by congruence; clear E
         end.

(** A time of day is less than a day. *)
Lemma parse_time_bound (s : list ascii) (ms : Z) :
  JsDate.parse_time s = Some ms -> 0 <= ms < JsDate.msPerDay.
Proof.
  unfold JsDate.parse_time, JsDate.msPerDay. intro E.
  destruct s as [|h1 [|h2 [|c [|m1 [|m2 [|z s]]]]]]; try discriminate E.
  time_step E.
  destruct s as [|s1 s]; [time_fields; lia|].
  destruct s as [|s2 [|z' s]]; try discriminate E.
  destruct s as [|f1 s]; [time_fields; lia|].
  destruct s as [|f2 [|f3 [|z'' [|more s]]]]; try discriminate E.
  time_fields; lia.
Qed.

Lemma list_ascii_of_string_app (a b : string) :
  list_ascii_of_string (a ++ b) = (list_ascii_of_string a ++ list_ascii_of_string b)%list.
Proof. induction a as [|c a IH]; simpl; [reflexivity | now rewrite IH]. Qed.

Lemma date_time_is_parsed `{JsEngine} (date time : string) (day ms : Z) :
  JsDate.parse_date (list_ascii_of_string date) = Some day ->
  JsDate.parse_time (list_ascii_of_string time) = Some ms ->
  JsDate.Date_new (date ++ "T" ++ time) = Int (day * JsDate.msPerDay + ms).
Proof.
  intros D T. unfold JsDate.Date_new, JsDate.parse_iso.
  rewrite list_ascii_of_string_app.
  destruct (list_ascii_of_string date)
    as [|c0 [|c1 [|c2 [|c3 [|c4 [|c5 [|c6 [|c7 [|c8 [|c9 [|c10 cs]]]]]]]]]]];
    try discriminate D.
  change (firstn 10 ([c0; c1; c2; c3; c4; c5; c6; c7; c8; c9]
                     ++ list_ascii_of_string ("T" ++ time)))
    with [c0; c1; c2; c3; c4; c5; c6; c7; c8; c9].
  rewrite D.
  change (skipn 10 ([c0; c1; c2; c3; c4; c5; c6; c7; c8; c9]
                    ++ list_ascii_of_string ("T" ++ time)))
    with ("T"%char :: list_ascii_of_string time).
  cbn [Ascii.eqb Bool.eqb]. now rewrite T.
Qed.

(** X20.  The aging depends on the calendar day of the order date alone: a
    date with a time of day ([YYYY-MM-DDTHH:mm[:ss[.sss]]Z]) gets the aging
    of the date itself, the number of days from that day to 2025-10-24, so
    that a later order date never has more days passed. *)
Theorem aging_ignores_time_of_day `{JsEngine} (date time : string) (day ms : Z) :
  JsDate.parse_date (list_ascii_of_string date) = Some day ->
  JsDate.parse_time (list_ascii_of_string time) = Some ms ->
  GeminiService.calculateDateDifference (date ++ "T" ++ time)
  = GeminiService.calculateDateDifference date /\
  GeminiService.calculateDateDifference date
  = GeminiService.mkAging (Int (20385 - day)) (Int (day - 20367)) /\
  (forall date' day' p p',
     JsDate.parse_date (list_ascii_of_string date') = Some day' -> day <= day' ->
     GeminiService.daysPassed (GeminiService.calculateDateDifference date) = Int p ->
     GeminiService.daysPassed (GeminiService.calculateDateDifference date') = Int p' ->
     p' <= p).
Proof.
  intros D T.
  destruct (aging_of_calendar_date date day D) as [A _].
  assert (A' : GeminiService.calculateDateDifference date
               = GeminiService.mkAging (Int (20385 - day)) (Int (day - 20367))).
  { rewrite A. do 2 f_equal. lia. }
  split; [|split; [exact A'|]].
  - rewrite A'.
    assert (N : (date ++ "T" ++ time)%string <> "N/A").
    { intro E. apply (f_equal list_ascii_of_string) in E.
      rewrite list_ascii_of_string_app in E.
      destruct (list_ascii_of_string date)
        as [|c0 [|c1 [|c2 [|c3 [|c4 [|c5 [|c6 [|c7 [|c8 [|c9 [|c10 cs]]]]]]]]]]];
        discriminate. }
    rewrite (aging_of_parsed _ _ N (date_time_is_parsed date time day ms D T)). cbv zeta.
    pose proof (parse_time_bound _ _ T) as B.
    assert (Q : - (GeminiService.referenceTime - (day * JsDate.msPerDay + ms))
                = (day - 20385) * JsDate.msPerDay + ms)
      by (unfold GeminiService.referenceTime, JsDate.msPerDay; lia).
    rewrite Q, Z.div_add_l by discriminate.
    rewrite (Z.div_small ms JsDate.msPerDay B).
    f_equal; f_equal; lia.
  - intros date' day' p p' D' L P P'.
    destruct (aging_of_calendar_date date' day' D') as [B _].
    rewrite A in P. rewrite B in P'. cbn [GeminiService.daysPassed] in P, P'.
    assert (p = 20385 - day) by congruence.
    assert (p' = 20385 - day') by congruence. lia.
Qed.

(** The last millisecond of 2025-10-01. *)
Lemma aging_ignores_time_of_day_witness :
  @GeminiService.calculateDateDifference RefEngine.engine "2025-10-01T23:59:59.999Z"
  = GeminiService.mkAging (Int 23) (Int (-5)).
Proof.
  destruct (@aging_ignores_time_of_day RefEngine.engine "2025-10-01" "23:59:59.999Z"
              20362 86399999 eq_refl eq_refl) as (E & A & _).
  change ("2025-10-01T23:59:59.999Z")
    with ("2025-10-01" ++ "T" ++ "23:59:59.999Z")%string.
  rewrite E. exact A.
Defined.
